(** * atc-blender: the federation substrate, embedded and checked

    A shallow embedding of the Python sources

    - [auth_helper/dss_auth_helper.py]   (authority token broker),
    - [auth_helper/utils.py]             (JWKS cache, scope-enforcing gate),
    - [common/http_download.py]          (safe JSON fetcher),
    - [rid_operations/dss_rid_helper.py] (RID clusters, ISA and subscription
                                          calls on the DSS),

    with the statements of the specification proved, or refuted, on it.

    Conventions.  Network peers, the clock, the UUID generator and library
    functions ([urlparse], [json.loads], [pyproj.Geod], [jwt]) are oracles:
    Section variables, indexed by the number of calls made so far where the
    source may see a different answer on each call.  Python exceptions are
    values of [exn]; a function that may raise returns a [result].  Calls of
    [logger] have no effect on any value and are left out. *)

From Stdlib Require Import ZArith QArith Qminmax Lia Lqa Bool Ascii.
From Stdlib Require Import Floats.PrimFloat.
From stdpp Require Import gmap strings list pretty.

Set Warnings "-register-all".

Local Open Scope string_scope.
Local Open Scope list_scope.
Local Open Scope Z_scope.

(** ** Python values shared by the modules *)

(** A JSON document as [json.loads] and [response.json()] return it. *)
Inductive json : Type :=
| JNull
| JBool (b : bool)
| JNum (n : Z)
| JStr (s : string)
| JArr (items : list json)
| JObj (fields : list (string * json)).

(** [isinstance(v, dict)] *)
Definition is_dict (v : json) : bool :=
  match v with JObj _ => true | _ => false end.

(** Python truthiness of a JSON value ([if v:]). *)
Definition truthy (v : json) : bool :=
  match v with
  | JNull => false
  | JBool b => b
  | JNum n => negb (Z.eqb n 0)
  | JStr s => negb (String.eqb s "")
  | JArr l => negb (Nat.eqb (length l) 0)
  | JObj l => negb (Nat.eqb (length l) 0)
  end.

(** [d.get(key)] on a dict given as its item list. *)
Fixpoint dict_get (key : string) (fields : list (string * json)) : option json :=
  match fields with
  | [] => None
  | (k, v) :: rest => if String.eqb k key then Some v else dict_get key rest
  end.

(** The exceptions the modelled code raises or lets through. *)
Inductive exn : Type :=
| UnboundLocalError (name : string)
| ValueError (msg : string)
| KeyError (key : string)
| TypeError (msg : string)
| AttributeError (msg : string)
| ZeroDivisionError (msg : string)
| RequestException (msg : string)
| JwksFetchError (url msg : string).

Inductive result (A : Type) : Type :=
| Ok (a : A)
| Raise (e : exn).
Arguments Ok {A} a.
Arguments Raise {A} e.

Definition is_ok {A} (r : result A) : bool :=
  match r with Ok _ => true | Raise _ => false end.

(** [s.startswith((p1, p2, ...))] *)
Definition startswith_any (prefixes : list string) (s : string) : bool :=
  existsb (fun p => String.prefix p s) prefixes.

(** [" ".join(parts)] *)
Definition join_space (parts : list string) : string := String.concat " " parts.

Definition env_get (v : option string) (default : string) : string :=
  match v with Some s => s | None => default end.


Definition is_Some_bool {A} (o : option A) : bool :=
  match o with Some _ => true | None => false end.

(** Whitespace as [str.split()] and [str.strip()] see it (the ASCII part). *)
Definition is_space (c : ascii) : bool :=
  let n := nat_of_ascii c in
  ((9 <=? n) && (n <=? 13) || (28 <=? n) && (n <=? 32))%nat.

(** [s.lstrip(chars)], [s.rstrip(chars)] and [s.strip()] for a set of
    characters given as a test. *)
Fixpoint lstrip (drop : ascii -> bool) (s : string) : string :=
  match s with
  | EmptyString => EmptyString
  | String c rest => if drop c then lstrip drop rest else s
  end.

Definition rstrip (drop : ascii -> bool) (s : string) : string :=
  String.rev (lstrip drop (String.rev s)).

Definition py_strip (s : string) : string := rstrip is_space (lstrip is_space s).

Definition is_slash (c : ascii) : bool := Ascii.eqb c "/"%char.

(** [s.split(sep)] for a one-character separator. *)
Fixpoint split_on (sep : ascii) (word : string) (s : string) : list string :=
  match s with
  | EmptyString => [word]
  | String c rest =>
      if Ascii.eqb c sep then word :: split_on sep "" rest
      else split_on sep (word +:+ String c "") rest
  end.

(** [d[key]] on a JSON value. *)
Definition getitem (key : string) (v : json) : result json :=
  match v with
  | JObj fields =>
      match dict_get key fields with
      | Some x => Ok x
      | None => Raise (KeyError key)
      end
  | _ => Raise (TypeError "not subscriptable")
  end.
(** ** auth_helper/dss_auth_helper.py: the authority token broker *)

Module TokenBroker.

(** A naive [datetime], in microseconds since the epoch. *)
Definition datetime : Type := Z.

Definition micros_per_second : Z := 1000000.

(** [timedelta(minutes=m)] *)
Definition timedelta_minutes (m : Z) : Z := m * 60 * micros_per_second.

(** The text [datetime.isoformat()] produces, kept as its two parts:
    ["YYYY-MM-DDTHH:MM:SS"] (whole seconds) and the fraction [".ffffff"],
    which Python prints only when the microsecond field is not zero. *)
Record iso_string : Type := {
  iso_seconds : Z;
  iso_fraction : option Z
}.

Definition isoformat (d : datetime) : iso_string :=
  {| iso_seconds := d / micros_per_second;
     iso_fraction := if d mod micros_per_second =? 0 then None
                     else Some (d mod micros_per_second) |}.

(** [datetime.strptime(s, "%Y-%m-%dT%H:%M:%S.%f")]: the format demands the
    fraction, a text without one raises [ValueError]. *)
Definition strptime_f (s : iso_string) : result datetime :=
  match iso_fraction s with
  | Some us => Ok (iso_seconds s * micros_per_second + us)
  | None => Raise (ValueError "time data does not match format")
  end.

(** The JSON document kept under a cache key:
    [{"credentials": ..., "created_at": ...}]. *)
Record TokenDetails : Type := {
  credentials : json;
  created_at : iso_string
}.

(** A Redis key: its value, and the deadline [EXPIRE] gave it. *)
Record RedisEntry : Type := {
  entry_value : TokenDetails;
  entry_deadline : option Z
}.

Inductive redis_op : Type :=
| OpSet (key : string) (v : TokenDetails)
| OpExpire (key : string) (ttl : Z).

(** [requests.get(url, params=...)] and [requests.post(url, data=..., headers=...)] *)
Inductive http_request : Type :=
| HttpGet (url : string) (params : list (string * option string))
| HttpPostForm (url : string) (data : list (string * option string))
    (headers : list (string * string)).

(** A response: its status, and what [response.json()] gives ([None] when it
    raises [ValueError]). *)
Record Response : Type := {
  status_code : Z;
  json_body : option json
}.

Inductive http_result : Type :=
| Responds (r : Response)
| Fails (e : exn).

(** What the broker acts on: the wall clock, the Redis store and the log of
    the store operations and HTTP requests made so far. *)
Record World : Type := {
  clock : Z;
  redis : gmap string RedisEntry;
  redis_log : list redis_op;
  http_log : list http_request
}.

Definition M (A : Type) : Type := World -> result A * World.

Definition ret {A} (a : A) : M A := fun w => (Ok a, w).
Definition raise {A} (e : exn) : M A := fun w => (Raise e, w).
Definition lift {A} (r : result A) : M A := fun w => (r, w).
Definition bind {A B} (c : M A) (k : A -> M B) : M B :=
  fun w => match c w with
           | (Ok a, w') => k a w'
           | (Raise e, w') => (Raise e, w')
           end.

Notation "x <- c ;; k" := (bind c (fun x => k))
  (at level 100, c at level 99, k at level 200, right associativity).
Notation "c ;;; k" := (bind c (fun _ => k))
  (at level 100, k at level 200, right associativity).

(** The store answers every command: an error of the Redis client itself
    (a lost connection between [set] and [expire], say) is not among the
    outcomes modelled. *)

(** [redis.get(key)]: a key whose deadline has passed is gone. *)
Definition redis_lookup (w : World) (key : string) : option TokenDetails :=
  match redis w !! key with
  | Some e =>
      match entry_deadline e with
      | Some d => if clock w <? d then Some (entry_value e) else None
      | None => Some (entry_value e)
      end
  | None => None
  end.

Definition redis_get (key : string) : M (option TokenDetails) :=
  fun w => (Ok (redis_lookup w key), w).

(** [redis.set(key, value)]: stores the value and clears any deadline. *)
Definition redis_set (key : string) (v : TokenDetails) : M unit :=
  fun w => (Ok tt,
            {| clock := clock w;
               redis := <[key := {| entry_value := v; entry_deadline := None |}]> (redis w);
               redis_log := redis_log w ++ [OpSet key v];
               http_log := http_log w |}).

(** [redis.expire(key, ttl)]: a live key gets the deadline [now + ttl]. *)
Definition redis_expire (key : string) (ttl : Z) : M unit :=
  fun w => (Ok tt,
            {| clock := clock w;
               redis := match redis_lookup w key with
                        | Some v => <[key := {| entry_value := v;
                                                entry_deadline := Some (clock w + ttl) |}]> (redis w)
                        | None => redis w
                        end;
               redis_log := redis_log w ++ [OpExpire key ttl];
               http_log := http_log w |}).

(** The process environment read by the module. *)
Record Env : Type := {
  DSS_AUTH_URL : option string;
  DSS_AUTH_TOKEN_ENDPOINT : option string;
  DSS_SELF_AUDIENCE : option string;
  AUTH_DSS_CLIENT_ID : option string;
  AUTH_DSS_CLIENT_SECRET : option string
}.

(** [AuthorityCredentialsGetter]: [self.now] is read once, in [__init__];
    [self.redis] is the store of the world. *)
Record AuthorityCredentialsGetter : Type := {
  now : datetime
}.

(** [AuthorityCredentialsGetter()] at wall-clock time [clock w]. *)
Definition __init__ (w : World) : AuthorityCredentialsGetter := {| now := clock w |}.

Section Broker.

(** The token endpoint: the answer to the [n]-th request of the run. *)
Variable token_endpoint : nat -> http_request -> http_result.
(** [urlparse(url)._replace(path=p).geturl()] *)
Variable url_replace_path : string -> string -> string.
Variable env : Env.

Definition http_send (req : http_request) : M Response :=
  fun w =>
    let w' := {| clock := clock w; redis := redis w; redis_log := redis_log w;
                 http_log := http_log w ++ [req] |} in
    match token_endpoint (length (http_log w)) req with
    | Responds r => (Ok r, w')
    | Fails e => (Raise e, w')
    end.

(** [try_parse_json]: [response.json()], the [ValueError] logged and raised again. *)
Definition try_parse_json (response : Response) : result json :=
  match json_body response with
  | Some v => Ok v
  | None => Raise (ValueError "response is not JSON")
  end.

Definition auth_server_url : string :=
  env_get (DSS_AUTH_URL env) "http://host.docker.internal:8085"
  +:+ env_get (DSS_AUTH_TOKEN_ENDPOINT env) "/auth/token".

Definition local_prefixes : list string :=
  ["http://local_"; "http://local-"; "https://local_"; "https://local-"].

Definition get_payload (audience : string) (scopes_str : string) : list (string * option string) :=
  let issuer := if String.eqb audience "localhost" then Some audience else None in
  [("grant_type", Some "client_credentials");
   ("intended_audience", DSS_SELF_AUDIENCE env);
   ("scope", Some scopes_str);
   ("issuer", issuer)].

Definition post_payload (audience : string) (scopes_str : string) : list (string * option string) :=
  [("grant_type", Some "client_credentials");
   ("client_id", AUTH_DSS_CLIENT_ID env);
   ("client_secret", AUTH_DSS_CLIENT_SECRET env);
   ("audience", Some audience);
   ("scope", Some scopes_str)].

Definition form_headers : list (string * string) :=
  [("Content-Type", "application/x-www-form-urlencoded")].

Definition _request_credentials (audience : string) (scopes : list string) : M json :=
  let scopes_str := join_space scopes in
  if startswith_any local_prefixes auth_server_url then
    token_data <- http_send (HttpGet auth_server_url (get_payload audience scopes_str)) ;;
    lift (try_parse_json token_data)
  else
    token_data <- http_send (HttpPostForm auth_server_url (post_payload audience scopes_str)
                               form_headers) ;;
    let parsed :=                      (* the [try] under [status_code == 200] *)
      if status_code token_data =? 200 then
        match try_parse_json token_data with
        | Ok v => Some v
        | Raise _ => None                (* [except ValueError: pass] *)
        end
      else None in
    match parsed with
    | Some v => ret v
    | None =>
        let get_url := url_replace_path auth_server_url "/token" in
        token_data_get <- http_send (HttpGet get_url (get_payload audience scopes_str)) ;;
        lift (try_parse_json token_data_get)
    end.

Definition _get_rid_credentials (audience : string) : M json :=
  _request_credentials audience ["rid.service_provider"; "rid.display_provider"].

Definition _get_scd_credentials (audience : string) : M json :=
  _request_credentials audience ["utm.strategic_coordination"; "utm.conformance_monitoring_sa"].

Definition _get_constraints_credentials (audience : string) : M json :=
  _request_credentials audience ["utm.constraint_processing"].

Definition _get_credentials (audience token_type : string) : M json :=
  if String.eqb token_type "rid" then _get_rid_credentials audience
  else if String.eqb token_type "scd" then _get_scd_credentials audience
  else if String.eqb token_type "constraints" then _get_constraints_credentials audience
  else raise (ValueError "Invalid token type").

Definition _cache_credentials (self : AuthorityCredentialsGetter)
    (cache_key : string) (creds : json) : M unit :=
  redis_set cache_key {| credentials := creds; created_at := isoformat (now self) |} ;;;
  redis_expire cache_key (timedelta_minutes 58).

(** The [if/elif/elif] that assigns [token_suffix]: it has no [else], so for
    any other [token_type] the local stays unbound and reading it raises. *)
Definition token_suffix_of (token_type : string) : result string :=
  if String.eqb token_type "rid" then Ok "_auth_rid_token"
  else if String.eqb token_type "scd" then Ok "_auth_scd_token"
  else if String.eqb token_type "constraints" then Ok "_auth_constraints_token"
  else Raise (UnboundLocalError "token_suffix").

(** [self.now < set_date + timedelta(minutes=58)] *)
Definition is_fresh (self : AuthorityCredentialsGetter) (set_date : datetime) : bool :=
  now self <? set_date + timedelta_minutes 58.

Definition get_cached_credentials (self : AuthorityCredentialsGetter)
    (audience token_type : string) : M json :=
  token_suffix <- lift (token_suffix_of token_type) ;;
  let cache_key := audience +:+ token_suffix in
  token_details <- redis_get cache_key ;;
  cached <- match token_details with
            | Some td =>
                set_date <- lift (strptime_f (created_at td)) ;;
                ret (if is_fresh self set_date then Some (credentials td) else None)
            | None => ret None
            end ;;
  match cached with
  | Some creds => ret creds
  | None =>
      creds <- _get_credentials audience token_type ;;
      _cache_credentials self cache_key creds ;;;
      ret creds
  end.

(** *** Properties of the broker *)


(** A call is served from the cache when it sends no request. *)
Definition served_from_cache (w w' : World) : Prop := http_log w' = http_log w.

Definition valid_token_type (token_type : string) : bool :=
  String.eqb token_type "rid" || String.eqb token_type "scd"
  || String.eqb token_type "constraints".

Ltac run_M := unfold bind, ret, raise, lift, redis_get, redis_set, redis_expire, http_send in *; simpl in *.

Lemma http_send_frame (req : http_request) (w : World) :
  let w' := snd (http_send req w) in
  clock w' = clock w /\ redis w' = redis w /\ redis_log w' = redis_log w
  /\ http_log w' = http_log w ++ [req].
Proof.
  unfold http_send. destruct (token_endpoint _ _); simpl; auto.
Qed.

(** Asking the endpoint touches neither the clock nor the store, and sends
    at least one request. *)
Lemma request_credentials_frame (audience : string) (scopes : list string) (w : World) :
  let w' := snd (_request_credentials audience scopes w) in
  clock w' = clock w /\ redis w' = redis w /\ redis_log w' = redis_log w
  /\ exists req reqs, http_log w' = http_log w ++ req :: reqs.
Proof.
  unfold _request_credentials.
  destruct (startswith_any local_prefixes auth_server_url).
  - run_M. destruct (token_endpoint _ _) as [r|e]; simpl.
    + repeat split; eauto.
    + repeat split; eauto.
  - run_M. destruct (token_endpoint (length (http_log w)) _) as [r|e]; simpl.
    + destruct (status_code r =? 200).
      * destruct (try_parse_json r); simpl.
        -- repeat split; eauto.
        -- destruct (token_endpoint _ _); simpl; rewrite <- ?app_assoc; simpl;
             repeat split; eauto.
      * destruct (token_endpoint _ _); simpl; rewrite <- ?app_assoc; simpl;
             repeat split; eauto.
    + repeat split; eauto.
Qed.

Lemma get_credentials_frame (audience token_type : string) (w : World) :
  valid_token_type token_type = true ->
  let w' := snd (_get_credentials audience token_type w) in
  clock w' = clock w /\ redis w' = redis w /\ redis_log w' = redis_log w
  /\ exists req reqs, http_log w' = http_log w ++ req :: reqs.
Proof.
  unfold valid_token_type, _get_credentials, _get_rid_credentials,
    _get_scd_credentials, _get_constraints_credentials.
  intros Hv.
  destruct (String.eqb token_type "rid"); [apply request_credentials_frame|].
  destruct (String.eqb token_type "scd"); [apply request_credentials_frame|].
  destruct (String.eqb token_type "constraints"); [apply request_credentials_frame|].
  discriminate.
Qed.

Lemma token_suffix_of_valid (token_type : string) :
  valid_token_type token_type = true ->
  exists sfx, token_suffix_of token_type = Ok sfx.
Proof.
  unfold valid_token_type, token_suffix_of. intros Hv.
  destruct (String.eqb token_type "rid"); [eauto|].
  destruct (String.eqb token_type "scd"); [eauto|].
  destruct (String.eqb token_type "constraints"); [eauto|discriminate].
Qed.

Lemma token_suffix_of_ok (token_type sfx : string) :
  token_suffix_of token_type = Ok sfx -> valid_token_type token_type = true.
Proof.
  unfold valid_token_type, token_suffix_of.
  destruct (String.eqb token_type "rid"); [reflexivity|].
  destruct (String.eqb token_type "scd"); [reflexivity|].
  destruct (String.eqb token_type "constraints"); [reflexivity|discriminate].
Qed.

(** The world after [_cache_credentials]. *)
Definition cached_world (self : AuthorityCredentialsGetter) (key : string)
    (creds : json) (w : World) : World :=
  let td := {| credentials := creds; created_at := isoformat (now self) |} in
  {| clock := clock w;
     redis := <[key := {| entry_value := td;
                          entry_deadline := Some (clock w + timedelta_minutes 58) |}]>
                (<[key := {| entry_value := td; entry_deadline := None |}]> (redis w));
     redis_log := redis_log w ++ [OpSet key td; OpExpire key (timedelta_minutes 58)];
     http_log := http_log w |}.

Lemma cache_credentials_spec (self : AuthorityCredentialsGetter) (key : string)
    (creds : json) (w : World) :
  _cache_credentials self key creds w = (Ok tt, cached_world self key creds w).
Proof.
  unfold _cache_credentials, cached_world. run_M.
  unfold redis_lookup. simpl. rewrite lookup_insert_eq. simpl.
  rewrite <- app_assoc. reflexivity.
Qed.

(** A hit: a live record whose timestamp parses and is judged fresh. *)
Lemma get_cached_credentials_hit (self : AuthorityCredentialsGetter)
    (audience token_type sfx : string) (w : World) (td : TokenDetails) (d : datetime) :
  token_suffix_of token_type = Ok sfx ->
  redis_lookup w (audience +:+ sfx) = Some td ->
  strptime_f (created_at td) = Ok d ->
  is_fresh self d = true ->
  get_cached_credentials self audience token_type w = (Ok (credentials td), w).
Proof.
  intros Hs Hl Hp Hf. unfold get_cached_credentials. run_M.
  rewrite Hs, Hl, Hp, Hf. reflexivity.
Qed.

(** A miss: no live record, or one judged stale. *)
Definition cache_miss (self : AuthorityCredentialsGetter) (key : string) (w : World) : Prop :=
  redis_lookup w key = None
  \/ exists td d, redis_lookup w key = Some td /\ strptime_f (created_at td) = Ok d
                  /\ is_fresh self d = false.

Lemma get_cached_credentials_miss (self : AuthorityCredentialsGetter)
    (audience token_type sfx : string) (w : World) :
  token_suffix_of token_type = Ok sfx ->
  cache_miss self (audience +:+ sfx) w ->
  get_cached_credentials self audience token_type w =
    match _get_credentials audience token_type w with
    | (Ok creds, w1) => (Ok creds, cached_world self (audience +:+ sfx) creds w1)
    | (Raise e, w1) => (Raise e, w1)
    end.
Proof.
  intros Hs Hm. unfold get_cached_credentials.
  unfold bind at 1. unfold lift at 1. rewrite Hs.
  unfold bind at 1. unfold redis_get at 1.
  assert (Hc : forall k : option json -> M json,
             bind (match redis_lookup w (audience +:+ sfx) with
                   | Some td =>
                       set_date <- lift (strptime_f (created_at td)) ;;
                       ret (if is_fresh self set_date then Some (credentials td) else None)
                   | None => ret None
                   end) k w = k None w).
  { intros k. destruct Hm as [Hn | (td & d & Hl & Hp & Hf)].
    - rewrite Hn. reflexivity.
    - rewrite Hl. unfold bind, lift, ret. rewrite Hp, Hf. reflexivity. }
  rewrite Hc. unfold bind at 1.
  destruct (_get_credentials audience token_type w) as [[creds|e] w1]; [|reflexivity].
  unfold bind. rewrite cache_credentials_spec. reflexivity.
Qed.

Lemma app_cons_neq {A} (l : list A) (x : A) (xs : list A) : l ++ x :: xs <> l.
Proof.
  intros H. apply (f_equal (@length A)) in H. rewrite length_app in H. simpl in H. lia.
Qed.

(** Whether a live, parseable record is served depends on [self.now] only. *)
Lemma served_iff_fresh (self : AuthorityCredentialsGetter)
    (audience token_type sfx : string) (w : World) (td : TokenDetails) (d : datetime) :
  token_suffix_of token_type = Ok sfx ->
  redis_lookup w (audience +:+ sfx) = Some td ->
  strptime_f (created_at td) = Ok d ->
  served_from_cache w (snd (get_cached_credentials self audience token_type w))
  <-> now self < d + timedelta_minutes 58.
Proof.
  intros Hs Hl Hp. unfold served_from_cache.
  destruct (is_fresh self d) eqn:Hf.
  - rewrite (get_cached_credentials_hit _ _ _ _ _ _ _ Hs Hl Hp Hf). simpl.
    unfold is_fresh in Hf. split; [lia | reflexivity].
  - rewrite (get_cached_credentials_miss _ _ _ _ _ Hs)
      by (right; exists td, d; auto).
    pose proof (get_credentials_frame audience token_type w (token_suffix_of_ok _ _ Hs))
      as (_ & _ & _ & req & reqs & Hlog).
    destruct (_get_credentials audience token_type w) as [[creds|e] w1]; simpl in *;
      unfold is_fresh in Hf; (split; [rewrite Hlog; intros H; destruct (app_cons_neq _ _ _ H) | lia]).
Qed.

(** The timestamp a getter writes parses back to [self.now] exactly when
    [self.now] has a microsecond field that is not zero. *)
Lemma strptime_isoformat (d : datetime) :
  d mod micros_per_second <> 0 -> strptime_f (isoformat d) = Ok d.
Proof.
  intros H. unfold strptime_f, isoformat. simpl.
  destruct (d mod micros_per_second =? 0) eqn:E; [lia|].
  f_equal. unfold micros_per_second in *.
  pose proof (Z.div_mod d 1000000). lia.
Qed.

Lemma strptime_isoformat_whole_second (d : datetime) :
  d mod micros_per_second = 0 ->
  strptime_f (isoformat d) = Raise (ValueError "time data does not match format").
Proof.
  intros H. unfold strptime_f, isoformat. simpl. rewrite H. reflexivity.
Qed.


(** The clock moves on by [dt]; nothing else changes. *)
Definition advance (dt : Z) (w : World) : World :=
  {| clock := clock w + dt; redis := redis w; redis_log := redis_log w;
     http_log := http_log w |}.

Lemma cached_world_lookup (self : AuthorityCredentialsGetter) (key : string)
    (creds : json) (w : World) (dt : Z) :
  dt < timedelta_minutes 58 ->
  redis_lookup (advance dt (cached_world self key creds w)) key =
    Some {| credentials := creds; created_at := isoformat (now self) |}.
Proof.
  intros Hdt. unfold redis_lookup, advance, cached_world. simpl.
  rewrite lookup_insert_eq. simpl.
  destruct (clock w + dt <? clock w + timedelta_minutes 58) eqn:E; [reflexivity|lia].
Qed.

(** C8.  A [token_type] outside rid, scd and constraints leaves the local
    [token_suffix] unassigned: [get_cached_credentials] raises
    [UnboundLocalError] when it builds the cache key, before the store is
    read or written, and the [ValueError("Invalid token type")] of
    [_get_credentials] is never reached. *)
Theorem get_cached_credentials_unknown_token_type
    (self : AuthorityCredentialsGetter) (audience token_type : string) (w : World) :
  valid_token_type token_type = false ->
  get_cached_credentials self audience token_type w
    = (Raise (UnboundLocalError "token_suffix"), w)
  /\ _get_credentials audience token_type w
    = (Raise (ValueError "Invalid token type"), w).
Proof.
  unfold valid_token_type, get_cached_credentials, _get_credentials, token_suffix_of.
  intros Hv.
  destruct (String.eqb token_type "rid"); [discriminate|].
  destruct (String.eqb token_type "scd"); [discriminate|].
  destruct (String.eqb token_type "constraints"); [discriminate|].
  split; reflexivity.
Qed.





(** What a miss leaves behind when the endpoint answered. *)
Lemma get_cached_credentials_miss_ok (self : AuthorityCredentialsGetter)
    (audience token_type sfx : string) (w0 w1 : World) (creds : json) :
  token_suffix_of token_type = Ok sfx ->
  cache_miss self (audience +:+ sfx) w0 ->
  get_cached_credentials self audience token_type w0 = (Ok creds, w1) ->
  exists wn, _get_credentials audience token_type w0 = (Ok creds, wn)
             /\ w1 = cached_world self (audience +:+ sfx) creds wn
             /\ clock wn = clock w0 /\ redis wn = redis w0 /\ redis_log wn = redis_log w0.
Proof.
  intros Hs Hm Hc. rewrite (get_cached_credentials_miss _ _ _ _ _ Hs Hm) in Hc.
  pose proof (get_credentials_frame audience token_type w0 (token_suffix_of_ok _ _ Hs))
    as (Hck & Hr & Hrl & _).
  destruct (_get_credentials audience token_type w0) as [[c|e] wn]; [|discriminate].
  simpl in *. injection Hc as -> <-. exists wn. auto.
Qed.

(** C3, as the code has it.  For a token type in rid, scd, constraints:
    (1) a live cached record is served exactly when the getter's own [now]
    (read at construction) is before [created_at] + 58 minutes; (2) a miss
    that obtains credentials stores them by one SET with [created_at] equal
    to that [now], followed by an EXPIRE of 58 minutes; (3) a later call made
    less than 58 minutes after the miss, through a getter constructed less
    than 58 minutes after the first one was, returns the same credentials,
    sends no request and writes nothing.  The getter's [now] is taken with
    a microsecond field that is not zero. *)
Theorem cached_credentials_reused
    (self other : AuthorityCredentialsGetter) (audience token_type sfx : string)
    (w0 w1 : World) (creds : json) (dt : Z) :
  token_suffix_of token_type = Ok sfx ->
  now self mod micros_per_second <> 0 ->
  cache_miss self (audience +:+ sfx) w0 ->
  get_cached_credentials self audience token_type w0 = (Ok creds, w1) ->
  0 <= dt < timedelta_minutes 58 ->
  now other < now self + timedelta_minutes 58 ->
  let key := audience +:+ sfx in
  let td := {| credentials := creds; created_at := isoformat (now self) |} in
  (forall (w : World) (td' : TokenDetails) (d : datetime),
      redis_lookup w key = Some td' -> strptime_f (created_at td') = Ok d ->
      served_from_cache w (snd (get_cached_credentials other audience token_type w))
      <-> now other < d + timedelta_minutes 58)
  /\ redis w1 !! key = Some {| entry_value := td;
                               entry_deadline := Some (clock w0 + timedelta_minutes 58) |}
  /\ redis_log w1 = redis_log w0 ++ [OpSet key td; OpExpire key (timedelta_minutes 58)]
  /\ get_cached_credentials other audience token_type (advance dt w1)
     = (Ok creds, advance dt w1).
Proof.
  intros Hs Hus Hm Hc Hdt Ho key td.
  destruct (get_cached_credentials_miss_ok _ _ _ _ _ _ _ Hs Hm Hc)
    as (wn & Hg & -> & Hck & Hr & Hrl).
  split; [|split; [|split]].
  - intros w td' d Hl Hp. apply (served_iff_fresh other _ _ _ _ _ _ Hs Hl Hp).
  - unfold cached_world. simpl. rewrite lookup_insert_eq, Hck. reflexivity.
  - unfold cached_world. simpl. rewrite Hrl. reflexivity.
  - apply (get_cached_credentials_hit other audience token_type sfx _ td (now self) Hs).
    + apply cached_world_lookup. lia.
    + simpl. apply strptime_isoformat, Hus.
    + unfold is_fresh. apply Z.ltb_lt. exact Ho.
Qed.


(** *** Further properties of the broker *)

Lemma cached_world_lookup_now (self : AuthorityCredentialsGetter) (key : string)
    (creds : json) (w : World) :
  redis_lookup (cached_world self key creds w) key =
    Some {| credentials := creds; created_at := isoformat (now self) |}.
Proof.
  unfold redis_lookup, cached_world. simpl. rewrite lookup_insert_eq. simpl.
  destruct (clock w <? clock w + timedelta_minutes 58) eqn:E; [reflexivity|].
  unfold timedelta_minutes, micros_per_second in E. lia.
Qed.

(** X16.  The exceptions [get_cached_credentials] raises before it comes
    to [_cache_credentials] leave the store as it was: when the call raises
    because [token_suffix] is unbound, because the stored [created_at] does
    not parse, or because the token request failed (transport error, answer
    that is not JSON, the exception then being the one [_get_credentials]
    raised), nothing has been written.  In the model, whose store always
    answers, these are all the exceptions of the call. *)
Theorem failures_before_the_write_leave_the_store
    (self : AuthorityCredentialsGetter) (audience token_type : string) (w w' : World)
    (e : exn) :
  get_cached_credentials self audience token_type w = (Raise e, w') ->
  (e = UnboundLocalError "token_suffix"
   \/ e = ValueError "time data does not match format"
   \/ fst (_get_credentials audience token_type w) = Raise e)
  /\ redis w' = redis w /\ redis_log w' = redis_log w /\ clock w' = clock w.
Proof.
  intros H. destruct (token_suffix_of token_type) as [sfx|e0] eqn:Hs.
  2:{ unfold get_cached_credentials in H. run_M. rewrite Hs in H.
      injection H as <- <-. split; [|auto]. left.
      unfold token_suffix_of in Hs.
      repeat match type of Hs with (if ?b then _ else _) = _ => destruct b end;
        try discriminate. injection Hs as <-. reflexivity. }
  assert (Hmiss : cache_miss self (audience +:+ sfx) w ->
                  fst (_get_credentials audience token_type w) = Raise e
                  /\ redis w' = redis w /\ redis_log w' = redis_log w
                  /\ clock w' = clock w).
  { intros Hm. rewrite (get_cached_credentials_miss _ _ _ _ _ Hs Hm) in H.
    pose proof (get_credentials_frame audience token_type w (token_suffix_of_ok _ _ Hs))
      as (Hck & Hr & Hrl & _).
    destruct (_get_credentials audience token_type w) as [[c|e1] wn]; [discriminate|].
    simpl in *. injection H as <- <-. auto. }
  destruct (redis_lookup w (audience +:+ sfx)) as [td|] eqn:Hl.
  2:{ destruct Hmiss as (He & Hrest); [left; exact Hl|]. split; [auto | exact Hrest]. }
  destruct (strptime_f (created_at td)) as [d|e1] eqn:Hp.
  - destruct (is_fresh self d) eqn:Hf.
    + rewrite (get_cached_credentials_hit _ _ _ _ _ _ _ Hs Hl Hp Hf) in H. discriminate.
    + destruct Hmiss as (He & Hrest); [right; exists td, d; auto|].
      split; [auto | exact Hrest].
  - unfold get_cached_credentials in H. run_M. rewrite Hs, Hl, Hp in H.
    injection H as <- <-. split; [|auto]. right. left.
    unfold strptime_f in Hp. destruct (iso_fraction (created_at td)); [discriminate|].
    injection Hp as <-. reflexivity.
Qed.

(** X17.  A getter constructed on a whole second writes a [created_at]
    without fraction ([isoformat] prints none), which the format with [%f]
    refuses: once such a getter has cached credentials, every call for the
    same audience and token type, through any getter, raises [ValueError]
    for as long as the record is in the store (58 minutes), without asking
    the endpoint and without touching the record. *)
Theorem whole_second_record_is_unreadable
    (self other : AuthorityCredentialsGetter) (audience token_type sfx : string)
    (w0 w1 : World) (creds : json) (dt : Z) :
  token_suffix_of token_type = Ok sfx ->
  now self mod micros_per_second = 0 ->
  cache_miss self (audience +:+ sfx) w0 ->
  get_cached_credentials self audience token_type w0 = (Ok creds, w1) ->
  0 <= dt < timedelta_minutes 58 ->
  get_cached_credentials other audience token_type (advance dt w1)
  = (Raise (ValueError "time data does not match format"), advance dt w1).
Proof.
  intros Hs Hws Hm Hc Hdt.
  destruct (get_cached_credentials_miss_ok _ _ _ _ _ _ _ Hs Hm Hc)
    as (wn & _ & -> & _).
  pose proof (cached_world_lookup self (audience +:+ sfx) creds wn dt (proj2 Hdt)) as Hl.
  unfold get_cached_credentials. unfold bind, lift, redis_get.
  rewrite Hs, Hl. simpl created_at.
  rewrite (strptime_isoformat_whole_second _ Hws). reflexivity.
Qed.

Lemma request_credentials_constant_endpoint (audience : string) (scopes : list string)
    (w : World) (r : Response) (v : json) :
  (forall n req, token_endpoint n req = Responds r) ->
  json_body r = Some v ->
  fst (_request_credentials audience scopes w) = Ok v.
Proof.
  intros He Hj. unfold _request_credentials, try_parse_json.
  destruct (startswith_any local_prefixes auth_server_url); run_M; rewrite !He; simpl;
    rewrite ?Hj; simpl; [reflexivity|].
  destruct (status_code r =? 200); simpl; [reflexivity|].
  rewrite He. simpl. rewrite Hj. reflexivity.
Qed.

(** X18.  The status code of the token endpoint's answer is logged and
    nothing more: when the endpoint answers every request with the same
    response, whatever its status, and that response has a JSON body, a call
    that misses the cache returns the body as the credentials and caches it
    like a token. *)
Theorem error_answers_are_cached (self : AuthorityCredentialsGetter)
    (audience token_type sfx : string) (w0 : World) (r : Response) (v : json) :
  token_suffix_of token_type = Ok sfx ->
  cache_miss self (audience +:+ sfx) w0 ->
  (forall n req, token_endpoint n req = Responds r) ->
  json_body r = Some v ->
  exists w1,
    get_cached_credentials self audience token_type w0 = (Ok v, w1)
    /\ redis_lookup w1 (audience +:+ sfx)
       = Some {| credentials := v; created_at := isoformat (now self) |}.
Proof.
  intros Hs Hm He Hj.
  rewrite (get_cached_credentials_miss _ _ _ _ _ Hs Hm).
  assert (Hg : fst (_get_credentials audience token_type w0) = Ok v).
  { pose proof (token_suffix_of_ok _ _ Hs) as Hv.
    unfold valid_token_type in Hv.
    unfold _get_credentials, _get_rid_credentials, _get_scd_credentials,
      _get_constraints_credentials.
    destruct (String.eqb token_type "rid");
      [apply (request_credentials_constant_endpoint _ _ _ r); assumption|].
    destruct (String.eqb token_type "scd");
      [apply (request_credentials_constant_endpoint _ _ _ r); assumption|].
    destruct (String.eqb token_type "constraints");
      [apply (request_credentials_constant_endpoint _ _ _ r); assumption|discriminate]. }
  destruct (_get_credentials audience token_type w0) as [[c|e] wn]; simpl in Hg;
    [|discriminate].
  injection Hg as ->. eexists. split; [reflexivity|]. apply cached_world_lookup_now.
Qed.

Lemma str_app_length (s t : string) :
  String.length (s +:+ t) = (String.length s + String.length t)%nat.
Proof.
  induction s as [|c s IH]; [reflexivity|].
  change (String c s +:+ t) with (String c (s +:+ t)). simpl. rewrite IH. reflexivity.
Qed.

Lemma str_app_assoc (s t u : string) : (s +:+ t) +:+ u = s +:+ (t +:+ u).
Proof.
  induction s as [|c s IH]; [reflexivity|].
  change (String c s +:+ t) with (String c (s +:+ t)).
  change (String c (s +:+ t) +:+ u) with (String c ((s +:+ t) +:+ u)).
  rewrite IH. reflexivity.
Qed.

Lemma str_app_suffix_inj (a b s t : string) :
  String.length s = String.length t -> a +:+ s = b +:+ t -> a = b /\ s = t.
Proof.
  intros Hlen. revert b. induction a as [|c a IH]; intros b H.
  - destruct b as [|d b]; [split; [reflexivity | exact H]|].
    change ("" +:+ s) with s in H. apply (f_equal String.length) in H.
    rewrite str_app_length in H. simpl in H. lia.
  - destruct b as [|d b].
    + change ("" +:+ t) with t in H. apply (f_equal String.length) in H.
      rewrite str_app_length in H. simpl in H. lia.
    + change (String c a +:+ s) with (String c (a +:+ s)) in H.
      change (String d b +:+ t) with (String d (b +:+ t)) in H.
      injection H as -> H. destruct (IH b H) as [-> ->]. split; reflexivity.
Qed.

(** X19.  Cache keys do not collide: two calls with token types among rid,
    scd and constraints read and write the same key only when they have the
    same audience and the same token type. *)
Theorem cache_keys_do_not_collide (audience1 audience2 type1 type2 sfx1 sfx2 : string) :
  token_suffix_of type1 = Ok sfx1 ->
  token_suffix_of type2 = Ok sfx2 ->
  audience1 +:+ sfx1 = audience2 +:+ sfx2 ->
  audience1 = audience2 /\ type1 = type2.
Proof.
  unfold token_suffix_of. intros H1 H2 Hk.
  assert (Hlong : forall a b s, a +:+ s = b +:+ "_auth_constraints_token" ->
                                String.length s = 15%nat ->
                                s = "nstraints_token").
  { intros a b s H Hl.
    change "_auth_constraints_token" with ("_auth_co" +:+ "nstraints_token") in H.
    rewrite <- str_app_assoc in H.
    apply str_app_suffix_inj in H as [_ H]; [exact H | exact Hl]. }
  destruct (String.eqb type1 "rid") eqn:E1;
    [|destruct (String.eqb type1 "scd") eqn:E1';
      [|destruct (String.eqb type1 "constraints") eqn:E1''; [|discriminate]]];
  (destruct (String.eqb type2 "rid") eqn:E2;
    [|destruct (String.eqb type2 "scd") eqn:E2';
      [|destruct (String.eqb type2 "constraints") eqn:E2''; [|discriminate]]]);
  injection H1 as <-; injection H2 as <-;
  repeat match goal with
         | H : String.eqb _ _ = true |- _ => apply String.eqb_eq in H; subst
         end;
  try (apply str_app_suffix_inj in Hk as [-> _]; [split; reflexivity | reflexivity]);
  try (apply str_app_suffix_inj in Hk as [_ Hk]; [discriminate Hk | reflexivity]);
  try (apply Hlong in Hk; [discriminate Hk | reflexivity]);
  try (symmetry in Hk; apply Hlong in Hk; [discriminate Hk | reflexivity]).
Qed.

End Broker.

(** *** A concrete run: scenario 1 of the specification *)

Definition demo_env : Env :=
  {| DSS_AUTH_URL := Some "https://auth.example";
     DSS_AUTH_TOKEN_ENDPOINT := Some "/oauth/token";
     DSS_SELF_AUDIENCE := Some "blender.example";
     AUTH_DSS_CLIENT_ID := Some "client";
     AUTH_DSS_CLIENT_SECRET := Some "secret" |}.

Definition access_token (t : string) : json := JObj [("access_token", JStr t)].

(** An endpoint that hands out ["t1"] to the first request and ["t2"] after. *)
Definition demo_endpoint (n : nat) (req : http_request) : http_result :=
  Responds {| status_code := 200;
              json_body := Some (access_token (match n with O => "t1" | _ => "t2" end)) |}.

Definition demo_replace_path (url path : string) : string := "https://auth.example" +:+ path.

Definition empty_world (t : Z) : World :=
  {| clock := t; redis := ∅; redis_log := []; http_log := [] |}.

Definition demo_call (g : AuthorityCredentialsGetter) (token_type : string) : M json :=
  get_cached_credentials demo_endpoint demo_replace_path demo_env g "dss.example" token_type.

(** A getter constructed one microsecond after the epoch, first used one
    second later. *)
Definition early_getter : AuthorityCredentialsGetter := {| now := 1 |}.
Definition after_first_call : World := snd (demo_call early_getter "rid" (empty_world 1000000)).

Lemma get_cached_credentials_unknown_token_type_witness :
  demo_call early_getter "cmsa" (empty_world 1000000)
    = (Raise (UnboundLocalError "token_suffix"), empty_world 1000000).
Proof.
  exact (proj1 (get_cached_credentials_unknown_token_type demo_endpoint demo_replace_path
                  demo_env early_getter "dss.example" "cmsa" (empty_world 1000000)
                  eq_refl)).
Defined.

Lemma cached_credentials_reused_witness :
  demo_call early_getter "rid" (advance 3479000000 after_first_call)
    = (Ok (access_token "t1"), advance 3479000000 after_first_call).
Proof.
  refine (proj2 (proj2 (proj2
    (cached_credentials_reused demo_endpoint demo_replace_path demo_env
       early_getter early_getter "dss.example" "rid" "_auth_rid_token"
       (empty_world 1000000) after_first_call (access_token "t1") 3479000000
       eq_refl _ _ _ _ _)))).
  - vm_compute. discriminate.
  - left. reflexivity.
  - vm_compute. reflexivity.
  - vm_compute. split; [discriminate | reflexivity].
  - vm_compute. reflexivity.
Defined.



(** C3 as stated fails.  The first getter is constructed at 1 us and misses
    at 1 s; a second getter is constructed and used 57 min 59.5 s after that
    miss.  The record is still in the store, but its [created_at] is the
    first getter's construction time, so the second getter judges it stale:
    a second request is sent, other credentials come back and the store is
    written a second time. *)
Lemma second_call_within_58_minutes_refetches :
  let w1 := advance 3479500000 after_first_call in
  let late_getter := __init__ w1 in
  let r2 := demo_call late_getter "rid" w1 in
  fst (demo_call early_getter "rid" (empty_world 1000000)) = Ok (access_token "t1")
  /\ clock w1 < 1000000 + timedelta_minutes 58
  /\ is_Some_bool (redis_lookup w1 "dss.example_auth_rid_token") = true
  /\ fst r2 = Ok (access_token "t2")
  /\ length (http_log (snd r2)) = 2%nat
  /\ length (redis_log (snd r2)) = 4%nat.
Proof.
  vm_compute. repeat split; reflexivity.
Qed.

(** The same getter, used again 59 minutes after its construction: the
    record is served although the clock of the call is past
    [created_at] + 58 minutes. *)
Lemma served_past_58_minutes_of_created_at :
  let w0 := empty_world 600000000 in
  let w1 := advance 2940000000 (snd (demo_call early_getter "rid" w0)) in
  clock w1 >= now early_getter + timedelta_minutes 58
  /\ demo_call early_getter "rid" w1 = (Ok (access_token "t1"), w1).
Proof.
  vm_compute. split; [discriminate | reflexivity].
Qed.

(** A getter constructed on a whole second stores a [created_at] without
    fraction; its next call cannot read the timestamp back. *)
Lemma whole_second_getter_cannot_read_back :
  let g := {| now := 2000000 |} in
  let w1 := snd (demo_call g "rid" (empty_world 2000000)) in
  fst (demo_call g "rid" w1) = Raise (ValueError "time data does not match format").
Proof.
  vm_compute. reflexivity.
Qed.

Lemma request_credentials_transport_example :
  http_log (snd (_request_credentials
                   (fun _ _ => Responds {| status_code := 404; json_body := None |})
                   demo_replace_path demo_env "dss.example" ["rid.service_provider"]
                   (empty_world 0)))
  = [HttpPostForm "https://auth.example/oauth/token"
       [("grant_type", Some "client_credentials"); ("client_id", Some "client");
        ("client_secret", Some "secret"); ("audience", Some "dss.example");
        ("scope", Some "rid.service_provider")]
       [("Content-Type", "application/x-www-form-urlencoded")];
     HttpGet "https://auth.example/token"
       [("grant_type", Some "client_credentials");
        ("intended_audience", Some "blender.example");
        ("scope", Some "rid.service_provider"); ("issuer", None)]].
Proof.
  vm_compute. reflexivity.
Qed.

(** *** The local endpoint as the specification words it

    "Hostname begins with [local_] or [local-] under an http or https
    scheme": the scheme and the host name of a URL
    [scheme://userinfo@host:port/...], both without regard to case. *)














(** An endpoint that is down, and one that refuses the client with a JSON
    error document. *)
Definition down_endpoint (n : nat) (req : http_request) : http_result :=
  Fails (RequestException "connection refused").

Definition invalid_client : json := JObj [("error", JStr "invalid_client")].

Definition refusing_endpoint (n : nat) (req : http_request) : http_result :=
  Responds {| status_code := 401; json_body := Some invalid_client |}.

Lemma failures_before_the_write_leave_the_store_witness :
  redis (snd (get_cached_credentials down_endpoint demo_replace_path demo_env early_getter
                "dss.example" "scd" after_first_call))
  = redis after_first_call.
Proof.
  refine (proj1 (proj2 (failures_before_the_write_leave_the_store down_endpoint
                   demo_replace_path demo_env
                   early_getter "dss.example" "scd" after_first_call
                   (snd (get_cached_credentials down_endpoint demo_replace_path demo_env
                           early_getter "dss.example" "scd" after_first_call))
                   (RequestException "connection refused") _))).
  vm_compute. reflexivity.
Defined.

(** A getter constructed on the second 2 s. *)
Definition whole_second_getter : AuthorityCredentialsGetter := {| now := 2000000 |}.

Lemma whole_second_record_is_unreadable_witness :
  let w1 := snd (demo_call whole_second_getter "rid" (empty_world 2000000)) in
  demo_call early_getter "rid" (advance 60000000 w1)
  = (Raise (ValueError "time data does not match format"), advance 60000000 w1).
Proof.
  refine (whole_second_record_is_unreadable demo_endpoint demo_replace_path demo_env
            whole_second_getter early_getter "dss.example" "rid" "_auth_rid_token"
            (empty_world 2000000) _ (access_token "t1") 60000000 eq_refl eq_refl _ _ _).
  - left. reflexivity.
  - vm_compute. reflexivity.
  - vm_compute. split; [discriminate | reflexivity].
Defined.

Lemma error_answers_are_cached_witness :
  exists w1,
    get_cached_credentials refusing_endpoint demo_replace_path demo_env early_getter
      "dss.example" "scd" (empty_world 1000000) = (Ok invalid_client, w1)
    /\ redis_lookup w1 ("dss.example" +:+ "_auth_scd_token")
       = Some {| credentials := invalid_client; created_at := isoformat (now early_getter) |}.
Proof.
  refine (error_answers_are_cached refusing_endpoint demo_replace_path demo_env early_getter
            "dss.example" "scd" "_auth_scd_token" (empty_world 1000000)
            {| status_code := 401; json_body := Some invalid_client |} invalid_client
            eq_refl _ _ eq_refl).
  - left. reflexivity.
  - intros n req. reflexivity.
Defined.

Lemma cache_keys_do_not_collide_witness :
  "dss.example" = "dss.example" /\ "rid" = "rid".
Proof.
  exact (cache_keys_do_not_collide "dss.example" "dss.example" "rid" "rid"
           "_auth_rid_token" "_auth_rid_token" eq_refl eq_refl eq_refl).
Defined.

End TokenBroker.

(** ** auth_helper/utils.py: the JWKS cache *)

Module JwksCache.

Local Open Scope Q_scope.

(** Seconds, as [time.time()] gives them.  Python floats are taken as exact
    rationals: the function only adds, doubles, and takes minima and maxima. *)
Definition seconds : Type := Q.

Definition Qltb (x y : Q) : bool := negb (Qle_bool y x).

(** What a dict may be keyed by: [True == 1] and [False == 0] as keys. *)
Inductive dict_key : Type :=
| KNum (n : Z)
| KStr (s : string).

Definition dict_key_eqb (a b : dict_key) : bool :=
  match a, b with
  | KNum x, KNum y => Z.eqb x y
  | KStr x, KStr y => String.eqb x y
  | _, _ => false
  end.

(** The key a JSON value makes, when it is hashable. *)
Definition as_dict_key (v : json) : option dict_key :=
  match v with
  | JBool b => Some (KNum (if b then 1 else 0)%Z)
  | JNum n => Some (KNum n)
  | JStr s => Some (KStr s)
  | _ => None
  end.

(** What the cached [session.get(url)] exchange comes to. *)
Inductive fetch : Type :=
| GetRaises                       (* [session.get] raises a RequestException *)
| StatusError                     (* [raise_for_status] raises HTTPError *)
| Body (data : option json).      (* [response.json()]; [None]: it raises ValueError *)

Section Cache.

(** Verifier material, and [RSAAlgorithm.from_jwk(json.dumps(jwk))]
    ([None] when it raises). *)
Variable pubkey : Type.
Variable from_jwk : json -> option pubkey.

(** The module constants read from the environment. *)
Variable JWKS_CACHE_TTL_S : Q.
Variable JWKS_FETCH_BACKOFF_INITIAL_S : Q.
Variable JWKS_FETCH_BACKOFF_MAX_S : Q.

Definition keys_dict : Type := list (dict_key * pubkey).

(** [keys[kid] = material] *)
Fixpoint keys_set (kid : dict_key) (material : pubkey) (keys : keys_dict) : keys_dict :=
  match keys with
  | [] => [(kid, material)]
  | (k, m) :: rest =>
      if dict_key_eqb k kid then (k, material) :: rest
      else (k, m) :: keys_set kid material rest
  end.

Fixpoint keys_get (kid : dict_key) (keys : keys_dict) : option pubkey :=
  match keys with
  | [] => None
  | (k, m) :: rest => if dict_key_eqb k kid then Some m else keys_get kid rest
  end.

Record CacheEntry : Type := {
  jwks : option json;
  public_keys : keys_dict;
  expires_at : seconds;
  next_retry_at : seconds;
  backoff_s : seconds
}.

(** [max(JWKS_FETCH_BACKOFF_INITIAL_S, 0.1)] *)
Definition initial_backoff : seconds := Qmax JWKS_FETCH_BACKOFF_INITIAL_S (1 # 10).

Definition new_entry : CacheEntry :=
  {| jwks := None; public_keys := []; expires_at := 0; next_retry_at := 0;
     backoff_s := initial_backoff |}.

(** The loop body of [_build_public_keys] for one element of [keys]. *)
Definition add_public_key (keys : keys_dict) (jwk : json) : keys_dict :=
  match jwk with
  | JObj fields =>
      match dict_get "kid" fields with
      | Some kid =>
          if truthy kid then
            match from_jwk jwk, as_dict_key kid with
            | Some material, Some k => keys_set k material keys
            | _, _ => keys          (* the exception is logged, the key skipped *)
            end
          else keys
      | None => keys
      end
  | _ => keys
  end.

(** [_build_public_keys]: iterating [jwks.get("keys", [])] raises [TypeError]
    for a value that is no list, string or dict. *)
Definition _build_public_keys (data : list (string * json)) : result keys_dict :=
  match dict_get "keys" data with
  | None => Ok []
  | Some (JArr items) => Ok (fold_left add_public_key items [])
  | Some (JStr _) | Some (JObj _) => Ok []   (* iterates strings: none is a dict *)
  | Some _ => Raise (TypeError "object is not iterable")
  end.

Definition jwks_truthy (j : option json) : bool :=
  match j with Some v => truthy v | None => false end.

Definition jwks_value (j : option json) : json :=
  match j with Some v => v | None => JNull end.

(** [entry.get("backoff_s") or max(JWKS_FETCH_BACKOFF_INITIAL_S, 0.1)] *)
Definition backoff_or_initial (e : CacheEntry) : seconds :=
  if Qeq_bool (backoff_s e) 0 then initial_backoff else backoff_s e.

(** The entry after a fetch that succeeded at time [now]. *)
Definition on_success (data : json) (keys : keys_dict) (now : seconds) : CacheEntry :=
  {| jwks := Some data;
     public_keys := keys;
     expires_at := now + Qmax JWKS_CACHE_TTL_S 0;
     next_retry_at := 0;
     backoff_s := initial_backoff |}.

(** The entry after a fetch that failed at time [now]. *)
Definition on_failure (e : CacheEntry) (now : seconds) : CacheEntry :=
  let backoff := backoff_or_initial e in
  {| jwks := jwks e;
     public_keys := public_keys e;
     expires_at := expires_at e;
     next_retry_at := now + backoff;
     backoff_s := Qmin (backoff * 2) (Qmax JWKS_FETCH_BACKOFF_MAX_S backoff) |}.

Abbreviation cache_t := (gmap string CacheEntry).

(** How a fetch ends: with a JSON object, with an exception the function
    handles, or with one it lets through. *)
Inductive fetched : Type :=
| Fetched (data : json) (keys : keys_dict)
| FetchFailed
| FetchEscapes (e : exn).

Definition classify_fetch (f : fetch) : fetched :=
  match f with
  | GetRaises | StatusError | Body None => FetchFailed
  | Body (Some (JObj fields)) =>
      match _build_public_keys fields with
      | Ok keys => Fetched (JObj fields) keys
      | Raise e => FetchEscapes e
      end
  | Body (Some _) => FetchFailed       (* "JWKS response was not a JSON object" *)
  end.

(** [_get_jwks_cached(url, session, force_refresh=, required=, label=)].
    [now_start] and [now_done] are the two readings of [_now_s()]: on entry,
    and after the fetch; [response] is what [session.get] comes to, should
    the function fetch. *)
Definition _get_jwks_cached (url : string) (response : fetch)
    (force_refresh required : bool) (label : string)
    (now_start now_done : seconds) (cache : cache_t)
  : result (json * keys_dict) * cache_t :=
  let entry := match cache !! url with Some e => e | None => new_entry end in
  let cache := <[url := entry]> cache in
  if negb force_refresh && jwks_truthy (jwks entry) && Qltb now_start (expires_at entry)
  then (Ok (jwks_value (jwks entry), public_keys entry), cache)
  else if negb force_refresh && Qltb now_start (next_retry_at entry) then
    if jwks_truthy (jwks entry) then (Ok (jwks_value (jwks entry), public_keys entry), cache)
    else if required then
      (Raise (JwksFetchError url (label +:+ " JWKS fetch is in backoff and no cached keys exist.")),
       cache)
    else (Ok (JObj [], []), cache)
  else
    match classify_fetch response with
    | Fetched data keys =>
        (Ok (data, keys), <[url := on_success data keys now_done]> cache)
    | FetchEscapes e => (Raise e, cache)
    | FetchFailed =>
        let cache' := <[url := on_failure entry now_done]> cache in
        if jwks_truthy (jwks entry) then
          (Ok (jwks_value (jwks entry), public_keys entry), cache')
        else if required then
          (Raise (JwksFetchError url
                    (label +:+ " JWKS could not be fetched and no cached keys exist.")),
           cache')
        else (Ok (JObj [], []), cache')
    end.

(** Whether a call goes to the network. *)
Definition fetches (url : string) (force_refresh : bool) (now_start : seconds)
    (cache : cache_t) : bool :=
  let entry := match cache !! url with Some e => e | None => new_entry end in
  negb (negb force_refresh && jwks_truthy (jwks entry) && Qltb now_start (expires_at entry))
  && negb (negb force_refresh && Qltb now_start (next_retry_at entry)).

(** The caches the process can be in: empty at start, then changed by calls
    of [_get_jwks_cached] only. *)
Inductive reachable : cache_t -> Prop :=
| reach_empty : reachable ∅
| reach_call (cache : cache_t) (url : string) (response : fetch)
    (force_refresh required : bool) (label : string) (now_start now_done : seconds) :
    reachable cache ->
    reachable (snd (_get_jwks_cached url response force_refresh required label
                      now_start now_done cache)).

(** *** Properties of the cache *)

(** The bounds the code keeps on [backoff_s]. *)
Definition backoff_in_bounds (e : CacheEntry) : Prop :=
  initial_backoff <= backoff_s e
  /\ backoff_s e <= Qmax JWKS_FETCH_BACKOFF_MAX_S initial_backoff.

Definition entry_of (cache : cache_t) (url : string) : CacheEntry :=
  match cache !! url with Some e => e | None => new_entry end.

Lemma Qltb_lt (x y : Q) : Qltb x y = true <-> x < y.
Proof.
  unfold Qltb. rewrite negb_true_iff. split; intros H.
  - apply Qnot_le_lt. intros Hle. apply Qle_bool_iff in Hle. congruence.
  - destruct (Qle_bool y x) eqn:E; [|reflexivity].
    apply Qle_bool_iff in E. apply Qle_not_lt in E. contradiction.
Qed.

Lemma initial_backoff_pos : 0 < initial_backoff.
Proof.
  unfold initial_backoff.
  apply Qlt_le_trans with (1 # 10); [reflexivity | apply Q.le_max_r].
Qed.

Lemma new_entry_in_bounds : backoff_in_bounds new_entry.
Proof.
  split; simpl; [apply Qle_refl | apply Q.le_max_r].
Qed.

Lemma on_success_in_bounds (data : json) (keys : keys_dict) (now : seconds) :
  backoff_in_bounds (on_success data keys now).
Proof.
  split; simpl; [apply Qle_refl | apply Q.le_max_r].
Qed.

Lemma backoff_or_initial_in_bounds (e : CacheEntry) :
  backoff_in_bounds e -> backoff_or_initial e = backoff_s e.
Proof.
  intros [Hlo _]. unfold backoff_or_initial.
  destruct (Qeq_bool (backoff_s e) 0) eqn:E; [|reflexivity].
  apply Qeq_bool_iff in E. pose proof initial_backoff_pos. lra.
Qed.

Lemma on_failure_in_bounds (e : CacheEntry) (now : seconds) :
  backoff_in_bounds e -> backoff_in_bounds (on_failure e now).
Proof.
  intros Hb. pose proof Hb as [Hlo Hhi]. pose proof initial_backoff_pos as Hpos.
  unfold backoff_in_bounds, on_failure. simpl.
  rewrite (backoff_or_initial_in_bounds e Hb).
  split.
  - apply Q.min_glb; [lra|].
    apply Qle_trans with (backoff_s e); [exact Hlo | apply Q.le_max_r].
  - apply Qle_trans with (Qmax JWKS_FETCH_BACKOFF_MAX_S (backoff_s e)); [apply Q.le_min_r|].
    apply Q.max_lub; [apply Q.le_max_l | exact Hhi].
Qed.

(** The backoff never shrinks on a failure. *)
Lemma on_failure_backoff_grows (e : CacheEntry) (now : seconds) :
  backoff_in_bounds e -> backoff_s e <= backoff_s (on_failure e now).
Proof.
  intros Hb. pose proof Hb as [Hlo _]. pose proof initial_backoff_pos as Hpos.
  unfold on_failure. simpl. rewrite (backoff_or_initial_in_bounds e Hb).
  apply Q.min_glb; [lra | apply Q.le_max_r].
Qed.

Lemma entry_of_in_bounds (cache : cache_t) (url : string) :
  (forall u e, cache !! u = Some e -> backoff_in_bounds e) ->
  backoff_in_bounds (entry_of cache url).
Proof.
  intros H. unfold entry_of. destruct (cache !! url) eqn:E; [eauto | apply new_entry_in_bounds].
Qed.

Lemma insert_in_bounds (cache : cache_t) (url : string) (e : CacheEntry) :
  (forall u e', cache !! u = Some e' -> backoff_in_bounds e') ->
  backoff_in_bounds e ->
  forall u e', <[url := e]> cache !! u = Some e' -> backoff_in_bounds e'.
Proof.
  intros Hc He u e' Hl.
  destruct (decide (url = u)) as [->|Hne].
  - rewrite lookup_insert_eq in Hl. congruence.
  - rewrite lookup_insert_ne in Hl by exact Hne. eauto.
Qed.

(** Every call keeps the bounds on every entry. *)
Lemma get_jwks_cached_in_bounds (cache : cache_t) (url : string) (response : fetch)
    (force_refresh required : bool) (label : string) (now_start now_done : seconds) :
  (forall u e, cache !! u = Some e -> backoff_in_bounds e) ->
  forall u e,
    snd (_get_jwks_cached url response force_refresh required label now_start now_done cache)
      !! u = Some e ->
    backoff_in_bounds e.
Proof.
  intros Hc. pose proof (entry_of_in_bounds cache url Hc) as He.
  unfold _get_jwks_cached. fold (entry_of cache url).
  pose proof (insert_in_bounds cache url _ Hc He) as Hc1.
  repeat match goal with
         | |- context [if ?b then _ else _] => destruct b
         | |- context [match classify_fetch ?r with _ => _ end] => destruct (classify_fetch r)
         end; simpl; try exact Hc1;
    apply insert_in_bounds; auto using on_success_in_bounds, on_failure_in_bounds.
Qed.

Lemma reachable_in_bounds (cache : cache_t) :
  reachable cache -> forall u e, cache !! u = Some e -> backoff_in_bounds e.
Proof.
  induction 1 as [|cache url response fr rq label n0 n1 Hr IH].
  - intros u e Hl. rewrite lookup_empty in Hl. discriminate.
  - apply get_jwks_cached_in_bounds. exact IH.
Qed.

(** What a call that fetches leaves under [url]. *)
Lemma get_jwks_cached_fetch_entry (cache : cache_t) (url : string) (response : fetch)
    (force_refresh required : bool) (label : string) (now_start now_done : seconds) :
  fetches url force_refresh now_start cache = true ->
  snd (_get_jwks_cached url response force_refresh required label now_start now_done cache)
    !! url =
  Some match classify_fetch response with
       | Fetched data keys => on_success data keys now_done
       | FetchFailed => on_failure (entry_of cache url) now_done
       | FetchEscapes _ => entry_of cache url
       end.
Proof.
  unfold fetches, _get_jwks_cached. fold (entry_of cache url). intros Hf.
  apply andb_true_iff in Hf as [H1 H2]. apply negb_true_iff in H1, H2.
  rewrite H1, H2.
  destruct (classify_fetch response); simpl.
  - apply lookup_insert_eq.
  - repeat match goal with |- context [if ?b then _ else _] => destruct b end;
      simpl; apply lookup_insert_eq.
  - apply lookup_insert_eq.
Qed.

(** Two failures in a row, the second no earlier than the first: the retry
    time does not go back. *)
Lemma failure_streak_monotone (e : CacheEntry) (now1 now2 : seconds) :
  backoff_in_bounds e -> now1 <= now2 ->
  next_retry_at (on_failure e now1) <= next_retry_at (on_failure (on_failure e now1) now2).
Proof.
  intros Hb Hn.
  pose proof (on_failure_in_bounds e now1 Hb) as Hb1.
  pose proof (on_failure_backoff_grows e now1 Hb) as Hg.
  change (next_retry_at (on_failure (on_failure e now1) now2))
    with (now2 + backoff_or_initial (on_failure e now1)).
  change (next_retry_at (on_failure e now1)) with (now1 + backoff_or_initial e).
  rewrite (backoff_or_initial_in_bounds _ Hb1), (backoff_or_initial_in_bounds _ Hb).
  lra.
Qed.

(** C4, as the code has it.  In every cache the process can reach, and for
    every call of [_get_jwks_cached]:
    (1) every entry keeps [backoff_s] between [max(initial, 0.1)] and
        [max(backoff_max, max(initial, 0.1))], also after the call;
    (2) a fetch that fails sets [next_retry_at] to the time of the failure
        plus the [backoff_s] in effect before it, and [backoff_s] to its
        double capped at [max(backoff_max, backoff_s)];
    (3) a fetch that succeeds sets [backoff_s] to [max(initial, 0.1)] and
        [next_retry_at] to 0;
    (4) over two failures in a row, [next_retry_at] does not decrease;
    (5) when 0.1 <= initial <= backoff_max, the bounds of (1) are
        [initial] and [backoff_max] and the cap of (2) is [backoff_max]. *)
Theorem jwks_backoff_discipline (cache : cache_t) (url : string) (response : fetch)
    (force_refresh required : bool) (label : string) (now_start now_done : seconds) :
  reachable cache ->
  let entry := entry_of cache url in
  let cache' := snd (_get_jwks_cached url response force_refresh required label
                       now_start now_done cache) in
  (forall u e, cache' !! u = Some e -> backoff_in_bounds e)
  /\ (fetches url force_refresh now_start cache = true ->
      classify_fetch response = FetchFailed ->
      exists e', cache' !! url = Some e'
                 /\ next_retry_at e' = now_done + backoff_s entry
                 /\ backoff_s e' = Qmin (backoff_s entry * 2)
                                        (Qmax JWKS_FETCH_BACKOFF_MAX_S (backoff_s entry)))
  /\ (fetches url force_refresh now_start cache = true ->
      forall data keys, classify_fetch response = Fetched data keys ->
      exists e', cache' !! url = Some e'
                 /\ backoff_s e' = initial_backoff /\ next_retry_at e' = 0)
  /\ (forall now_next, now_done <= now_next ->
      next_retry_at (on_failure entry now_done)
      <= next_retry_at (on_failure (on_failure entry now_done) now_next))
  /\ ((1 # 10) <= JWKS_FETCH_BACKOFF_INITIAL_S ->
      JWKS_FETCH_BACKOFF_INITIAL_S <= JWKS_FETCH_BACKOFF_MAX_S ->
      initial_backoff == JWKS_FETCH_BACKOFF_INITIAL_S
      /\ Qmax JWKS_FETCH_BACKOFF_MAX_S initial_backoff == JWKS_FETCH_BACKOFF_MAX_S
      /\ Qmax JWKS_FETCH_BACKOFF_MAX_S (backoff_s entry) == JWKS_FETCH_BACKOFF_MAX_S).
Proof.
  intros Hr entry cache'.
  pose proof (reachable_in_bounds cache Hr) as Hc.
  pose proof (entry_of_in_bounds cache url Hc) as He. fold entry in He.
  split; [|split; [|split; [|split]]].
  - apply get_jwks_cached_in_bounds. exact Hc.
  - intros Hf Hcl. subst cache'.
    rewrite (get_jwks_cached_fetch_entry _ _ _ _ _ _ _ _ Hf), Hcl. fold entry.
    eexists. split; [reflexivity|]. unfold on_failure. simpl.
    rewrite (backoff_or_initial_in_bounds entry He). split; reflexivity.
  - intros Hf data keys Hcl. subst cache'.
    rewrite (get_jwks_cached_fetch_entry _ _ _ _ _ _ _ _ Hf), Hcl.
    eexists. split; [reflexivity|]. split; reflexivity.
  - intros now_next Hn. apply failure_streak_monotone; assumption.
  - intros H1 H2. destruct He as [Hlo Hhi].
    assert (Hi : initial_backoff == JWKS_FETCH_BACKOFF_INITIAL_S)
      by (unfold initial_backoff; apply Q.max_l; exact H1).
    assert (Hm : Qmax JWKS_FETCH_BACKOFF_MAX_S initial_backoff == JWKS_FETCH_BACKOFF_MAX_S)
      by (apply Q.max_l; rewrite Hi; exact H2).
    split; [exact Hi|]. split; [exact Hm|].
    apply Q.max_l. rewrite <- Hm. exact Hhi.
Qed.

(** *** Further properties of the cache *)

(** The cache after a call is the cache before it, except under [url]. *)
Lemma get_jwks_cached_other_urls (cache : cache_t) (url other : string) (response : fetch)
    (force_refresh required : bool) (label : string) (now_start now_done : seconds) :
  url <> other ->
  snd (_get_jwks_cached url response force_refresh required label now_start now_done cache)
    !! other = cache !! other.
Proof.
  intros Hne. unfold _get_jwks_cached.
  repeat match goal with
         | |- context [if ?b then _ else _] => destruct b
         | |- context [match classify_fetch ?r with _ => _ end] => destruct (classify_fetch r)
         end; simpl; rewrite ?lookup_insert_ne by exact Hne; reflexivity.
Qed.

(** X8.  Stale on error: when a non-empty key set is cached for the URL and
    the response at hand is a failure, the call returns the cached set and
    its keys, whether it went to the network or not and whatever
    [force_refresh] and [required] are; it never raises. *)
Theorem stale_keys_survive_a_failed_fetch (cache : cache_t) (url : string) (e : CacheEntry)
    (response : fetch) (force_refresh required : bool) (label : string)
    (now_start now_done : seconds) :
  cache !! url = Some e ->
  jwks_truthy (jwks e) = true ->
  classify_fetch response = FetchFailed ->
  fst (_get_jwks_cached url response force_refresh required label now_start now_done cache)
  = Ok (jwks_value (jwks e), public_keys e).
Proof.
  intros Hc Ht Hf. unfold _get_jwks_cached. rewrite Hc, Ht, Hf.
  repeat match goal with |- context [if ?b then _ else _] => destruct b end; reflexivity.
Qed.

(** X9.  Within the TTL: after a call that fetched a non-empty key set at
    time [now_done], a later call that does not force a refresh and starts
    before [now_done + max(JWKS_CACHE_TTL_S, 0)] returns that key set and its
    keys without going to the network, and leaves the entry as it is. *)
Theorem fetched_keys_are_served_within_ttl (cache : cache_t) (url : string)
    (response later_response : fetch) (data : json) (keys : keys_dict)
    (force_refresh required later_required : bool) (label later_label : string)
    (now_start now_done later_start later_done : seconds) :
  fetches url force_refresh now_start cache = true ->
  classify_fetch response = Fetched data keys ->
  truthy data = true ->
  later_start < now_done + Qmax JWKS_CACHE_TTL_S 0 ->
  let cache1 := snd (_get_jwks_cached url response force_refresh required label
                       now_start now_done cache) in
  let later := _get_jwks_cached url later_response false later_required later_label
                 later_start later_done cache1 in
  fetches url false later_start cache1 = false
  /\ fst later = Ok (data, keys)
  /\ snd later !! url = cache1 !! url.
Proof.
  intros Hf Hc Ht Hlt cache1 later.
  assert (H1 : cache1 !! url = Some (on_success data keys now_done)).
  { subst cache1. rewrite (get_jwks_cached_fetch_entry _ _ _ _ _ _ _ _ Hf), Hc. reflexivity. }
  apply Qltb_lt in Hlt.
  subst later. unfold fetches, _get_jwks_cached. rewrite H1. simpl.
  rewrite Ht, Hlt. simpl. split; [reflexivity|]. split; [reflexivity|].
  rewrite lookup_insert_eq. reflexivity.
Qed.

(** X10.  Backoff: after a fetch that failed at [now_done] for a URL without
    cached keys, a later call that does not force a refresh and starts before
    [now_done] plus the backoff then in effect does not go to the network:
    it raises [JwksFetchError] when the keys are required and returns the
    empty pair otherwise, and the entry (its backoff included) stays as the
    failure left it. *)
Theorem failed_fetch_is_not_retried_in_backoff (cache : cache_t) (url : string)
    (response later_response : fetch) (force_refresh required later_required : bool)
    (label later_label : string) (now_start now_done later_start later_done : seconds) :
  fetches url force_refresh now_start cache = true ->
  classify_fetch response = FetchFailed ->
  jwks_truthy (jwks (entry_of cache url)) = false ->
  later_start < now_done + backoff_or_initial (entry_of cache url) ->
  let cache1 := snd (_get_jwks_cached url response force_refresh required label
                       now_start now_done cache) in
  let later := _get_jwks_cached url later_response false later_required later_label
                 later_start later_done cache1 in
  fetches url false later_start cache1 = false
  /\ fst later = (if later_required
                  then Raise (JwksFetchError url
                                (later_label +:+ " JWKS fetch is in backoff and no cached keys exist."))
                  else Ok (JObj [], []))
  /\ snd later !! url = cache1 !! url.
Proof.
  intros Hf Hc Ht Hlt cache1 later.
  assert (H1 : cache1 !! url = Some (on_failure (entry_of cache url) now_done)).
  { subst cache1. rewrite (get_jwks_cached_fetch_entry _ _ _ _ _ _ _ _ Hf), Hc. reflexivity. }
  apply Qltb_lt in Hlt.
  subst later. unfold fetches, _get_jwks_cached. rewrite H1. simpl.
  rewrite Ht, Hlt. simpl. split; [reflexivity|].
  split; [destruct later_required; reflexivity|].
  destruct later_required; simpl; rewrite lookup_insert_eq; reflexivity.
Qed.

(** X11.  A forced refresh goes to the network whatever the entry says,
    inside the TTL and inside the backoff window alike; when it succeeds the
    new key set is returned and the entry holds it with the backoff reset and
    no retry time. *)
Theorem forced_refresh_always_fetches (cache : cache_t) (url : string) (response : fetch)
    (data : json) (keys : keys_dict) (required : bool) (label : string)
    (now_start now_done : seconds) :
  classify_fetch response = Fetched data keys ->
  let out := _get_jwks_cached url response true required label now_start now_done cache in
  fetches url true now_start cache = true
  /\ fst out = Ok (data, keys)
  /\ snd out !! url = Some (on_success data keys now_done)
  /\ forall other, url <> other -> snd out !! other = cache !! other.
Proof.
  intros Hc out.
  assert (Hf : fetches url true now_start cache = true) by reflexivity.
  split; [exact Hf|]. split.
  - subst out. unfold _get_jwks_cached. simpl. rewrite Hc. reflexivity.
  - split.
    + subst out. rewrite (get_jwks_cached_fetch_entry _ _ _ _ _ _ _ _ Hf), Hc. reflexivity.
    + intros other Hne. apply get_jwks_cached_other_urls. exact Hne.
Qed.

Lemma dict_key_eqb_eq (a b : dict_key) : dict_key_eqb a b = true <-> a = b.
Proof.
  destruct a as [x|x], b as [y|y]; simpl; split; try discriminate.
  - intros H. apply Z.eqb_eq in H. congruence.
  - intros H. injection H as ->. apply Z.eqb_refl.
  - intros H. apply String.eqb_eq in H. congruence.
  - intros H. injection H as ->. apply String.eqb_refl.
Qed.

Lemma keys_get_set (k k' : dict_key) (m : pubkey) (keys : keys_dict) :
  keys_get k (keys_set k' m keys) = if dict_key_eqb k' k then Some m else keys_get k keys.
Proof.
  induction keys as [|[a ma] rest IH]; simpl; [reflexivity|].
  destruct (dict_key_eqb a k') eqn:Ea; simpl.
  - apply dict_key_eqb_eq in Ea. subst a. destruct (dict_key_eqb k' k); reflexivity.
  - rewrite IH. destruct (dict_key_eqb a k) eqn:Ek; [|reflexivity].
    apply dict_key_eqb_eq in Ek. subst a.
    destruct (dict_key_eqb k' k) eqn:Ek'; [|reflexivity].
    apply dict_key_eqb_eq in Ek'. subst k'.
    assert (dict_key_eqb k k = true) by (apply dict_key_eqb_eq; reflexivity).
    congruence.
Qed.

(** The key and the material one element of [keys] contributes, if any:
    it is a dict with a truthy, hashable [kid] that [from_jwk] accepts. *)
Definition entry_key (jwk : json) : option (dict_key * pubkey) :=
  match jwk with
  | JObj fields =>
      match dict_get "kid" fields with
      | Some kid =>
          if truthy kid then
            match from_jwk jwk, as_dict_key kid with
            | Some material, Some k => Some (k, material)
            | _, _ => None
            end
          else None
      | None => None
      end
  | _ => None
  end.

Lemma add_public_key_entry (keys : keys_dict) (jwk : json) :
  add_public_key keys jwk =
    match entry_key jwk with
    | Some (k, material) => keys_set k material keys
    | None => keys
    end.
Proof.
  unfold add_public_key, entry_key. destruct jwk; try reflexivity.
  destruct (dict_get "kid" fields) as [kid|]; [|reflexivity].
  destruct (truthy kid); [|reflexivity].
  destruct (from_jwk (JObj fields)); [|reflexivity].
  destruct (as_dict_key kid); reflexivity.
Qed.

(** [material] is what the last element of [items] that contributes the key
    [k] contributes. *)
Definition last_entry (items : list json) (k : dict_key) (material : pubkey) : Prop :=
  exists before jwk after,
    items = before ++ jwk :: after
    /\ entry_key jwk = Some (k, material)
    /\ Forall (fun later => forall m, entry_key later <> Some (k, m)) after.

Lemma last_entry_snoc (items : list json) (x : json) (k : dict_key) (material : pubkey) :
  last_entry (items ++ [x]) k material <->
  entry_key x = Some (k, material)
  \/ ((forall m, entry_key x <> Some (k, m)) /\ last_entry items k material).
Proof.
  split.
  - intros (before & jwk & after & Heq & He & Hall).
    destruct after as [|a after'] using rev_ind.
    + apply app_inj_tail in Heq as [_ ->]. left. exact He.
    + clear IHafter'. rewrite app_comm_cons, app_assoc in Heq.
      apply app_inj_tail in Heq as [-> ->].
      apply Forall_app in Hall as [Hall Hx]. inversion Hx; subst.
      right. split; [assumption|]. exists before, jwk, after'. auto.
  - intros [He|[Hx (before & jwk & after & -> & He & Hall)]].
    + exists items, x, []. split; [reflexivity|]. split; [exact He | constructor].
    + exists before, jwk, (after ++ [x]). split; [rewrite <- app_assoc; reflexivity|].
      split; [exact He|]. apply Forall_app. split; [exact Hall|].
      constructor; [exact Hx | constructor].
Qed.

Lemma build_keys_last_entry (items : list json) (k : dict_key) (material : pubkey) :
  keys_get k (fold_left add_public_key items []) = Some material
  <-> last_entry items k material.
Proof.
  induction items as [|x items IH] using rev_ind.
  - simpl. split; [discriminate|].
    intros (before & jwk & after & Heq & _). destruct before; discriminate.
  - rewrite fold_left_app. simpl. rewrite add_public_key_entry, last_entry_snoc.
    destruct (entry_key x) as [[k' m']|] eqn:Ex.
    + rewrite keys_get_set. destruct (dict_key_eqb k' k) eqn:Ek.
      * apply dict_key_eqb_eq in Ek. subst k'. split.
        -- intros H. injection H as ->. left. reflexivity.
        -- intros [H|[H _]]; [congruence | destruct (H m'); reflexivity].
      * rewrite IH. split.
        -- intros H. right. split; [|exact H]. intros m H'. injection H' as -> _.
           assert (dict_key_eqb k k = true) by (apply dict_key_eqb_eq; reflexivity).
           congruence.
        -- intros [H|[_ H]]; [|exact H]. injection H as -> _.
           assert (dict_key_eqb k k = true) by (apply dict_key_eqb_eq; reflexivity).
           congruence.
    + rewrite IH. split.
      * intros H. right. split; [discriminate | exact H].
      * intros [H|[_ H]]; [discriminate | exact H].
Qed.

(** X12.  For a JWKS document whose [keys] is a list, [_build_public_keys]
    never raises, and the key it files under a [kid] is the material of the
    last element of the list that is a dict with that [kid] (truthy and
    hashable) and that [from_jwk] accepts: elements that are no dict, lack a
    [kid] or are refused are skipped, and a later element replaces an
    earlier one with the same [kid]. *)
Theorem build_public_keys_last_valid_entry_wins (data : list (string * json))
    (items : list json) :
  dict_get "keys" data = Some (JArr items) ->
  exists keys,
    _build_public_keys data = Ok keys
    /\ forall k material, keys_get k keys = Some material <-> last_entry items k material.
Proof.
  intros Hk. unfold _build_public_keys. rewrite Hk. eexists. split; [reflexivity|].
  intros k material. apply build_keys_last_entry.
Qed.

(** What [for jwk in value] accepts. *)
Definition iterable (v : json) : bool :=
  match v with
  | JArr _ | JStr _ | JObj _ => true
  | _ => false
  end.

(** X15.  A fetched JWKS object whose [keys] member is null, a number or a
    boolean makes [_build_public_keys] raise [TypeError], which the handler
    for request and value errors does not catch: the call raises it even
    when keys are cached or not required, and neither a retry time nor a
    longer backoff is recorded, the entry being left as the call found it
    (created empty if the URL was new). *)
Theorem non_iterable_keys_escape_without_backoff (cache : cache_t) (url : string)
    (fields : list (string * json)) (v : json) (force_refresh required : bool)
    (label : string) (now_start now_done : seconds) :
  dict_get "keys" fields = Some v ->
  iterable v = false ->
  fetches url force_refresh now_start cache = true ->
  let out := _get_jwks_cached url (Body (Some (JObj fields))) force_refresh required label
               now_start now_done cache in
  fst out = Raise (TypeError "object is not iterable")
  /\ snd out !! url = Some (entry_of cache url)
  /\ forall other, url <> other -> snd out !! other = cache !! other.
Proof.
  intros Hk Hv Hf out.
  assert (Hc : classify_fetch (Body (Some (JObj fields)))
               = FetchEscapes (TypeError "object is not iterable")).
  { unfold classify_fetch, _build_public_keys. rewrite Hk.
    destruct v; try discriminate; reflexivity. }
  split; [|split].
  - subst out. unfold fetches in Hf. unfold _get_jwks_cached.
    apply andb_true_iff in Hf as [Hf1 Hf2].
    apply negb_true_iff in Hf1, Hf2. rewrite Hf1, Hf2, Hc. reflexivity.
  - subst out. rewrite (get_jwks_cached_fetch_entry _ _ _ _ _ _ _ _ Hf), Hc. reflexivity.
  - intros other Hne. apply get_jwks_cached_other_urls. exact Hne.
Qed.

Lemma classify_fetch_escapes (response : fetch) (e : exn) :
  classify_fetch response = FetchEscapes e -> e = TypeError "object is not iterable".
Proof.
  unfold classify_fetch, _build_public_keys.
  destruct response as [| |[[]|]]; try discriminate.
  destruct (dict_get "keys" fields) as [[]|]; try discriminate;
    intros H; injection H as <-; reflexivity.
Qed.

(** With a non-empty key set cached for the URL the call never raises
    [JwksFetchError]. *)
Lemma cached_keys_never_fetch_error (cache : cache_t) (url : string) (e : CacheEntry)
    (response : fetch) (force_refresh required : bool) (label : string)
    (now_start now_done : seconds) (u m : string) :
  cache !! url = Some e ->
  jwks_truthy (jwks e) = true ->
  fst (_get_jwks_cached url response force_refresh required label now_start now_done cache)
  <> Raise (JwksFetchError u m).
Proof.
  intros Hc Ht. unfold _get_jwks_cached. rewrite Hc, Ht.
  destruct (negb force_refresh && true && Qltb now_start (expires_at e)); [discriminate|].
  destruct (negb force_refresh && Qltb now_start (next_retry_at e)); [discriminate|].
  destruct (classify_fetch response) as [data keys| |x] eqn:Hf; try discriminate.
  apply classify_fetch_escapes in Hf. subst x. discriminate.
Qed.

End Cache.

(** *** Concrete runs *)

Definition demo_from_jwk (jwk : json) : option string := Some "PUB".

Definition demo_jwks : json := JObj [("keys", JArr [JObj [("kid", JStr "k1")]])].

(** One call on an empty cache, with the given configuration. *)
Definition first_call (initial max : Q) (response : fetch) : gmap string (CacheEntry string) :=
  snd (_get_jwks_cached string demo_from_jwk 300 initial max "http://jwks.example" response
         false true "Test" 1000 1000 ∅).

Lemma jwks_backoff_discipline_witness :
  exists e',
    first_call 1 60 (Body (Some demo_jwks)) !! "http://jwks.example" = Some e'
    /\ backoff_s string e' = initial_backoff 1 /\ next_retry_at string e' = 0.
Proof.
  refine (proj1 (proj2 (proj2
    (jwks_backoff_discipline string demo_from_jwk 300 1 60 ∅ "http://jwks.example"
       (Body (Some demo_jwks)) false true "Test" 1000 1000
       (reach_empty string demo_from_jwk 300 1 60)))) _ demo_jwks [(KStr "k1", "PUB")] _).
  - vm_compute. reflexivity.
  - vm_compute. reflexivity.
Defined.

(** C4 as stated fails.  With [JWKS_FETCH_BACKOFF_INITIAL_S=0.05] a
    successful fetch sets [backoff_s] to 0.1, not to the configured initial
    value; with [JWKS_FETCH_BACKOFF_INITIAL_S=120] and
    [JWKS_FETCH_BACKOFF_MAX_S=60] a failed fetch leaves [backoff_s] at 120,
    above the configured maximum. *)
Lemma backoff_outside_configured_bounds :
  (exists e, first_call (1 # 20) 60 (Body (Some demo_jwks)) !! "http://jwks.example" = Some e
             /\ ~ backoff_s string e == (1 # 20))
  /\ (exists e, first_call 120 60 GetRaises !! "http://jwks.example" = Some e
                /\ ~ backoff_s string e <= 60).
Proof.
  split; eexists; (split; [vm_compute; reflexivity|]).
  - vm_compute. discriminate.
  - vm_compute. intros H. apply H. reflexivity.
Qed.

(** Scenario 5 of the specification: a timeout at 1000 s, then a call at
    1000.5 s that is refused without a fetch. *)
Lemma backoff_skips_fetch_when_no_cache :
  let cache1 := first_call 1 60 GetRaises in
  fetches string 1 "http://jwks.example" false (2001 # 2) cache1 = false
  /\ fst (_get_jwks_cached string demo_from_jwk 300 1 60 "http://jwks.example"
            (Body (Some demo_jwks)) false true "Test" (2001 # 2) (2001 # 2) cache1)
     = Raise (JwksFetchError "http://jwks.example"
                "Test JWKS fetch is in backoff and no cached keys exist.").
Proof.
  vm_compute. split; reflexivity.
Qed.

(** The cache after one successful fetch at 1000 s, and after one failed one. *)
Definition warm_cache : gmap string (CacheEntry string) := first_call 1 60 (Body (Some demo_jwks)).

Definition cold_cache : gmap string (CacheEntry string) := first_call 1 60 GetRaises.

Lemma stale_keys_survive_a_failed_fetch_witness :
  fst (_get_jwks_cached string demo_from_jwk 300 1 60 "http://jwks.example" GetRaises
         true true "Test" 2000 2000 warm_cache)
  = Ok (demo_jwks, [(KStr "k1", "PUB")]).
Proof.
  apply (stale_keys_survive_a_failed_fetch string demo_from_jwk 300 1 60 warm_cache
           "http://jwks.example"
           (on_success string 300 1 demo_jwks [(KStr "k1", "PUB")] 1000)
           GetRaises true true "Test" 2000 2000).
  - vm_compute. reflexivity.
  - reflexivity.
  - reflexivity.
Defined.

Lemma fetched_keys_are_served_within_ttl_witness :
  fetches string 1 "http://jwks.example" false 1299 warm_cache = false
  /\ fst (_get_jwks_cached string demo_from_jwk 300 1 60 "http://jwks.example" GetRaises
            false true "Test" 1299 1299 warm_cache)
     = Ok (demo_jwks, [(KStr "k1", "PUB")]).
Proof.
  pose proof (fetched_keys_are_served_within_ttl string demo_from_jwk 300 1 60 ∅
                "http://jwks.example" (Body (Some demo_jwks)) GetRaises demo_jwks
                [(KStr "k1", "PUB")] false true true "Test" "Test" 1000 1000 1299 1299
                eq_refl eq_refl eq_refl eq_refl) as (H1 & H2 & _).
  split; [exact H1 | exact H2].
Defined.

Lemma failed_fetch_is_not_retried_in_backoff_witness :
  fetches string 1 "http://jwks.example" false (2001 # 2) cold_cache = false
  /\ fst (_get_jwks_cached string demo_from_jwk 300 1 60 "http://jwks.example"
            (Body (Some demo_jwks)) false false "Test" (2001 # 2) (2001 # 2) cold_cache)
     = Ok (JObj [], []).
Proof.
  pose proof (failed_fetch_is_not_retried_in_backoff string demo_from_jwk 300 1 60 ∅
                "http://jwks.example" GetRaises (Body (Some demo_jwks)) false true false
                "Test" "Test" 1000 1000 (2001 # 2) (2001 # 2)
                eq_refl eq_refl eq_refl eq_refl) as (H1 & H2 & _).
  split; [exact H1 | exact H2].
Defined.

Lemma forced_refresh_always_fetches_witness :
  fetches string 1 "http://jwks.example" true 1001 warm_cache = true
  /\ fst (_get_jwks_cached string demo_from_jwk 300 1 60 "http://jwks.example"
            (Body (Some demo_jwks)) true true "Test" 1001 1002 warm_cache)
     = Ok (demo_jwks, [(KStr "k1", "PUB")]).
Proof.
  pose proof (forced_refresh_always_fetches string demo_from_jwk 300 1 60 warm_cache
                "http://jwks.example" (Body (Some demo_jwks)) demo_jwks
                [(KStr "k1", "PUB")] true "Test" 1001 1002 eq_refl) as (H1 & H2 & _).
  split; [exact H1 | exact H2].
Defined.

(** A [from_jwk] that wants a modulus [n] and returns it. *)
Definition modulus_from_jwk (jwk : json) : option string :=
  match jwk with
  | JObj fields =>
      match dict_get "n" fields with
      | Some (JStr n) => Some n
      | _ => None
      end
  | _ => None
  end.

Definition rotated_keys : list json :=
  [ JObj [("kid", JStr "k1"); ("n", JStr "old")];
    JStr "junk";
    JObj [("kid", JStr "k1"); ("n", JStr "new")];
    JObj [("kid", JStr "k1")] ].

Lemma build_public_keys_last_valid_entry_wins_witness :
  exists keys,
    _build_public_keys string modulus_from_jwk [("keys", JArr rotated_keys)] = Ok keys
    /\ keys_get string (KStr "k1") keys = Some "new".
Proof.
  destruct (build_public_keys_last_valid_entry_wins string modulus_from_jwk
              [("keys", JArr rotated_keys)] rotated_keys eq_refl) as (keys & Hb & Hk).
  exists keys. split; [exact Hb|]. apply Hk.
  exists [ JObj [("kid", JStr "k1"); ("n", JStr "old")]; JStr "junk" ],
         (JObj [("kid", JStr "k1"); ("n", JStr "new")]),
         [ JObj [("kid", JStr "k1")] ].
  split; [reflexivity|]. split; [reflexivity|].
  constructor; [|constructor]. intros m. discriminate.
Defined.

Lemma non_iterable_keys_escape_without_backoff_witness :
  fst (_get_jwks_cached string demo_from_jwk 300 1 60 "http://jwks.example"
         (Body (Some (JObj [("keys", JNum 5)]))) false false "Test" 2000 2000 warm_cache)
  = Raise (TypeError "object is not iterable").
Proof.
  exact (proj1 (non_iterable_keys_escape_without_backoff string demo_from_jwk 300 1 60
                  warm_cache "http://jwks.example" [("keys", JNum 5)] (JNum 5) false false
                  "Test" 2000 2000 eq_refl eq_refl eq_refl)).
Defined.

End JwksCache.

(** ** auth_helper/utils.py: the scope-enforcing request gate *)

Module ScopeGate.

Import JwksCache.

Fixpoint split_from (word : string) (s : string) : list string :=
  match s with
  | EmptyString => if String.eqb word "" then [] else [word]
  | String c rest =>
      if is_space c then
        if String.eqb word "" then split_from "" rest else word :: split_from "" rest
      else split_from (word +:+ String c "") rest
  end.

(** [s.split()] *)
Definition py_split (s : string) : list string := split_from "" s.

(** [set(required).issubset(decoded)] *)
Definition issubset (required decoded : list string) : bool :=
  forallb (fun r => existsb (String.eqb r) decoded) required.

(** [decoded & set(required)], as a truth value. *)
Definition intersects (decoded required : list string) : bool :=
  existsb (fun d => existsb (String.eqb d) required) decoded.

(** [url[:-1] if url.endswith("/") else url] *)
Fixpoint strip_one_slash (url : string) : string :=
  match url with
  | EmptyString => EmptyString
  | String c EmptyString => if Ascii.eqb c "/"%char then EmptyString else url
  | String c rest => String c (strip_one_slash rest)
  end.

(** The environment read on every request; the two flags after [int(...)]. *)
Record Env : Type := {
  PASSPORT_AUDIENCE : option string;
  BYPASS_AUTH_TOKEN_VERIFICATION : Z;
  IS_DEBUG : Z;
  PASSPORT_URL : option string;
  DSS_AUTH_JWKS_ENDPOINT : option string
}.

(** A [JsonResponse] with its one message, or what the wrapped view returned. *)
Inductive response (R : Type) : Type :=
| JsonResponse (detail : string) (status : Z)
| ViewResult (r : R).
Arguments JsonResponse {R} detail status.
Arguments ViewResult {R} r.

(** What [jwt.decode] with a key comes to: the claims, one of the errors the
    gate catches, or an exception it lets through. *)
Inductive decode_outcome : Type :=
| Decoded (claims : list (string * json))
| TokenError (msg : string)
| DecodeEscapes (e : exn).

Section Gate.

Variable R : Type.
Variable pubkey : Type.
Variable from_jwk : json -> option pubkey.
Variable JWKS_CACHE_TTL_S JWKS_FETCH_BACKOFF_INITIAL_S JWKS_FETCH_BACKOFF_MAX_S : Q.

(** [jwt.get_unverified_header(token)] ([None]: DecodeError). *)
Variable get_unverified_header : string -> option (list (string * json)).
(** [jwt.decode(token, algorithms=["RS256"], options={"verify_signature": False})] *)
Variable decode_unverified : string -> option (list (string * json)).
(** [jwt.decode(token, key, audience=..., algorithms=["RS256"], options=...)] *)
Variable decode_verified : string -> pubkey -> string -> decode_outcome.
(** [urlparse(s)]: scheme and netloc. *)
Variable urlparse : string -> result (string * string).
(** The [n]-th JWKS exchange of the request: the response, and the two clock
    readings around it. *)
Variable jwks_io : nat -> fetch * Q * Q.
Variable env : Env.

Abbreviation cache_t := (gmap string (CacheEntry pubkey)).

(** [claims.get("scope", "").split()] *)
Definition decoded_scopes (claims : list (string * json)) : result (list string) :=
  match dict_get "scope" claims with
  | None => Ok (py_split "")
  | Some (JStr s) => Ok (py_split s)
  | Some _ => Raise (AttributeError "split")
  end.

Definition forbidden : response R :=
  JsonResponse "You don't have access to this resource" 403.

Definition handle_bypass_verification (token : string) (required_scopes : list string)
    (f : R) : result (response R) :=
  match decode_unverified token with
  | None => Ok (JsonResponse "Invalid token provided" 401)
  | Some details =>
      match decoded_scopes details with
      | Raise e => Raise e
      | Ok decoded_scopes_set =>
          if negb (issubset required_scopes decoded_scopes_set) then Ok forbidden
          else
            let iss := match dict_get "iss" details with Some v => v | None => JNull end in
            if negb (truthy iss) then
              Ok (JsonResponse "Incomplete token provided, issuer (iss) claim must be present and should not be empty" 401)
            else
              let checked :=
                match iss with
                | JStr s =>
                    if String.eqb s "dummy" then Ok true
                    else match urlparse s with
                         | Ok (scheme, netloc) =>
                             Ok ((String.eqb scheme "http" || String.eqb scheme "https")
                                 && negb (String.eqb netloc ""))
                         | Raise e => Raise e
                         end
                | _ => Raise (TypeError "urlparse")
                end in
              match checked with
              | Raise e => Raise e
              | Ok false => Ok (JsonResponse "Issuer (iss) claim is not a valid URL" 401)
              | Ok true =>
                  let aud := match dict_get "aud" details with Some v => v | None => JNull end in
                  if negb (truthy aud) then
                    Ok (JsonResponse "Incomplete token provided, audience claim must be present and should not be empty" 401)
                  else Ok (ViewResult f)
              end
      end
  end.

Definition get_jwks (n : nat) (url : string) (force_refresh required : bool)
    (label : string) (cache : cache_t) : result (json * keys_dict pubkey) * cache_t :=
  let '(resp, now_start, now_done) := jwks_io n in
  _get_jwks_cached pubkey from_jwk JWKS_CACHE_TTL_S JWKS_FETCH_BACKOFF_INITIAL_S
    JWKS_FETCH_BACKOFF_MAX_S url resp force_refresh required label now_start now_done cache.

(** [{**a, **b}] *)
Definition merge_keys (a b : keys_dict pubkey) : keys_dict pubkey :=
  fold_left (fun acc kv => keys_set pubkey (fst kv) (snd kv) acc) b a.

(** The path with signature verification, from the JWKS lookups on. *)
Definition verified_path (token : string) (header : list (string * json))
    (required_scopes : list string) (allow_any : bool) (f : R) (cache : cache_t)
  : result (response R) * cache_t :=
  let API_IDENTIFIER := env_get (PASSPORT_AUDIENCE env) "testflight.flightblender.com" in
  let PASSPORT_JWKS_URL :=
    strip_one_slash (env_get (PASSPORT_URL env) "http://local.test:9000")
    +:+ "/.well-known/jwks.json" in
  let DSS_JWKS_URL :=
    env_get (DSS_AUTH_JWKS_ENDPOINT env) "http://local.test:9000/.well-known/jwks.json" in
  match get_jwks 0 PASSPORT_JWKS_URL false true "Passport" cache with
  | (Raise (JwksFetchError _ _), c1) =>
      (Ok (JsonResponse "Public Key Server necessary to validate the token could not be reached" 503), c1)
  | (Raise e, c1) => (Raise e, c1)
  | (Ok (_, passport_public_keys), c1) =>
      let '(r2, c2) := get_jwks 1 DSS_JWKS_URL false false "DSS" c1 in
      match (match r2 with
             | Ok (_, k) => Ok k
             | Raise (JwksFetchError _ _) => Ok []
             | Raise e => Raise e
             end) with
      | Ok dss_public_keys =>
          let public_keys := merge_keys passport_public_keys dss_public_keys in
          let kid := match dict_get "kid" header with Some v => v | None => JNull end in
          match (if truthy kid then
                   match as_dict_key kid with
                   | Some k => Ok (keys_get pubkey k public_keys)
                   | None => Raise (TypeError "unhashable type")
                   end
                 else Ok None) with
          | Raise e => (Raise e, c2)
          | Ok None =>
              let unknown_kid : response R :=
                JsonResponse "Error in parsing public keys, the signing key id is not present in JWKS" 401 in
              match get_jwks 2 PASSPORT_JWKS_URL true true "Passport" c2 with
              | (Raise (JwksFetchError _ _), c3) => (Ok unknown_kid, c3)
              | (Raise e, c3) => (Raise e, c3)
              | (Ok _, c3) =>
                  match get_jwks 3 DSS_JWKS_URL true false "DSS" c3 with
                  | (Raise (JwksFetchError _ _), c4) | (Ok _, c4) => (Ok unknown_kid, c4)
                  | (Raise e, c4) => (Raise e, c4)
                  end
              end
          | Ok (Some public_key) =>
              match decode_verified token public_key API_IDENTIFIER with
              | TokenError msg => (Ok (JsonResponse "Invalid token" 401), c2)
              | DecodeEscapes e => (Raise e, c2)
              | Decoded decoded =>
                  match decoded_scopes decoded with
                  | Raise e => (Raise e, c2)
                  | Ok decoded_scopes_set =>
                      if (allow_any && intersects decoded_scopes_set required_scopes)
                         || issubset required_scopes decoded_scopes_set
                      then (Ok (ViewResult f), c2)
                      else (Ok forbidden, c2)
                  end
              end
          end
      | Raise e => (Raise e, c2)
      end
  end.

(** The wrapper [decorated] that [requires_scopes(required_scopes, allow_any)]
    puts around a view; [auth] is the [Authorization] header, [f] what the
    view returns when it is called. *)
Definition decorated (required_scopes : list string) (allow_any : bool) (f : R)
    (auth : option string) (cache : cache_t) : result (response R) * cache_t :=
  let parts := match auth with Some a => py_split a | None => [] end in
  match auth, parts with
  | Some a, _ :: token :: _ =>       (* [auth] is not empty and has two parts *)
      match get_unverified_header token with
      | None => (Ok (JsonResponse "Bearer token could not be decoded properly" 401), cache)
      | Some unverified_token_headers =>
          let bypass_enabled :=
            negb (Z.eqb (BYPASS_AUTH_TOKEN_VERIFICATION env) 0)
            && negb (Z.eqb (IS_DEBUG env) 0) in
          if bypass_enabled then
            (handle_bypass_verification token required_scopes f, cache)
          else
            verified_path token unverified_token_headers required_scopes allow_any f cache
      end
  | _, _ => (Ok (JsonResponse "Authentication credentials were not provided" 401), cache)
  end.

(** *** Properties of the gate *)

Lemma issubset_false (required decoded : list string) :
  issubset required decoded = false <->
  exists r, In r required /\ ~ In r decoded.
Proof.
  unfold issubset. split.
  - intros H. induction required as [|r rs IH]; simpl in H; [discriminate|].
    apply andb_false_iff in H as [H|H].
    + exists r. split; [left; reflexivity|]. intros Hin.
      assert (existsb (String.eqb r) decoded = true); [|congruence].
      apply existsb_exists. exists r. split; [exact Hin | apply String.eqb_refl].
    + destruct (IH H) as (r' & Hin & Hn). exists r'. split; [right; exact Hin | exact Hn].
  - intros (r & Hin & Hn). apply not_true_is_false. intros H.
    rewrite forallb_forall in H. specialize (H r Hin).
    apply existsb_exists in H as (x & Hx & He). apply String.eqb_eq in He. subst x.
    contradiction.
Qed.

(** The bypass path is taken: both flags are truthy. *)
Definition bypass_taken : Prop :=
  BYPASS_AUTH_TOKEN_VERIFICATION env <> 0%Z /\ IS_DEBUG env <> 0%Z.

(** C9.  On the bypass path the gate hands the request to
    [handle_bypass_verification], which is not given [allow_any]: the outcome
    is the same for both values of [allow_any], and a token whose decoded
    scope set lacks one required scope is answered with 403, whatever the
    other scopes it shares with the required ones. *)
Theorem bypass_scope_check_ignores_allow_any
    (required_scopes : list string) (allow_any : bool) (f : R)
    (auth first token : string) (rest : list string)
    (header : list (string * json)) (cache : cache_t) :
  bypass_taken ->
  py_split auth = first :: token :: rest ->
  get_unverified_header token = Some header ->
  decorated required_scopes allow_any f (Some auth) cache
    = (handle_bypass_verification token required_scopes f, cache)
  /\ decorated required_scopes allow_any f (Some auth) cache
     = decorated required_scopes (negb allow_any) f (Some auth) cache
  /\ (forall details scopes,
         decode_unverified token = Some details ->
         decoded_scopes details = Ok scopes ->
         (exists r, In r required_scopes /\ ~ In r scopes) ->
         decorated required_scopes allow_any f (Some auth) cache = (Ok forbidden, cache)).
Proof.
  intros [Hb Hd] Hp Hh.
  assert (Hdec : forall a, decorated required_scopes a f (Some auth) cache
                           = (handle_bypass_verification token required_scopes f, cache)).
  { intros a. unfold decorated. rewrite Hp, Hh.
    apply Z.eqb_neq in Hb, Hd. rewrite Hb, Hd. reflexivity. }
  split; [apply Hdec|]. split; [rewrite !Hdec; reflexivity|].
  intros details scopes Hdu Hs Hex. rewrite Hdec.
  unfold handle_bypass_verification. rewrite Hdu, Hs.
  apply issubset_false in Hex. rewrite Hex. reflexivity.
Qed.


(** *** Further properties of the gate *)

(** The two JWKS URLs of a request. *)
Definition PASSPORT_JWKS_URL : string :=
  strip_one_slash (env_get (PASSPORT_URL env) "http://local.test:9000")
  +:+ "/.well-known/jwks.json".

Definition DSS_JWKS_URL : string :=
  env_get (DSS_AUTH_JWKS_ENDPOINT env) "http://local.test:9000/.well-known/jwks.json".

Definition API_IDENTIFIER : string :=
  env_get (PASSPORT_AUDIENCE env) "testflight.flightblender.com".

(** The DSS keys the gate goes on with after the second lookup. *)
Definition dss_keys_of (r : result (json * keys_dict pubkey)) : keys_dict pubkey :=
  match r with
  | Ok (_, keys) => keys
  | Raise _ => []
  end.

Lemma issubset_true (required decoded : list string) :
  issubset required decoded = true <-> forall r, In r required -> In r decoded.
Proof.
  unfold issubset. rewrite forallb_forall. split; intros H r Hin.
  - specialize (H r Hin). apply existsb_exists in H as (x & Hx & He).
    apply String.eqb_eq in He. subst x. exact Hx.
  - apply existsb_exists. exists r. split; [apply H; exact Hin | apply String.eqb_refl].
Qed.

Lemma intersects_true (decoded required : list string) :
  intersects decoded required = true <-> exists s, In s decoded /\ In s required.
Proof.
  unfold intersects. rewrite existsb_exists. split.
  - intros (d & Hd & He). apply existsb_exists in He as (x & Hx & He).
    apply String.eqb_eq in He. subst x. exists d. split; assumption.
  - intros (s & Hd & Hr). exists s. split; [exact Hd|].
    apply existsb_exists. exists s. split; [exact Hr | apply String.eqb_refl].
Qed.

(** X13.  Outside debug mode ([IS_DEBUG] is 0) the wrapped view runs only
    for a request whose [Authorization] header has a second word, the token,
    whose [kid] names a key among those of the two unforced JWKS lookups,
    which [jwt.decode] accepts under that key and the configured audience,
    and whose scopes hold every required scope, or share one with them when
    [allow_any] is set.  [BYPASS_AUTH_TOKEN_VERIFICATION] changes nothing
    then. *)
Theorem view_runs_only_for_a_verified_token (required_scopes : list string)
    (allow_any : bool) (f r : R) (auth : option string) (cache cache' : cache_t) :
  IS_DEBUG env = 0%Z ->
  decorated required_scopes allow_any f auth cache = (Ok (ViewResult r), cache') ->
  exists a first token rest header jwks1 passport_keys c1 r2 kid k key claims scopes,
    auth = Some a
    /\ py_split a = first :: token :: rest
    /\ get_unverified_header token = Some header
    /\ get_jwks 0 PASSPORT_JWKS_URL false true "Passport" cache
       = (Ok (jwks1, passport_keys), c1)
    /\ get_jwks 1 DSS_JWKS_URL false false "DSS" c1 = (r2, cache')
    /\ dict_get "kid" header = Some kid
    /\ as_dict_key kid = Some k
    /\ keys_get pubkey k (merge_keys passport_keys (dss_keys_of r2)) = Some key
    /\ decode_verified token key API_IDENTIFIER = Decoded claims
    /\ decoded_scopes claims = Ok scopes
    /\ ((allow_any = true /\ exists s, In s scopes /\ In s required_scopes)
        \/ forall s, In s required_scopes -> In s scopes)
    /\ r = f.
Proof.
  intros Hdebug H. unfold decorated in H.
  destruct auth as [a|]; [|discriminate].
  destruct (py_split a) as [|first [|token rest]] eqn:Hsplit; try discriminate.
  destruct (get_unverified_header token) as [header|] eqn:Hheader; [|discriminate].
  rewrite Hdebug in H. rewrite andb_false_r in H.
  unfold verified_path in H.
  fold PASSPORT_JWKS_URL DSS_JWKS_URL API_IDENTIFIER in H.
  destruct (get_jwks 0 PASSPORT_JWKS_URL false true "Passport" cache)
    as [[[jwks1 passport_keys]|e1] c1] eqn:H1; [|destruct e1; discriminate].
  destruct (get_jwks 1 DSS_JWKS_URL false false "DSS" c1) as [r2 c2] eqn:H2.
  assert (Hk : exists dss_keys,
             (match r2 with
              | Ok (_, k) => Ok k
              | Raise (JwksFetchError _ _) => Ok []
              | Raise e => Raise e
              end) = Ok dss_keys /\ dss_keys = dss_keys_of r2
             \/ exists e, (match r2 with
              | Ok (_, k) => Ok k
              | Raise (JwksFetchError _ _) => Ok []
              | Raise e => Raise e
              end) = Raise e :> result (keys_dict pubkey)).
  { destruct r2 as [[j k]|e]; [exists k; left; split; reflexivity|].
    destruct e; try (exists []; right; eexists; reflexivity).
    exists []. left. split; reflexivity. }
  destruct Hk as (dss_keys & [[Hk ->]|[e Hk]]); rewrite Hk in H; [|discriminate].
  destruct (dict_get "kid" header) as [kid|] eqn:Hkid.
  2:{ simpl in H.
      destruct (get_jwks 2 PASSPORT_JWKS_URL true true "Passport" c2) as [[?|e3] c3];
        [destruct (get_jwks 3 DSS_JWKS_URL true false "DSS" c3) as [[?|e4] c4];
           [|destruct e4]
        |destruct e3]; discriminate. }
  destruct (truthy kid) eqn:Htruthy.
  2:{ destruct (get_jwks 2 PASSPORT_JWKS_URL true true "Passport" c2) as [[?|e3] c3];
        [destruct (get_jwks 3 DSS_JWKS_URL true false "DSS" c3) as [[?|e4] c4];
           [|destruct e4]
        |destruct e3]; discriminate. }
  destruct (as_dict_key kid) as [k|] eqn:Hkey; [|discriminate].
  destruct (keys_get pubkey k (merge_keys passport_keys (dss_keys_of r2)))
    as [key|] eqn:Hget.
  2:{ destruct (get_jwks 2 PASSPORT_JWKS_URL true true "Passport" c2) as [[?|e3] c3];
        [destruct (get_jwks 3 DSS_JWKS_URL true false "DSS" c3) as [[?|e4] c4];
           [|destruct e4]
        |destruct e3]; discriminate. }
  destruct (decode_verified token key API_IDENTIFIER) as [claims|msg|e] eqn:Hdec;
    try discriminate.
  destruct (decoded_scopes claims) as [scopes|e] eqn:Hscopes; [|discriminate].
  destruct ((allow_any && intersects scopes required_scopes)
            || issubset required_scopes scopes) eqn:Htest; [|discriminate].
  injection H as <- <-.
  exists a, first, token, rest, header, jwks1, passport_keys, c1, r2, kid, k, key,
    claims, scopes.
  repeat (split; [reflexivity || assumption|]).
  split; [|reflexivity].
  apply orb_true_iff in Htest as [Ht|Ht].
  - apply andb_true_iff in Ht as [-> Ht]. left. split; [reflexivity|].
    apply intersects_true. exact Ht.
  - right. apply issubset_true. exact Ht.
Qed.

(** X14.  [allow_any] only widens access: for the same request, cache and
    exchanges, the gate with [allow_any=True] answers as the gate with
    [allow_any=False] does, except where the latter answers 403 and the
    former runs the view; the JWKS cache ends up the same either way. *)
Theorem allow_any_only_widens (required_scopes : list string) (f : R)
    (auth : option string) (cache : cache_t) :
  decorated required_scopes true f auth cache = decorated required_scopes false f auth cache
  \/ exists cache',
       decorated required_scopes false f auth cache = (Ok forbidden, cache')
       /\ decorated required_scopes true f auth cache = (Ok (ViewResult f), cache').
Proof.
  unfold decorated.
  destruct auth as [a|]; [|left; reflexivity].
  destruct (py_split a) as [|first [|token rest]]; try (left; reflexivity).
  destruct (get_unverified_header token) as [header|]; [|left; reflexivity].
  destruct (negb (Z.eqb (BYPASS_AUTH_TOKEN_VERIFICATION env) 0)
            && negb (Z.eqb (IS_DEBUG env) 0)); [left; reflexivity|].
  unfold verified_path.
  destruct (get_jwks 0 _ false true "Passport" cache) as [[[jwks1 passport_keys]|e1] c1];
    [|left; reflexivity].
  destruct (get_jwks 1 _ false false "DSS" c1) as [r2 c2].
  destruct (match r2 with
            | Ok (_, k) => Ok k
            | Raise (JwksFetchError _ _) => Ok []
            | Raise e => Raise e
            end) as [dss_public_keys|e2]; [|left; reflexivity].
  destruct (if truthy _ then _ else _) as [[public_key|]|e3]; try (left; reflexivity).
  destruct (decode_verified token public_key _) as [decoded|msg|e4]; try (left; reflexivity).
  destruct (decoded_scopes decoded) as [scopes|e5]; [|left; reflexivity].
  simpl. destruct (issubset required_scopes scopes).
  - left. rewrite orb_true_r. reflexivity.
  - rewrite orb_false_r. destruct (intersects scopes required_scopes).
    + right. exists c2. split; reflexivity.
    + left. reflexivity.
Qed.

(** X26.  Also with verification bypassed the view runs only for a token
    that decodes, carries every required scope, names an issuer that is
    ["dummy"] or an http(s) URL with a host, and has a non-empty audience. *)
Theorem bypass_runs_view_only_for_a_complete_token (token : string)
    (required_scopes : list string) (f r : R) :
  handle_bypass_verification token required_scopes f = Ok (ViewResult r) ->
  exists details scopes iss aud,
    decode_unverified token = Some details
    /\ decoded_scopes details = Ok scopes
    /\ (forall s, In s required_scopes -> In s scopes)
    /\ dict_get "iss" details = Some (JStr iss)
    /\ (iss = "dummy"
        \/ exists scheme netloc,
             urlparse iss = Ok (scheme, netloc)
             /\ (scheme = "http" \/ scheme = "https") /\ netloc <> "")
    /\ dict_get "aud" details = Some aud /\ truthy aud = true
    /\ r = f.
Proof.
  unfold handle_bypass_verification.
  destruct (decode_unverified token) as [details|] eqn:Hd; [|discriminate].
  destruct (decoded_scopes details) as [scopes|e] eqn:Hs; [|discriminate].
  destruct (issubset required_scopes scopes) eqn:Hsub; simpl; [|discriminate].
  destruct (dict_get "iss" details) as [iss|] eqn:Hiss; [|simpl; discriminate].
  destruct (truthy iss) eqn:Ht; simpl; [|discriminate].
  destruct iss as [| | |iss| |]; try discriminate.
  assert (Hurl : forall checked,
             (if String.eqb iss "dummy" then Ok true
              else match urlparse iss with
                   | Ok (scheme, netloc) =>
                       Ok ((String.eqb scheme "http" || String.eqb scheme "https")
                           && negb (String.eqb netloc ""))
                   | Raise e => Raise e
                   end) = checked ->
             checked = Ok true ->
             iss = "dummy"
             \/ exists scheme netloc,
                  urlparse iss = Ok (scheme, netloc)
                  /\ (scheme = "http" \/ scheme = "https") /\ netloc <> "").
  { intros checked <-. destruct (String.eqb iss "dummy") eqn:E.
    - apply String.eqb_eq in E. auto.
    - destruct (urlparse iss) as [[scheme netloc]|e]; [|discriminate].
      intros H. injection H as H. apply andb_true_iff in H as [H1 H2].
      right. exists scheme, netloc. split; [reflexivity|]. split.
      + apply orb_true_iff in H1 as [H1|H1]; apply String.eqb_eq in H1; auto.
      + intros ->. discriminate. }
  destruct (if String.eqb iss "dummy" then _ else _) as [[|]|e] eqn:Hc; try discriminate.
  specialize (Hurl _ eq_refl eq_refl).
  destruct (dict_get "aud" details) as [aud|] eqn:Haud; [|simpl; discriminate].
  destruct (truthy aud) eqn:Hta; simpl; [|discriminate].
  intros H. injection H as <-.
  exists details, scopes, iss, aud.
  split; [reflexivity|]. split; [exact Hs|].
  split; [apply issubset_true; exact Hsub|]. auto.
Qed.

Lemma bypass_statuses (token : string) (required_scopes : list string) (f : R)
    (detail : string) (status : Z) :
  handle_bypass_verification token required_scopes f = Ok (JsonResponse detail status) ->
  status = 401 \/ status = 403.
Proof.
  unfold handle_bypass_verification, forbidden.
  repeat match goal with
         | |- context [match ?x with _ => _ end] => destruct x
         end;
    try discriminate; intros H; injection H as _ <-; auto.
Qed.

(** X27.  While a non-empty Passport key set is cached, however old, the
    gate never answers 503: whether the key server is down, in backoff or
    answering, a request is let through to the view or turned away with 401
    or 403. *)
Theorem cached_passport_keys_prevent_503 (required_scopes : list string)
    (allow_any : bool) (f : R) (auth : option string) (cache : cache_t)
    (e : CacheEntry pubkey) (detail : string) (status : Z) :
  cache !! PASSPORT_JWKS_URL = Some e ->
  jwks_truthy (jwks pubkey e) = true ->
  fst (decorated required_scopes allow_any f auth cache) = Ok (JsonResponse detail status) ->
  status = 401 \/ status = 403.
Proof.
  intros Hc Ht. unfold decorated.
  destruct auth as [a|]; [|simpl; intros H; injection H as _ <-; auto].
  destruct (py_split a) as [|first [|token rest]];
    try (simpl; intros H; injection H as _ <-; auto; fail).
  destruct (get_unverified_header token) as [header|];
    [|simpl; intros H; injection H as _ <-; auto].
  destruct (negb (Z.eqb (BYPASS_AUTH_TOKEN_VERIFICATION env) 0)
            && negb (Z.eqb (IS_DEBUG env) 0)); [simpl; apply bypass_statuses|].
  unfold verified_path. fold PASSPORT_JWKS_URL DSS_JWKS_URL API_IDENTIFIER.
  assert (H0 : forall u m, fst (get_jwks 0 PASSPORT_JWKS_URL false true "Passport" cache)
                           <> Raise (JwksFetchError u m)).
  { intros u m. unfold get_jwks. destruct (jwks_io 0) as [[resp s] d].
    eapply cached_keys_never_fetch_error; eassumption. }
  destruct (get_jwks 0 PASSPORT_JWKS_URL false true "Passport" cache)
    as [[[jwks1 passport_keys]|e1] c1].
  2:{ destruct e1; simpl; try discriminate. destruct (H0 url msg). reflexivity. }
  clear H0.
  destruct (get_jwks 1 DSS_JWKS_URL false false "DSS" c1) as [r2 c2].
  destruct (match r2 with
            | Ok (_, k) => Ok k
            | Raise (JwksFetchError _ _) => Ok []
            | Raise e => Raise e
            end) as [dss_public_keys|e2]; [|discriminate].
  destruct (if truthy _ then _ else _) as [[public_key|]|e3]; try discriminate.
  - destruct (decode_verified token public_key _) as [decoded|msg|e4]; try discriminate.
    + destruct (decoded_scopes decoded) as [scopes|e5]; [|discriminate].
      destruct (_ || _); simpl; [discriminate|].
      intros H; injection H as _ <-; auto.
    + simpl; intros H; injection H as _ <-; auto.
  - destruct (get_jwks 2 PASSPORT_JWKS_URL true true "Passport" c2) as [[?|e3] c3].
    + destruct (get_jwks 3 DSS_JWKS_URL true false "DSS" c3) as [[?|e4] c4];
        [|destruct e4]; simpl; try discriminate; intros H; injection H as _ <-; auto.
    + destruct e3; simpl; try discriminate; intros H; injection H as _ <-; auto.
Qed.

End Gate.

(** *** A concrete request *)

Definition bypass_env : Env :=
  {| PASSPORT_AUDIENCE := Some "blender.example";
     BYPASS_AUTH_TOKEN_VERIFICATION := 1;
     IS_DEBUG := 1;
     PASSPORT_URL := Some "https://passport.example/";
     DSS_AUTH_JWKS_ENDPOINT := None |}.

Definition verifying_env : Env :=
  {| PASSPORT_AUDIENCE := Some "blender.example";
     BYPASS_AUTH_TOKEN_VERIFICATION := 0;
     IS_DEBUG := 1;
     PASSPORT_URL := Some "https://passport.example/";
     DSS_AUTH_JWKS_ENDPOINT := None |}.

(** A token that carries one of the two required scopes. *)
Definition read_only_claims : list (string * json) :=
  [("scope", JStr "flightblender.read"); ("iss", JStr "dummy"); ("aud", JStr "blender.example")].

Definition demo_required : list string := ["flightblender.read"; "flightblender.write"].

Definition demo_gate (e : Env) (allow_any : bool) : result (response string) :=
  fst (decorated string string (fun _ => Some "PUB") 300 1 60
         (fun _ => Some [("kid", JStr "k1")])
         (fun _ => Some read_only_claims)
         (fun _ _ _ => Decoded read_only_claims)
         (fun _ => Ok ("https", "passport.example"))
         (fun _ => (Body (Some (JObj [("keys", JArr [JObj [("kid", JStr "k1")]])])), 1000, 1000)%Q)
         e demo_required allow_any "view called" (Some "Bearer abc.def.ghi") ∅).

Lemma bypass_scope_check_ignores_allow_any_witness :
  demo_gate bypass_env true = Ok (forbidden string).
Proof.
  refine (f_equal fst (proj2 (proj2
    (bypass_scope_check_ignores_allow_any string string (fun _ => Some "PUB") 300 1 60
       (fun _ => Some [("kid", JStr "k1")])
       (fun _ => Some read_only_claims)
       (fun _ _ _ => Decoded read_only_claims)
       (fun _ => Ok ("https", "passport.example"))
       (fun _ => (Body (Some (JObj [("keys", JArr [JObj [("kid", JStr "k1")]])])), 1000, 1000)%Q)
       bypass_env demo_required true "view called" "Bearer abc.def.ghi" "Bearer" "abc.def.ghi" []
       [("kid", JStr "k1")] ∅ _ eq_refl eq_refl))
    read_only_claims ["flightblender.read"] eq_refl eq_refl _)).
  - split; discriminate.
  - exists "flightblender.write". split; [right; left; reflexivity|].
    intros [H|[]]. discriminate H.
Defined.

(** The same token and [allow_any=True] on the verifying path: the view runs. *)
Lemma verified_path_honours_allow_any :
  demo_gate verifying_env true = Ok (ViewResult "view called")
  /\ demo_gate verifying_env false = Ok (forbidden string).
Proof.
  vm_compute. split; reflexivity.
Qed.

(** Production settings with the bypass flag left on. *)
Definition production_env : Env :=
  {| PASSPORT_AUDIENCE := Some "blender.example";
     BYPASS_AUTH_TOKEN_VERIFICATION := 1;
     IS_DEBUG := 0;
     PASSPORT_URL := Some "https://passport.example/";
     DSS_AUTH_JWKS_ENDPOINT := None |}.

Definition demo_decorated (e : Env) (allow_any : bool)
  : result (response string) * gmap string (JwksCache.CacheEntry string) :=
  decorated string string (fun _ => Some "PUB") 300 1 60
    (fun _ => Some [("kid", JStr "k1")])
    (fun _ => Some read_only_claims)
    (fun _ _ _ => Decoded read_only_claims)
    (fun _ => Ok ("https", "passport.example"))
    (fun _ => (Body (Some (JObj [("keys", JArr [JObj [("kid", JStr "k1")]])])), 1000, 1000)%Q)
    e demo_required allow_any "view called" (Some "Bearer abc.def.ghi") ∅.

Lemma view_runs_only_for_a_verified_token_witness :
  fst (demo_decorated production_env true) = Ok (ViewResult "view called")
  /\ exists claims scopes,
       decoded_scopes claims = Ok scopes
       /\ ((true = true /\ exists s, In s scopes /\ In s demo_required)
           \/ forall s, In s demo_required -> In s scopes).
Proof.
  split; [vm_compute; reflexivity|].
  assert (Hrun : demo_decorated production_env true
                 = (Ok (ViewResult "view called"), snd (demo_decorated production_env true)))
    by (vm_compute; reflexivity).
  destruct (view_runs_only_for_a_verified_token string string (fun _ => Some "PUB") 300 1 60
       (fun _ => Some [("kid", JStr "k1")])
       (fun _ => Some read_only_claims)
       (fun _ _ _ => Decoded read_only_claims)
       (fun _ => Ok ("https", "passport.example"))
       (fun _ => (Body (Some (JObj [("keys", JArr [JObj [("kid", JStr "k1")]])])), 1000, 1000)%Q)
       production_env demo_required true "view called" "view called"
       (Some "Bearer abc.def.ghi") ∅ _ eq_refl Hrun)
    as (a & first & token & rest & header & jwks1 & pk & c1 & r2 & kid & k & key & claims
        & scopes & _ & _ & _ & _ & _ & _ & _ & _ & _ & Hsc & Hor & _).
  exists claims, scopes. split; [exact Hsc | exact Hor].
Defined.

Lemma bypass_runs_view_only_for_a_complete_token_witness :
  exists details scopes,
    decoded_scopes details = Ok scopes
    /\ forall s, In s ["flightblender.read"] -> In s scopes.
Proof.
  destruct (bypass_runs_view_only_for_a_complete_token string
              (fun _ => Some read_only_claims)
              (fun _ => Ok ("https", "passport.example"))
              "abc.def.ghi" ["flightblender.read"] "view called" "view called" eq_refl)
    as (details & scopes & iss & aud & _ & Hs & Hall & _).
  exists details, scopes. split; [exact Hs | exact Hall].
Defined.

(** The cache the first verified request leaves, and the same request made
    an hour later while the key server is down. *)
Definition cache_after_first_request : gmap string (JwksCache.CacheEntry string) :=
  snd (demo_decorated verifying_env true).

Definition key_server_down (allow_any : bool)
  : result (response string) * gmap string (JwksCache.CacheEntry string) :=
  decorated string string (fun _ => Some "PUB") 300 1 60
    (fun _ => Some [("kid", JStr "k1")])
    (fun _ => Some read_only_claims)
    (fun _ _ _ => Decoded read_only_claims)
    (fun _ => Ok ("https", "passport.example"))
    (fun _ => (GetRaises, 4600, 4600)%Q)
    verifying_env demo_required allow_any "view called" (Some "Bearer abc.def.ghi")
    cache_after_first_request.

Lemma cached_passport_keys_prevent_503_witness :
  fst (key_server_down false) = Ok (forbidden string)
  /\ (403 = 401 \/ 403 = 403).
Proof.
  assert (Hrun : fst (key_server_down false) = Ok (forbidden string))
    by (vm_compute; reflexivity).
  split; [exact Hrun|].
  refine (cached_passport_keys_prevent_503 string string (fun _ => Some "PUB") 300 1 60
            (fun _ => Some [("kid", JStr "k1")])
            (fun _ => Some read_only_claims)
            (fun _ _ _ => Decoded read_only_claims)
            (fun _ => Ok ("https", "passport.example"))
            (fun _ => (GetRaises, 4600, 4600)%Q)
            verifying_env demo_required false "view called" (Some "Bearer abc.def.ghi")
            cache_after_first_request
            (JwksCache.on_success string 300 1
               (JObj [("keys", JArr [JObj [("kid", JStr "k1")]])])
               [(JwksCache.KStr "k1", "PUB")] 1000%Q)
            "You don't have access to this resource" 403 _ eq_refl Hrun).
  vm_compute. reflexivity.
Defined.

End ScopeGate.

(** ** common/http_download.py: the safe JSON fetcher *)

Module HttpDownload.

Record DownloadSettings : Type := {
  timeout_s : Q;
  max_redirects : Z;
  max_download_bytes : Z;
  allow_http : bool;
  require_https : bool
}.

Definition ascii_lower (c : ascii) : ascii :=
  let n := nat_of_ascii c in
  if ((65 <=? n) && (n <=? 90))%nat then ascii_of_nat (n + 32) else c.

(** [s.lower()] *)
Fixpoint lower (s : string) : string :=
  match s with
  | EmptyString => EmptyString
  | String c rest => String (ascii_lower c) (lower rest)
  end.

(** [needle in hay] *)
Fixpoint contains (needle hay : string) : bool :=
  String.prefix needle hay
  || match hay with
     | EmptyString => false
     | String _ rest => contains needle rest
     end.

Definition _is_json_content_type (content_type : string) : bool :=
  contains "json" (lower content_type).

(** What [response.iter_content] yields: a chunk of bytes, or the exception
    of a connection that breaks while the body is read. *)
Inductive stream_item : Type :=
| Chunk (data : string)
| Broken.

Record Response : Type := {
  status_code : Z;
  location : option string;        (* [headers.get("Location")] *)
  content_type : option string;    (* [headers.get("Content-Type")] *)
  body : list stream_item
}.

Inductive get_result : Type :=
| GetRaises
| Returns (response : Response).

(** The answer of [validate_public_url]: [(True, "")], [(False, reason)], or
    an exception it does not catch. *)
Inductive validation : Type :=
| Accepts
| Rejects (reason : string)
| ValidationRaises (e : exn).

(** How [fetch_json_url] ends. *)
Inductive outcome : Type :=
| Returned (v : option json)
| Raised (e : exn).

(** How reading the body ends. *)
Inductive read_result : Type :=
| Complete (raw : string)
| TooLarge
| StreamRaised.

Definition is_redirect (status : Z) : bool :=
  (status =? 301) || (status =? 302) || (status =? 303) || (status =? 307) || (status =? 308).

Section Fetch.

(** [validate_public_url(url, allow_http=, require_https=)], whose answer
    depends on name resolution: the [n]-th validation of the call. *)
Variable validate_public_url : nat -> string -> bool -> bool -> validation.
(** [s.get(current_url, timeout=, allow_redirects=False)] at hop [n]. *)
Variable session_get : nat -> string -> get_result.
(** [urljoin(current_url, location)] *)
Variable urljoin : string -> string -> string.
(** [json.loads(raw.decode("utf-8", errors="replace"))] ([None]: it raises). *)
Variable json_loads : string -> option json.
Variable settings : DownloadSettings.

Definition validate (n : nat) (url : string) : validation :=
  validate_public_url n url (allow_http settings) (require_https settings).

(** The loop over [response.iter_content(chunk_size=65536)]. *)
Fixpoint read_body (items : list stream_item) (raw : string) (total : Z) : read_result :=
  match items with
  | [] => Complete raw
  | Broken :: _ => StreamRaised
  | Chunk chunk :: rest =>
      if String.eqb chunk "" then read_body rest raw total
      else
        let total := total + Z.of_nat (String.length chunk) in
        if total >? max_download_bytes settings then TooLarge
        else read_body rest (raw +:+ chunk) total
  end.

(** The part of the loop body after the redirect handling. *)
Definition read_response (response : Response) : option json :=
  if negb (status_code response =? 200) then None
  else
    let content_type := match content_type response with Some c => c | None => "" end in
    if negb (String.eqb content_type "") && negb (_is_json_content_type content_type) then None
    else
      match read_body (body response) "" 0 with
      | Complete raw =>
          match json_loads raw with
          | Some parsed => if is_dict parsed then Some parsed else None
          | None => None
          end
      | TooLarge | StreamRaised => None
      end.

(** [for hop in range(settings.max_redirects + 1)], with [hops_left] turns of
    the loop to go; [requested] collects the URLs passed to [s.get]. *)
Fixpoint fetch_loop (hops_left hop : nat) (current_url : string) (requested : list string)
  : outcome * list string :=
  match hops_left with
  | O => (Returned None, requested)
  | S hops_left =>
      let requested := requested ++ [current_url] in
      match session_get hop current_url with
      | GetRaises => (Returned None, requested)
      | Returns response =>
          if is_redirect (status_code response) then
            match location response with
            | None => (Returned None, requested)
            | Some location =>
                if String.eqb location "" then (Returned None, requested)
                else if Z.of_nat hop >=? max_redirects settings then (Returned None, requested)
                else
                  let next_url := urljoin current_url location in
                  match validate (S hop) next_url with
                  | Accepts => fetch_loop hops_left (S hop) next_url requested
                  | Rejects _ => (Returned None, requested)
                  | ValidationRaises e => (Raised e, requested)
                  end
            end
          else (Returned (read_response response), requested)
      end
  end.

(** [fetch_json_url(url, settings=, session=)], with the URLs it requested. *)
Definition fetch_json_url_trace (url : string) : outcome * list string :=
  match validate 0 url with
  | Accepts => fetch_loop (Z.to_nat (max_redirects settings + 1)) 0 url []
  | Rejects _ => (Returned None, [])
  | ValidationRaises e => (Raised e, [])
  end.

Definition fetch_json_url (url : string) : outcome := fst (fetch_json_url_trace url).

(** *** The steps of the specification *)

(** The bytes of a body that arrives whole. *)
Fixpoint payload (items : list stream_item) : string :=
  match items with
  | [] => ""
  | Chunk c :: rest => c +:+ payload rest
  | Broken :: rest => payload rest
  end.

Definition breaks (items : list stream_item) : Prop := In Broken items.





(** *** Properties of the fetcher *)

Lemma append_cons (x : ascii) (a b : string) : String x a +:+ b = String x (a +:+ b).
Proof. reflexivity. Qed.

Lemma append_assoc (a b c : string) : (a +:+ b) +:+ c = a +:+ (b +:+ c).
Proof.
  induction a as [|x a IH]; [reflexivity|].
  rewrite !append_cons. f_equal. exact IH.
Qed.

Lemma append_empty_r (a : string) : a +:+ "" = a.
Proof.
  induction a as [|x a IH]; [reflexivity|]. rewrite append_cons. f_equal. exact IH.
Qed.

Lemma append_length (a b : string) :
  String.length (a +:+ b) = (String.length a + String.length b)%nat.
Proof.
  induction a as [|x a IH]; [reflexivity|]. rewrite append_cons. simpl. rewrite IH. reflexivity.
Qed.

Lemma append_empty (a b : string) : a +:+ b = "" <-> a = "" /\ b = "".
Proof.
  destruct a as [|x a].
  - change ("" +:+ b) with b. split; [auto | intros [_ H]; exact H].
  - rewrite append_cons. split; [discriminate | intros [H _]; discriminate].
Qed.

Lemma eqb_empty (s : string) : String.eqb s "" = false <-> s <> "".
Proof.
  split.
  - intros H ->. discriminate.
  - intros H. destruct (String.eqb s "") eqn:E; [|reflexivity].
    apply String.eqb_eq in E. contradiction.
Qed.

(** When the loop over the chunks runs to its end. *)
Lemma read_body_complete (items : list stream_item) (raw : string) (total : Z) (raw' : string) :
  read_body items raw total = Complete raw' <->
  ~ breaks items
  /\ raw' = raw +:+ payload items
  /\ (payload items = ""
      \/ total + Z.of_nat (String.length (payload items)) <= max_download_bytes settings).
Proof.
  revert raw total. induction items as [|[chunk|] rest IH]; intros raw total; simpl.
  - split.
    + intros H. injection H as <-. split; [intros []|].
      split; [|left; reflexivity]. symmetry. apply append_empty_r.
    + intros (_ & -> & _). f_equal. symmetry. apply append_empty_r.
  - destruct (String.eqb chunk "") eqn:E.
    + apply String.eqb_eq in E. subst chunk. change ("" +:+ payload rest) with (payload rest).
      rewrite IH. unfold breaks, not. simpl.
      split; intros (Hb & Hr & Hl); (split; [|auto]).
      * intros [H|H]; [discriminate | auto].
      * auto.
    + apply eqb_empty in E.
      destruct (total + Z.of_nat (String.length chunk) >? max_download_bytes settings) eqn:G.
      * split; [discriminate|]. intros (_ & _ & [H|H]).
        -- apply append_empty in H as [H _]. contradiction.
        -- rewrite append_length in H. lia.
      * rewrite IH. unfold breaks, not. simpl. rewrite append_assoc.
        split; intros (Hb & Hr & Hl).
        -- split; [intros [H|H]; [discriminate | auto]|]. split; [exact Hr|]. right.
           rewrite append_length. destruct Hl as [Hl|Hl]; [rewrite Hl; simpl|]; lia.
        -- split; [auto|]. split; [exact Hr|]. right.
           destruct Hl as [Hl|Hl]; [apply append_empty in Hl as [Hl _]; contradiction|].
           rewrite append_length in Hl. lia.
  - split; [discriminate|]. intros (H & _). destruct H. left. reflexivity.
Qed.


Lemma read_body_start (items : list stream_item) (raw' : string) :
  read_body items "" 0 = Complete raw' <->
  ~ breaks items /\ raw' = payload items
  /\ (payload items = ""
      \/ Z.of_nat (String.length (payload items)) <= max_download_bytes settings).
Proof. rewrite read_body_complete. simpl. reflexivity. Qed.








(** Every URL the loop requests was validated first, under the index of its
    hop, and the loop makes no more requests than it has turns. *)
Lemma fetch_loop_requested (hops_left hop : nat) (current_url : string)
    (requested : list string) :
  length requested = hop ->
  validate hop current_url = Accepts ->
  (forall i x, requested !! i = Some x -> validate i x = Accepts) ->
  let requested' := snd (fetch_loop hops_left hop current_url requested) in
  (forall i x, requested' !! i = Some x -> validate i x = Accepts)
  /\ (length requested' <= hop + hops_left)%nat.
Proof.
  revert hop current_url requested.
  induction hops_left as [|left IH]; intros hop u req Hlen Hv Hreq; simpl.
  { split; [exact Hreq | lia]. }
  assert (Hreq' : forall i x, (req ++ [u]) !! i = Some x -> validate i x = Accepts).
  { intros i x Hl. apply lookup_app_Some in Hl as [Hl|[Hge Hl]]; [eauto|].
    apply list_lookup_singleton_Some in Hl as [Hi <-].
    replace i with hop by lia. exact Hv. }
  assert (Hlen' : length (req ++ [u]) = S hop) by (rewrite length_app; simpl; lia).
  assert (Hstop : (forall i x, (req ++ [u]) !! i = Some x -> validate i x = Accepts)
                  /\ (length (req ++ [u]) <= hop + S left)%nat) by (split; [exact Hreq' | lia]).
  destruct (session_get hop u) as [|r]; simpl; [exact Hstop|].
  destruct (is_redirect (status_code r)); [|exact Hstop].
  destruct (location r) as [loc|]; simpl; [|exact Hstop].
  destruct (String.eqb loc ""); simpl; [exact Hstop|].
  destruct (Z.of_nat hop >=? max_redirects settings); simpl; [exact Hstop|].
  destruct (validate (S hop) (urljoin u loc)) eqn:Hv'; simpl; try exact Hstop.
  destruct (IH (S hop) (urljoin u loc) (req ++ [u]) Hlen' Hv' Hreq') as [H1 H2].
  split; [exact H1 | lia].
Qed.



(** *** Further properties of the fetcher *)

Lemma read_response_fetched (r : Response) (v : json) :
  read_response r = Some v ->
  status_code r = 200
  /\ (forall c, content_type r = Some c -> c <> "" -> _is_json_content_type c = true)
  /\ ~ breaks (body r)
  /\ json_loads (payload (body r)) = Some v
  /\ (payload (body r) = ""
      \/ Z.of_nat (String.length (payload (body r))) <= max_download_bytes settings).
Proof.
  unfold read_response.
  destruct (status_code r =? 200) eqn:Hs; simpl; [|discriminate].
  destruct (negb (String.eqb (match content_type r with Some c => c | None => "" end) "")
            && negb (_is_json_content_type
                       (match content_type r with Some c => c | None => "" end))) eqn:Hc;
    [discriminate|].
  destruct (read_body (body r) "" 0) as [raw| |] eqn:Hr; try discriminate.
  apply read_body_start in Hr as (Hb & -> & Hl).
  destruct (json_loads (payload (body r))) as [parsed|] eqn:Hj; [|discriminate].
  destruct (is_dict parsed); [|discriminate].
  intros H. injection H as <-. apply Z.eqb_eq in Hs.
  split; [exact Hs|]. split; [|auto].
  intros c Hct Hne. rewrite Hct in Hc.
  apply eqb_empty in Hne. rewrite Hne in Hc. simpl in Hc.
  destruct (_is_json_content_type c); [reflexivity | discriminate].
Qed.

Lemma fetch_loop_fetched (hops_left hop : nat) (current_url : string)
    (requested : list string) (v : json) :
  fst (fetch_loop hops_left hop current_url requested) = Returned (Some v) ->
  exists hop' u before r,
    snd (fetch_loop hops_left hop current_url requested) = before ++ [u]
    /\ session_get hop' u = Returns r
    /\ read_response r = Some v.
Proof.
  revert hop current_url requested.
  induction hops_left as [|left IH]; intros hop u req; simpl; [discriminate|].
  destruct (session_get hop u) as [|r] eqn:Hg; simpl; [discriminate|].
  destruct (is_redirect (status_code r)).
  - destruct (location r) as [loc|]; simpl; [|discriminate].
    destruct (String.eqb loc ""); simpl; [discriminate|].
    destruct (Z.of_nat hop >=? max_redirects settings); simpl; [discriminate|].
    destruct (validate (S hop) (urljoin u loc)); simpl; try discriminate. apply IH.
  - simpl. intros H. injection H as H.
    exists hop, u, req, r. split; [reflexivity|]. split; [exact Hg | exact H].
Qed.

(** X25.  What [fetch_json_url] returns, when it is not [None], was parsed
    from the body of a response with status 200 to the last URL it
    requested: the body arrived whole, was empty or no longer than
    [max_download_bytes], and the [Content-Type], if the response had a
    non-empty one, mentions JSON. *)
Theorem fetched_object_comes_from_a_capped_response (url : string) (v : json) :
  fetch_json_url url = Returned (Some v) ->
  exists hop u before r,
    snd (fetch_json_url_trace url) = before ++ [u]
    /\ session_get hop u = Returns r
    /\ status_code r = 200
    /\ (forall c, content_type r = Some c -> c <> "" -> _is_json_content_type c = true)
    /\ ~ breaks (body r)
    /\ json_loads (payload (body r)) = Some v
    /\ (payload (body r) = ""
        \/ Z.of_nat (String.length (payload (body r))) <= max_download_bytes settings).
Proof.
  unfold fetch_json_url, fetch_json_url_trace.
  destruct (validate 0 url); try discriminate.
  intros H. apply fetch_loop_fetched in H as (hop & u & before & r & Ht & Hg & Hr).
  apply read_response_fetched in Hr.
  exists hop, u, before, r. split; [exact Ht|]. split; [exact Hg | exact Hr].
Qed.

End Fetch.

(** *** Concrete exchanges *)

Definition default_settings : DownloadSettings :=
  {| timeout_s := 10; max_redirects := 3; max_download_bytes := 1048576;
     allow_http := false; require_https := true |}.

(** A validator that turns away the loopback address and accepts the rest. *)
Definition demo_validate (n : nat) (url : string) (allow_http require_https : bool)
  : validation :=
  if contains "127.0.0.1" url then Rejects "ip_not_allowed" else Accepts.

Definition demo_urljoin (current_url location : string) : string :=
  if String.prefix "/" location then "https://93.184.216.34" +:+ location else location.

Definition keys_body : string := "{keys: []}".

Definition demo_json_loads (raw : string) : option json :=
  if String.eqb raw keys_body then Some (JObj [("keys", JArr [])]) else None.

Definition ok_response : Response :=
  {| status_code := 200; location := None;
     content_type := Some "application/jwk-set+json"; body := [Chunk keys_body] |}.

Definition redirect_to (target : string) : Response :=
  {| status_code := 302; location := Some target; content_type := None; body := [] |}.

Definition demo_fetch (session_get : nat -> string -> get_result) (s : DownloadSettings)
  : outcome * list string :=
  fetch_json_url_trace demo_validate session_get demo_urljoin demo_json_loads s
    "https://93.184.216.34/redirect".

(** Scenario 4 of the specification. *)
Lemma follows_safe_redirect_and_parses_json :
  demo_fetch (fun n _ => match n with
                         | O => Returns (redirect_to "/final")
                         | _ => Returns ok_response
                         end) default_settings
  = (Returned (Some (JObj [("keys", JArr [])])),
     ["https://93.184.216.34/redirect"; "https://93.184.216.34/final"]).
Proof. vm_compute. reflexivity. Qed.

Lemma blocks_redirect_to_private_ip :
  demo_fetch (fun _ _ => Returns (redirect_to "https://127.0.0.1/evil")) default_settings
  = (Returned None, ["https://93.184.216.34/redirect"]).
Proof. vm_compute. reflexivity. Qed.


(** A redirect, then the key set. *)
Definition redirect_then_keys (n : nat) (url : string) : get_result :=
  match n with
  | O => Returns (redirect_to "/final")
  | _ => Returns ok_response
  end.

Lemma fetched_object_comes_from_a_capped_response_witness :
  exists hop u r,
    redirect_then_keys hop u = Returns r
    /\ status_code r = 200
    /\ demo_json_loads (payload (body r)) = Some (JObj [("keys", JArr [])])
    /\ (payload (body r) = ""
        \/ Z.of_nat (String.length (payload (body r))) <= 1048576).
Proof.
  destruct (fetched_object_comes_from_a_capped_response demo_validate redirect_then_keys
              demo_urljoin demo_json_loads default_settings
              "https://93.184.216.34/redirect" (JObj [("keys", JArr [])]) eq_refl)
    as (hop & u & before & r & _ & Hg & Hs & _ & _ & Hj & Hl).
  exists hop, u, r. auto.
Defined.

End HttpDownload.

(** ** rid_operations/dss_rid_helper.py: the RID cluster builder *)

Module RidCluster.

Local Open Scope float_scope.

(** Python floats are IEEE 754 binary64 numbers, as Rocq's [float] is. *)

(** A shapely [Point(x, y)]. *)
Record Point : Type := { px : float; py : float }.

Record Cluster : Type := {
  x_min : float;
  x_max : float;
  y_min : float;
  y_max : float;
  points : list Point
}.

Record ClusterPosition : Type := { lat : float; lng : float }.

Record ClusterDetail : Type := {
  corners : list ClusterPosition;
  area_sqm : float;
  number_of_flights : nat
}.

(** The part of an [RIDFlight] the builder reads. *)
Record RIDFlight : Type := { most_recent_position : ClusterPosition }.

(** [a / b]: Python raises when the divisor is zero. *)
Definition py_div (a b : float) : result float :=
  if b =? 0 then Raise (ZeroDivisionError "float division by zero") else Ok (a / b).

(** [math.sqrt(x)] *)
Definition py_sqrt (x : float) : result float :=
  if x <? 0 then Raise (ValueError "math domain error") else Ok (sqrt x).

(** [min(a, b)] and [max(a, b)] of two floats. *)
Definition py_min (a b : float) : float := if b <? a then b else a.
Definition py_max (a b : float) : float := if a <? b then b else a.

Section Builder.

(** [geod.geometry_length(LineString([p, q]))], in metres. *)
Variable geometry_length : Point -> Point -> float.
(** A shapely [Polygon], its [bounds] and its geodesic area. *)
Variable Polygon : Type.
Variable bounds : Polygon -> float * float * float * float.
Variable compute_polygon_area : Polygon -> float.
(** The constants of [uas_standards.astm.f3411.v22a.constants]. *)
Variable NetMinObfuscationDistanceM : float.
Variable NetMinClusterSizePercent : float.

Definition extend_cluster (view_area_sqm min_x min_y max_x max_y : float)
    (all_positions : list Point) : result Cluster :=
  let cluster :=
    {| x_min := min_x; x_max := max_x; y_min := min_y; y_max := max_y;
       points := all_positions |} in
  let cluster_width :=
    geometry_length {| px := min_x; py := min_y |} {| px := max_x; py := min_y |} in
  let cluster_height :=
    geometry_length {| px := min_x; py := min_y |} {| px := min_x; py := max_y |} in
  let cluster_area := cluster_width * cluster_height in
  let cluster :=
    if cluster_width <? 2 * NetMinObfuscationDistanceM then
      let delta := NetMinObfuscationDistanceM - cluster_width / 2 in
      {| x_min := min_x - delta; x_max := max_x + delta; y_min := min_y; y_max := max_y;
         points := all_positions |}
    else cluster in
  let cluster :=
    if cluster_height <? 2 * NetMinObfuscationDistanceM then
      let delta := NetMinObfuscationDistanceM - cluster_height / 2 in
      {| x_min := min_x; x_max := max_x; y_min := min_y - delta; y_max := max_y + delta;
         points := all_positions |}
    else cluster in
  let min_cluster_area := view_area_sqm * NetMinClusterSizePercent / 100 in
  if cluster_area <? min_cluster_area then
    match py_div min_cluster_area cluster_area with
    | Raise e => Raise e
    | Ok ratio =>
        match py_sqrt ratio with
        | Raise e => Raise e
        | Ok root =>
            let scale := root / 2 in
            Ok {| x_min := min_x - scale * cluster_width;
                  x_max := max_x + scale * cluster_width;
                  y_min := min_y - scale * cluster_height;
                  y_max := max_y + scale * cluster_height;
                  points := all_positions |}
        end
    end
  else Ok cluster.

(** The bounding box of the positions, as the loop over [all_positions[1:]]
    builds it from the bounds of the first one. *)
Definition grow_box (box : float * float * float * float) (position : Point)
  : float * float * float * float :=
  let '(min_x, min_y, max_x, max_y) := box in
  (py_min min_x (px position), py_min min_y (py position),
   py_max max_x (px position), py_max max_y (py position)).

Definition generate_cluster_details (rid_flights : list RIDFlight) (view_box : Polygon)
  : result (list ClusterDetail) :=
  let '(vx0, vy0, vx1, vy1) := bounds view_box in
  let view_min_point := {| px := vx0; py := vy0 |} in
  let view_max_point := {| px := vx1; py := vy1 |} in
  let flight_positions :=
    map (fun rid_flight =>
           {| px := lat (most_recent_position rid_flight);
              py := lng (most_recent_position rid_flight) |}) rid_flights in
  let all_positions := view_min_point :: view_max_point :: flight_positions in
  let '(min_x, min_y, max_x, max_y) :=
    fold_left grow_box (view_max_point :: flight_positions)
      (px view_min_point, py view_min_point, px view_min_point, py view_min_point) in
  let bounding_box_area_sq_meters := compute_polygon_area view_box in
  match extend_cluster bounding_box_area_sq_meters min_x min_y max_x max_y all_positions with
  | Raise e => Raise e
  | Ok extended_cluster =>
      Ok [{| corners := [{| lat := y_min extended_cluster; lng := x_min extended_cluster |};
                         {| lat := y_max extended_cluster; lng := x_max extended_cluster |}];
             area_sqm := bounding_box_area_sq_meters;
             number_of_flights := length rid_flights |}]
  end.

(** *** What the specification asks of the rectangle *)

(** The geodesic width and height of a cluster, measured as the code
    measures the box it starts from: along the bottom and the left edge. *)
Definition width_of (c : Cluster) : float :=
  geometry_length {| px := x_min c; py := y_min c |} {| px := x_max c; py := y_min c |}.

Definition height_of (c : Cluster) : float :=
  geometry_length {| px := x_min c; py := y_min c |} {| px := x_min c; py := y_max c |}.

(** (G1), the two distance floors. *)
Definition meets_distance_floors (c : Cluster) : bool :=
  negb (width_of c <? 2 * NetMinObfuscationDistanceM)
  && negb (height_of c <? 2 * NetMinObfuscationDistanceM).

(** *** What [extend_cluster] returns *)

(** Each of the three steps builds its rectangle from the bounds the function
    was called with, not from the rectangle of the step before: of the steps
    that fire, only the last one shows in the result. *)
Lemma extend_cluster_last_step_wins (view_area_sqm min_x min_y max_x max_y : float)
    (all_positions : list Point) :
  let w := geometry_length {| px := min_x; py := min_y |} {| px := max_x; py := min_y |} in
  let h := geometry_length {| px := min_x; py := min_y |} {| px := min_x; py := max_y |} in
  let min_cluster_area := view_area_sqm * NetMinClusterSizePercent / 100 in
  let box x0 x1 y0 y1 :=
    {| x_min := x0; x_max := x1; y_min := y0; y_max := y1; points := all_positions |} in
  extend_cluster view_area_sqm min_x min_y max_x max_y all_positions =
    if w * h <? min_cluster_area then
      match py_div min_cluster_area (w * h) with
      | Raise e => Raise e
      | Ok ratio =>
          match py_sqrt ratio with
          | Raise e => Raise e
          | Ok root =>
              Ok (box (min_x - root / 2 * w) (max_x + root / 2 * w)
                      (min_y - root / 2 * h) (max_y + root / 2 * h))
          end
      end
    else if h <? 2 * NetMinObfuscationDistanceM then
      Ok (box min_x max_x (min_y - (NetMinObfuscationDistanceM - h / 2))
                          (max_y + (NetMinObfuscationDistanceM - h / 2)))
    else if w <? 2 * NetMinObfuscationDistanceM then
      Ok (box (min_x - (NetMinObfuscationDistanceM - w / 2))
              (max_x + (NetMinObfuscationDistanceM - w / 2)) min_y max_y)
    else Ok (box min_x max_x min_y max_y).
Proof.
  intros w h min_cluster_area box. unfold extend_cluster.
  fold w. fold h. fold min_cluster_area.
  destruct (w * h <? min_cluster_area); [reflexivity|].
  destruct (h <? 2 * NetMinObfuscationDistanceM);
    destruct (w <? 2 * NetMinObfuscationDistanceM); reflexivity.
Qed.

End Builder.

(** *** A small view *)

(** A stand-in for [geod.geometry_length] on the view used below: 108.75 m
    for every horizontal and 108 m for every vertical edge, close to the
    108.71 m and 107.98 m of the WGS84 ellipsoid and exact in binary64. *)
Definition measured_length (p q : Point) : float :=
  if py p =? py q then 108.75 else 108.

(** A view of 2^-10 degrees a side at the origin, without flights: by the
    measure above 108.75 m wide and 108 m high, 11745 m2. *)
Definition small_view_cluster : result Cluster :=
  extend_cluster measured_length 300 15 11745 0 0 0x1p-10 0x1p-10 [].

(** The same view through [generate_cluster_details]: the view box is its
    own bounds, its area is 11745 m2. *)
Definition small_view_details : result (list ClusterDetail) :=
  generate_cluster_details measured_length (float * float * float * float)
    (fun box => box) (fun _ => 11745) 300 15 [] (0, 0, 0x1p-10, 0x1p-10).

(** C1.  For every way of measuring lengths: when the box is lower than
    [2 * NetMinObfuscationDistanceM] and its area is not below the area
    floor, [extend_cluster] returns the box with its x-extent untouched,
    whether or not the box was too narrow: the width step's rectangle is
    overwritten by the height step, which starts again from the bounds the
    function was called with.  On the small view above, through
    [extend_cluster] and through [generate_cluster_details], the result is
    108.75 m wide by the measure above, under the floor of 600 m. *)
Theorem extend_cluster_steps_do_not_compose :
  (forall (geometry_length : Point -> Point -> float) (N P view_area_sqm : float)
          (min_x min_y max_x max_y : float) (all_positions : list Point),
      let w := geometry_length {| px := min_x; py := min_y |} {| px := max_x; py := min_y |} in
      let h := geometry_length {| px := min_x; py := min_y |} {| px := min_x; py := max_y |} in
      (w * h <? view_area_sqm * P / 100) = false ->
      (h <? 2 * N) = true ->
      extend_cluster geometry_length N P view_area_sqm min_x min_y max_x max_y all_positions
      = Ok {| x_min := min_x; x_max := max_x;
              y_min := min_y - (N - h / 2); y_max := max_y + (N - h / 2);
              points := all_positions |})
  /\ small_view_cluster
     = Ok {| x_min := 0; x_max := 0x1p-10; y_min := -246; y_max := 246 + 0x1p-10;
             points := [] |}
  /\ small_view_details
     = Ok [{| corners := [{| lat := -246; lng := 0 |};
                          {| lat := 246 + 0x1p-10; lng := 0x1p-10 |}];
              area_sqm := 11745; number_of_flights := 0 |}]
  /\ (measured_length {| px := 0; py := 0 |} {| px := 0x1p-10; py := 0 |} <? 2 * 300) = true
  /\ match small_view_cluster with
     | Ok c => meets_distance_floors measured_length 300 c
     | Raise _ => true
     end = false.
Proof.
  split; [|split; [|split; [|split]]].
  - intros geometry_length N P view_area_sqm min_x min_y max_x max_y all_positions w h Ha Hh.
    rewrite extend_cluster_last_step_wins. fold w. fold h. rewrite Ha, Hh. reflexivity.
  - vm_compute. reflexivity.
  - vm_compute. reflexivity.
  - vm_compute. reflexivity.
  - vm_compute. reflexivity.
Qed.

End RidCluster.

(** ** rid_operations/dss_rid_helper.py: ISAs and subscriptions on the DSS *)

Module DssRid.

(** The dataclasses of [rid_utils] the two calls build. *)
Record RIDTime : Type := { time_value : string; time_format : string }.

Record RIDSubscription : Type := {
  sub_id : string;
  sub_uss_base_url : string;
  sub_owner : string;
  sub_notification_index : Z;
  sub_time_start : RIDTime;
  sub_time_end : RIDTime;
  sub_version : string
}.

(** [IdentificationServiceArea], its fields as the DSS or the fallback gave them. *)
Record IdentificationServiceArea : Type := {
  isa_uss_base_url : json;
  isa_owner : json;
  isa_time_start : json * json;     (* value, format *)
  isa_time_end : json * json;
  isa_version : json;
  isa_id : json
}.

(** [RIDFlightsRecord.service_areas]: the JSON list of the DSS, or the areas
    the fallback made up. *)
Inductive service_areas_t : Type :=
| FromDss (areas : json)
| Synthesized (areas : list IdentificationServiceArea).

Record RIDFlightsRecord : Type := {
  service_areas : service_areas_t;
  subscription : RIDSubscription
}.

Record SubscriptionResponse : Type := {
  created : bool;
  dss_subscription_id : option string;
  notification_index : Z
}.

Record SubscriptionState : Type := { subscription_id : json; state_notification_index : json }.

Record SubscriberToNotify : Type := { url : json; subscriptions : list SubscriptionState }.

Record ISACreationResponse : Type := {
  isa_created : bool;
  service_area : option IdentificationServiceArea;
  subscribers : list SubscriberToNotify
}.

(** A 4D volume: the outline, the altitudes 0.5 m and 800 m over W84, the
    time window. *)
Record RIDVolume4D : Type := {
  vertices : list (json * json);
  altitude_lower : Q;
  altitude_upper : Q;
  volume_time_start : RIDTime;
  volume_time_end : RIDTime
}.

(** The arguments of one [create_rid_subscription_record] call. *)
Record SubscriptionRecord : Type := {
  rec_subscription_id : string;
  rec_record_id : string;
  rec_view_hash : Z;
  rec_end_datetime : string;
  rec_is_simulated : bool;
  rec_view : string;
  rec_flights_dict : RIDFlightsRecord
}.

(** The JSON sent with a request.  The extents of an ISA are a dataclass
    ([RIDVolume4D] or [Volume4D]) on the Python side; [extents : json] is
    the document [asdict] makes of it. *)
Inductive request_body : Type :=
| IsaBody (extents : json) (uss_base_url : string)
| SubscriptionBody (extents : RIDVolume4D) (uss_base_url : string)
| NotifyBody (area : IdentificationServiceArea) (subs : list SubscriptionState) (extents : json).

Inductive http_request : Type :=
| Put (target : string) (bearer : string) (payload : request_body)
| Post (target : string) (bearer : string) (payload : request_body).

Record Response : Type := {
  status_code : Z;
  json_body : option json       (* [dss_r.json()]; [None]: it raises ValueError *)
}.

Inductive http_result : Type :=
| Responds (r : Response)
| Fails (e : exn).

Inductive redis_op : Type :=
| RedisSet (key : string) (v : Z)
| RedisExpire (key : string) (seconds : Z).

(** What the calls of this module act on: how many UUIDs were drawn and how
    often the token broker was called, the requests the module itself sent
    ([requests.put], [requests.post]), the operations it made itself on its
    store handle [self.r], and the [create_rid_subscription_record] calls it
    made.  A call of the broker stands for all the broker does: its requests
    to the token endpoint and the token records it keeps in the same Redis
    (module [TokenBroker]) are not entered in these logs. *)
Record World : Type := {
  uuids_drawn : nat;
  credential_calls : nat;
  http_log : list http_request;
  redis_log : list redis_op;
  database : list SubscriptionRecord
}.

Definition M (A : Type) : Type := World -> result A * World.

Definition ret {A} (a : A) : M A := fun w => (Ok a, w).
Definition lift {A} (r : result A) : M A := fun w => (r, w).
Definition bind {A B} (c : M A) (k : A -> M B) : M B :=
  fun w => match c w with
           | (Ok a, w') => k a w'
           | (Raise e, w') => (Raise e, w')
           end.
(** [try: c  except Exception: handler] *)
Definition try_except {A} (c : M A) (handler : exn -> M A) : M A :=
  fun w => match c w with
           | (Ok a, w') => (Ok a, w')
           | (Raise e, w') => handler e w'
           end.

Notation "x <- c ;; k" := (bind c (fun x => k))
  (at level 100, c at level 99, k at level 200, right associativity).
Notation "c ;;; k" := (bind c (fun _ => k))
  (at level 100, k at level 200, right associativity).

(** ["Bearer " + token["access_token"]] *)
Definition bearer_of (token : json) : result string :=
  match getitem "access_token" token with
  | Ok (JStr t) => Ok ("Bearer " +:+ t)
  | Ok _ => Raise (TypeError "can only concatenate str")
  | Raise e => Raise e
  end.

(** [token.get("error")] *)
Definition error_of (token : json) : result (option json) :=
  match token with
  | JObj fields =>
      match dict_get "error" fields with
      | Some JNull | None => Ok None
      | Some e => Ok (Some e)
      end
  | _ => Raise (AttributeError "get")
  end.

(** The process environment and the file system, as far as they are read. *)
Record Env : Type := {
  DSS_BASE_URL : option string;
  DSS_SELF_AUDIENCE : option string;
  FLIGHTBLENDER_FQDN : option string;
  RID_FALLBACK_USS_URLS : option string;
  dockerenv_exists : bool
}.

Section Coordinator.

Variable env : Env.
(** [str(uuid.uuid4())]: the [n]-th identifier drawn. *)
Variable uuid4 : nat -> string.
(** [AuthorityCredentialsGetter().get_cached_credentials(audience, token_type)],
    the [n]-th call. *)
Variable get_cached_credentials : nat -> string -> string -> result json.
(** [requests.put] and [requests.post]: the answer to the [n]-th request. *)
Variable http : nat -> http_request -> http_result.
(** [datetime.now()] of the call, as [(now + timedelta(seconds=s)).isoformat()]. *)
Variable isoformat_after : Z -> string.
(** [int(hashlib.sha256(view.encode("utf-8")).hexdigest(), 16) % 10**8] *)
Variable view_hash_of : string -> Z.
(** [tldextract.extract(url)]: subdomain, domain and suffix. *)
Variable tldextract : json -> result (string * string * string).
(** [f"{value}"] *)
Variable format_json : json -> string.

Definition new_uuid : M string :=
  fun w => (Ok (uuid4 (uuids_drawn w)),
            {| uuids_drawn := S (uuids_drawn w); credential_calls := credential_calls w;
               http_log := http_log w; redis_log := redis_log w; database := database w |}).

(** One call of the broker, counted in [credential_calls]; its answer is
    all the module sees of it. *)
Definition credentials_for (audience token_type : string) : M json :=
  fun w => (get_cached_credentials (credential_calls w) audience token_type,
            {| uuids_drawn := uuids_drawn w; credential_calls := S (credential_calls w);
               http_log := http_log w; redis_log := redis_log w; database := database w |}).

Definition http_send (req : http_request) : M Response :=
  fun w =>
    let w' := {| uuids_drawn := uuids_drawn w; credential_calls := credential_calls w;
                 http_log := http_log w ++ [req]; redis_log := redis_log w;
                 database := database w |} in
    match http (length (http_log w)) req with
    | Responds r => (Ok r, w')
    | Fails e => (Raise e, w')
    end.

Definition redis_do (op : redis_op) : M unit :=
  fun w => (Ok tt,
            {| uuids_drawn := uuids_drawn w; credential_calls := credential_calls w;
               http_log := http_log w; redis_log := redis_log w ++ [op];
               database := database w |}).

(** Modelled from the spec: [FlightBlenderDatabaseWriter.create_rid_subscription_record]
    is not among the sources; it "persists a subscription record", here by
    appending the arguments of the call to the database. *)
Definition create_rid_subscription_record (r : SubscriptionRecord) : M unit :=
  fun w => (Ok tt,
            {| uuids_drawn := uuids_drawn w; credential_calls := credential_calls w;
               http_log := http_log w; redis_log := redis_log w;
               database := database w ++ [r] |}).

Definition normalize_base_url (value : option string) (fallback : string) : string :=
  let stripped := py_strip (env_get value "") in
  rstrip is_slash (if String.eqb stripped "" then fallback else stripped).

Definition dss_base_url : string :=
  normalize_base_url (DSS_BASE_URL env) "http://local-dss-core:8082".

Definition resolve_flightblender_base_url : string :=
  let base := py_strip (env_get (FLIGHTBLENDER_FQDN env) "") in
  let base := if String.eqb base "" then "http://flight-blender:8000" else base in
  let base :=
    if (String.prefix "http://localhost" base || String.prefix "http://127.0.0.1" base)
       && dockerenv_exists env
    then "http://flight-blender:8000" else base in
  rstrip is_slash base.

(** The loop body of [parse_fallback_uss_urls]. *)
Definition fallback_entry (entry : string) : list string :=
  let entry := py_strip entry in
  if String.eqb entry "" then []
  else
    let entry :=
      if negb (String.prefix "http://" entry) && negb (String.prefix "https://" entry)
      then "http://" +:+ entry else entry in
    [rstrip is_slash entry].

Definition parse_fallback_uss_urls : list string :=
  let raw := py_strip (env_get (RID_FALLBACK_USS_URLS env) "") in
  if String.eqb raw "" then []
  else concat (map fallback_entry (split_on ","%char "" raw)).

Definition not_created : SubscriptionResponse :=
  {| created := false; dss_subscription_id := None; notification_index := 0 |}.

Definition fallback_area (time_start time_end : RIDTime) (id url : string)
  : IdentificationServiceArea :=
  {| isa_uss_base_url := JStr url;
     isa_owner := JStr "fallback";
     isa_time_start := (JStr (time_value time_start), JStr (time_format time_start));
     isa_time_end := (JStr (time_value time_end), JStr (time_format time_end));
     isa_version := JStr "1";
     isa_id := JStr id |}.

(** [[IdentificationServiceArea(id=str(uuid.uuid4()), ...) for url in fallback_urls]] *)
Fixpoint fallback_areas (time_start time_end : RIDTime) (urls : list string)
  : M (list IdentificationServiceArea) :=
  match urls with
  | [] => ret []
  | url :: rest =>
      id <- new_uuid ;;
      areas <- fallback_areas time_start time_end rest ;;
      ret (fallback_area time_start time_end id url :: areas)
  end.

Definition _fallback_subscription (request_uuid view : string) (time_start time_end : RIDTime)
    (end_datetime uss_base_url : string) (is_simulated : bool) (reason : string)
  : M SubscriptionResponse :=
  let fallback_urls := parse_fallback_uss_urls in
  match fallback_urls with
  | [] => ret not_created
  | _ :: _ =>
      subscription_id <- new_uuid ;;
      let view_hash := view_hash_of view in
      let subscription :=
        {| sub_id := subscription_id; sub_uss_base_url := uss_base_url;
           sub_owner := "fallback"; sub_notification_index := 0;
           sub_time_start := time_start; sub_time_end := time_end; sub_version := "1" |} in
      areas <- fallback_areas time_start time_end fallback_urls ;;
      let flights_dict := {| service_areas := Synthesized areas; subscription := subscription |} in
      create_rid_subscription_record
        {| rec_subscription_id := subscription_id; rec_record_id := request_uuid;
           rec_view_hash := view_hash; rec_end_datetime := end_datetime;
           rec_is_simulated := true; rec_view := view; rec_flights_dict := flights_dict |} ;;;
      ret {| created := true; dss_subscription_id := Some subscription_id;
             notification_index := 0 |}
  end.

Definition rbind {A B} (r : result A) (k : A -> result B) : result B :=
  match r with Ok a => k a | Raise e => Raise e end.

Notation "x <~ c ;; k" := (rbind c (fun x => k))
  (at level 100, c at level 99, k at level 200, right associativity).

Fixpoint rmap {A B} (f : A -> result B) (l : list A) : result (list B) :=
  match l with
  | [] => Ok []
  | a :: rest => b <~ f a ;; bs <~ rmap f rest ;; Ok (b :: bs)
  end.

(** [for item in v]: the items of a list; a string or a dict yields strings,
    other values are not iterable. *)
Definition iterate (v : json) : result (list json) :=
  match v with
  | JArr items => Ok items
  | JStr s => Ok (map (fun c => JStr (String c "")) (String.list_ascii_of_string s))
  | JObj fields => Ok (map (fun kv => JStr (fst kv)) fields)
  | _ => Raise (TypeError "object is not iterable")
  end.

(** [dacite.from_dict(data_class=RIDSubscription, data=...)] *)
Variable from_dict_subscription : json -> result RIDSubscription.

(** [[RIDLatLngPoint(lat=v["lat"], lng=v["lng"]) for v in vertex_list]] *)
Definition lat_lng_of (v : json) : result (json * json) :=
  la <~ getitem "lat" v ;; ln <~ getitem "lng" v ;; Ok (la, ln).

Definition create_dss_subscription (vertex_list : list json) (view request_uuid : string)
    (subscription_duration_seconds : Z) (is_simulated : bool) : M SubscriptionResponse :=
  let audience := env_get (DSS_SELF_AUDIENCE env) "000" in
  if String.eqb audience "" then ret not_created
  else
    token <- try_except (t <- credentials_for audience "rid" ;; ret (Some t))
                        (fun _ => ret None) ;;
    match token with
    | None => ret not_created
    | Some auth_token =>
        error <- lift (error_of auth_token) ;;
        match error with
        | Some _ => ret not_created
        | None =>
            new_subscription_id <- new_uuid ;;
            let dss_subscription_url :=
              dss_base_url +:+ "/rid/v2/dss/subscriptions/" +:+ new_subscription_id in
            let uss_base_url := resolve_flightblender_base_url +:+ "/rid" in
            let current_time := isoformat_after 0 +:+ "Z" in
            let fifteen_seconds_from_now_isoformat :=
              isoformat_after subscription_duration_seconds +:+ "Z" in
            bearer <- lift (bearer_of auth_token) ;;
            lat_lng_list <- lift (rmap lat_lng_of vertex_list) ;;
            let time_start := {| time_value := current_time; time_format := "RFC3339" |} in
            let time_end := {| time_value := fifteen_seconds_from_now_isoformat;
                               time_format := "RFC3339" |} in
            let volume_object :=
              {| vertices := lat_lng_list; altitude_lower := 1 # 2; altitude_upper := 800;
                 volume_time_start := time_start; volume_time_end := time_end |} in
            sent <- try_except
                      (r <- http_send (Put dss_subscription_url bearer
                                         (SubscriptionBody volume_object uss_base_url)) ;;
                       ret (Some r))
                      (fun _ => ret None) ;;
            match sent with
            | None =>
                _fallback_subscription request_uuid view time_start time_end
                  fifteen_seconds_from_now_isoformat uss_base_url is_simulated "request_failed"
            | Some dss_r =>
                if negb (status_code dss_r =? 200) then
                  _fallback_subscription request_uuid view time_start time_end
                    fifteen_seconds_from_now_isoformat uss_base_url is_simulated "dss_rejected"
                else
                  dss_response <- lift (match json_body dss_r with
                                        | Some v => Ok v
                                        | None => Raise (ValueError "response is not JSON")
                                        end) ;;
                  areas <- lift (getitem "service_areas" dss_response) ;;
                  sub_json <- lift (getitem "subscription" dss_response) ;;
                  details <- lift (from_dict_subscription sub_json) ;;
                  create_rid_subscription_record
                    {| rec_subscription_id := sub_id details; rec_record_id := request_uuid;
                       rec_view_hash := view_hash_of view;
                       rec_end_datetime := fifteen_seconds_from_now_isoformat;
                       rec_is_simulated := is_simulated; rec_view := view;
                       rec_flights_dict := {| service_areas := FromDss areas;
                                              subscription := details |} |} ;;;
                  ret {| created := true; dss_subscription_id := Some (sub_id details);
                         notification_index := sub_notification_index details |}
            end
        end
    end.

(** The [IdentificationServiceArea] read off [dss_response["service_area"]]. *)
Definition parse_service_area (dss_response : json) : result IdentificationServiceArea :=
  sa <~ getitem "service_area" dss_response ;;
  base <~ getitem "uss_base_url" sa ;;
  owner <~ getitem "owner" sa ;;
  ts <~ getitem "time_start" sa ;; tsv <~ getitem "value" ts ;;
  ts' <~ getitem "time_start" sa ;; tsf <~ getitem "format" ts' ;;
  te <~ getitem "time_end" sa ;; tev <~ getitem "value" te ;;
  te' <~ getitem "time_end" sa ;; tef <~ getitem "format" te' ;;
  version <~ getitem "version" sa ;;
  id <~ getitem "id" sa ;;
  Ok {| isa_uss_base_url := base; isa_owner := owner; isa_time_start := (tsv, tsf);
        isa_time_end := (tev, tef); isa_version := version; isa_id := id |}.

Definition parse_subscription_state (sub : json) : result SubscriptionState :=
  sid <~ getitem "subscription_id" sub ;;
  idx <~ getitem "notification_index" sub ;;
  Ok {| subscription_id := sid; state_notification_index := idx |}.

Definition parse_subscriber (subscriber : json) : result SubscriberToNotify :=
  subs <~ getitem "subscriptions" subscriber ;;
  items <~ iterate subs ;;
  all_s <~ rmap parse_subscription_state items ;;
  u <~ getitem "url" subscriber ;;
  Ok {| url := u; subscriptions := all_s |}.

Definition parse_subscribers (dss_response : json) : result (list SubscriberToNotify) :=
  listed <~ getitem "subscribers" dss_response ;;
  items <~ iterate listed ;;
  rmap parse_subscriber items.

(** The audience of a subscriber, from its URL. *)
Definition uss_audience_of (subscriber_url : json) : string :=
  match tldextract subscriber_url with
  | Raise _ => "localhost"
  | Ok (subdomain, domain, suffix) =>
      if String.eqb domain "localhost" || String.eqb domain "internal"
         || String.eqb domain "localutm"
      then "localhost"
      else subdomain +:+ "." +:+ domain +:+ "." +:+ suffix
  end.

(** [for subscriber in dss_r_subs: ...]: the token is fetched and the
    [Authorization] header built before the [try] that guards the POST. *)
Fixpoint notify_subscribers (new_isa_id : string) (area : IdentificationServiceArea)
    (flight_extents : json) (dss_r_subs : list SubscriberToNotify) : M unit :=
  match dss_r_subs with
  | [] => ret tt
  | subscriber :: rest =>
      let target := format_json (url subscriber)
                    +:+ "/uss/identification_service_areas/" +:+ new_isa_id in
      let uss_audience := uss_audience_of (url subscriber) in
      auth_credentials <- credentials_for uss_audience "rid" ;;
      bearer <- lift (bearer_of auth_credentials) ;;
      try_except
        (http_send (Post target bearer
                      (NotifyBody area (subscriptions subscriber) flight_extents)) ;;;
         ret tt)
        (fun _ => ret tt) ;;;
      notify_subscribers new_isa_id area flight_extents rest
  end.

Definition isa_not_created : ISACreationResponse :=
  {| isa_created := false; service_area := None; subscribers := [] |}.

(** [create_dss_isa(flight_extents, uss_base_url, expiration_time_seconds)],
    for [flight_extents] a dataclass instance, given by its [asdict]
    document. *)
Definition create_dss_isa (flight_extents : json) (uss_base_url : string)
    (expiration_time_seconds : Z) : M ISACreationResponse :=
  new_isa_id <- new_uuid ;;
  let audience := env_get (DSS_SELF_AUDIENCE env) "000" in
  if String.eqb audience "" then ret isa_not_created
  else
    token <- try_except (t <- credentials_for audience "rid" ;; ret (Some t))
                        (fun _ => ret None) ;;
    match token with
    | None => ret isa_not_created
    | Some auth_token =>
        error <- lift (error_of auth_token) ;;
        match error with
        | Some _ => ret isa_not_created
        | None =>
            let dss_isa_create_url :=
              dss_base_url +:+ "/rid/v2/dss/identification_service_areas/" +:+ new_isa_id in
            bearer <- lift (bearer_of auth_token) ;;
            sent <- try_except
                      (r <- http_send (Put dss_isa_create_url bearer
                                         (IsaBody flight_extents uss_base_url)) ;;
                       ret (Some r))
                      (fun _ => ret None) ;;
            match sent with
            | None => ret isa_not_created
            | Some dss_r =>
                if negb (status_code dss_r =? 200) then ret isa_not_created
                else
                  dss_response <- lift (match json_body dss_r with
                                        | Some v => Ok v
                                        | None => Raise (ValueError "response is not JSON")
                                        end) ;;
                  area <- lift (parse_service_area dss_response) ;;
                  dss_r_subs <- lift (parse_subscribers dss_response) ;;
                  notify_subscribers new_isa_id area flight_extents dss_r_subs ;;;
                  isa_key <- lift (match isa_id area with
                                   | JStr id => Ok ("isa-" +:+ id)
                                   | _ => Raise (TypeError "can only concatenate str")
                                   end) ;;
                  redis_do (RedisSet isa_key 1) ;;;
                  redis_do (RedisExpire isa_key expiration_time_seconds) ;;;
                  ret {| isa_created := true; service_area := Some area;
                         subscribers := dss_r_subs |}
            end
        end
    end.

(** *** Properties of the coordinator *)

Definition with_uuids (n : nat) (w : World) : World :=
  {| uuids_drawn := n; credential_calls := credential_calls w; http_log := http_log w;
     redis_log := redis_log w; database := database w |}.

(** The areas the fallback makes for [urls], the first identifier being the
    [k]-th one drawn. *)
Fixpoint areas_from (time_start time_end : RIDTime) (k : nat) (urls : list string)
  : list IdentificationServiceArea :=
  match urls with
  | [] => []
  | u :: rest =>
      fallback_area time_start time_end (uuid4 k) u :: areas_from time_start time_end (S k) rest
  end.

Lemma with_uuids_same (w : World) : with_uuids (uuids_drawn w) w = w.
Proof. destruct w. reflexivity. Qed.

Lemma fallback_areas_spec (ts te : RIDTime) (urls : list string) (w : World) :
  fallback_areas ts te urls w
  = (Ok (areas_from ts te (uuids_drawn w) urls),
     with_uuids (uuids_drawn w + length urls) w).
Proof.
  revert w. induction urls as [|u rest IH]; intros w; simpl.
  - unfold ret. rewrite Nat.add_0_r, with_uuids_same. reflexivity.
  - unfold bind, new_uuid at 1. simpl. rewrite IH. simpl. unfold ret, with_uuids. simpl.
    repeat f_equal. lia.
Qed.

Lemma areas_from_urls (ts te : RIDTime) (k : nat) (urls : list string) :
  map isa_uss_base_url (areas_from ts te k urls) = map JStr urls
  /\ Forall (fun a => isa_owner a = JStr "fallback") (areas_from ts te k urls)
  /\ length (areas_from ts te k urls) = length urls.
Proof.
  revert k. induction urls as [|u rest IH]; intros k; simpl.
  - repeat split. constructor.
  - destruct (IH (S k)) as (H1 & H2 & H3). repeat split.
    + f_equal. exact H1.
    + constructor; [reflexivity | exact H2].
    + f_equal. exact H3.
Qed.

(** The record and the world the fallback leaves when URLs are configured. *)
Definition fallback_record (request_uuid view : string) (ts te : RIDTime)
    (end_datetime uss_base_url : string) (k : nat) : SubscriptionRecord :=
  {| rec_subscription_id := uuid4 k; rec_record_id := request_uuid;
     rec_view_hash := view_hash_of view; rec_end_datetime := end_datetime;
     rec_is_simulated := true; rec_view := view;
     rec_flights_dict :=
       {| service_areas := Synthesized (areas_from ts te (S k) parse_fallback_uss_urls);
          subscription :=
            {| sub_id := uuid4 k; sub_uss_base_url := uss_base_url; sub_owner := "fallback";
               sub_notification_index := 0; sub_time_start := ts; sub_time_end := te;
               sub_version := "1" |} |} |}.

Lemma fallback_subscription_spec (request_uuid view : string) (ts te : RIDTime)
    (end_datetime uss_base_url : string) (is_simulated : bool) (reason : string) (w : World) :
  _fallback_subscription request_uuid view ts te end_datetime uss_base_url is_simulated reason w
  = match parse_fallback_uss_urls with
    | [] => (Ok not_created, w)
    | _ :: _ =>
        (Ok {| created := true; dss_subscription_id := Some (uuid4 (uuids_drawn w));
               notification_index := 0 |},
         {| uuids_drawn := S (uuids_drawn w) + length parse_fallback_uss_urls;
            credential_calls := credential_calls w; http_log := http_log w;
            redis_log := redis_log w;
            database := database w ++ [fallback_record request_uuid view ts te end_datetime
                                         uss_base_url (uuids_drawn w)] |})
    end.
Proof.
  unfold _fallback_subscription, fallback_record.
  destruct parse_fallback_uss_urls as [|u rest] eqn:E; [reflexivity|].
  unfold bind at 1. unfold new_uuid at 1. cbv beta iota.
  unfold bind at 1. rewrite fallback_areas_spec.
  unfold bind, create_rid_subscription_record, ret, with_uuids. simpl. reflexivity.
Qed.

(** The PUT on the DSS raises, or answers with a status other than 200. *)
Definition put_failed (res : http_result) : Prop :=
  match res with
  | Fails _ => True
  | Responds r => status_code r <> 200
  end.

Lemma eqb_empty' (s : string) : s <> "" -> String.eqb s "" = false.
Proof.
  intros H. destruct (String.eqb s "") eqn:E; [|reflexivity].
  apply String.eqb_eq in E. contradiction.
Qed.

(** No fallback URL is configured when the variable is unset or blank. *)
Lemma parse_fallback_unset :
  py_strip (env_get (RID_FALLBACK_USS_URLS env) "") = "" -> parse_fallback_uss_urls = [].
Proof. unfold parse_fallback_uss_urls. intros ->. reflexivity. Qed.

(** *** The fallback URLs as the specification words them *)

Fixpoint comma_free (s : string) : bool :=
  match s with
  | EmptyString => true
  | String c rest => negb (Ascii.eqb c ",") && comma_free rest
  end.

(** The URL an entry of [RID_FALLBACK_USS_URLS] configures: the entry
    without the white space around it, with [http://] put before it when it
    begins with neither [http://] nor [https://], and without trailing
    slashes; a blank entry configures none. *)
Definition configured_url (entry : string) : option string :=
  let trimmed := py_strip entry in
  if String.eqb trimmed "" then None
  else Some (rstrip is_slash
               (if String.prefix "http://" trimmed || String.prefix "https://" trimmed
                then trimmed else "http://" +:+ trimmed)).

(** One URL per entry that is not blank, in the order of the entries. *)
Fixpoint configured_urls (entries : list string) : list string :=
  match entries with
  | [] => []
  | entry :: rest =>
      match configured_url entry with
      | Some u => u :: configured_urls rest
      | None => configured_urls rest
      end
  end.

Lemma split_on_comma_free (word x rest : string) :
  comma_free x = true ->
  split_on "," word (x +:+ rest) = split_on "," (word +:+ x) rest.
Proof.
  revert word. induction x as [|c x IH]; intros word Hx.
  - change ("" +:+ rest) with rest. rewrite HttpDownload.append_empty_r. reflexivity.
  - simpl in Hx. apply andb_true_iff in Hx as [Hc Hx].
    rewrite HttpDownload.append_cons. simpl.
    destruct (Ascii.eqb c ","); [discriminate|].
    rewrite (IH _ Hx), HttpDownload.append_assoc. reflexivity.
Qed.

Lemma split_on_separator (sep : ascii) (word rest : string) :
  split_on sep word (String sep rest) = word :: split_on sep "" rest.
Proof. simpl. rewrite Ascii.eqb_refl. reflexivity. Qed.

(** Splitting at commas undoes joining with commas. *)
Lemma split_on_concat (entries : list string) :
  entries <> [] ->
  forallb comma_free entries = true ->
  split_on "," "" (String.concat "," entries) = entries.
Proof.
  induction entries as [|x rest IH]; intros Hne Hall; [contradiction|].
  simpl in Hall. apply andb_true_iff in Hall as [Hx Hall].
  destruct rest as [|y rest].
  - simpl. rewrite <- (HttpDownload.append_empty_r x) at 1.
    rewrite (split_on_comma_free _ _ _ Hx). reflexivity.
  - change (String.concat "," (x :: y :: rest))
      with (x +:+ "," +:+ String.concat "," (y :: rest)).
    rewrite (split_on_comma_free _ _ _ Hx).
    change ("" +:+ x) with x.
    change ("," +:+ String.concat "," (y :: rest))
      with (String "," (String.concat "," (y :: rest))).
    rewrite split_on_separator, IH; [reflexivity | discriminate | exact Hall].
Qed.

(** Every text is the join of comma-free entries. *)
Lemma comma_separated_entries_exist (s : string) :
  exists entries, String.concat "," entries = s /\ forallb comma_free entries = true.
Proof.
  assert (H : exists e es, String.concat "," (e :: es) = s
                           /\ forallb comma_free (e :: es) = true).
  { induction s as [|c s (e & es & Hj & Hf)].
    - exists "", []. split; reflexivity.
    - destruct (Ascii.eqb c ",") eqn:Hc.
      + apply Ascii.eqb_eq in Hc. subst c. exists "", (e :: es). split.
        * change (String.concat "," ("" :: e :: es))
            with ("" +:+ "," +:+ String.concat "," (e :: es)).
          rewrite Hj. reflexivity.
        * exact Hf.
      + exists (String c e), es. simpl in Hf. apply andb_true_iff in Hf as [He Hes]. split.
        * destruct es as [|y es].
          -- simpl in *. rewrite Hj. reflexivity.
          -- change (String.concat "," (String c e :: y :: es))
               with (String c e +:+ "," +:+ String.concat "," (y :: es)).
             change (String.concat "," (e :: y :: es))
               with (e +:+ "," +:+ String.concat "," (y :: es)) in Hj.
             rewrite HttpDownload.append_cons, Hj. reflexivity.
        * simpl. rewrite Hc, He, Hes. reflexivity. }
  destruct H as (e & es & Hj & Hf). exists (e :: es). auto.
Qed.

Lemma fallback_entry_configured (entry : string) :
  fallback_entry entry = match configured_url entry with Some u => [u] | None => [] end.
Proof.
  unfold fallback_entry, configured_url. cbv zeta.
  destruct (String.eqb (py_strip entry) ""); [reflexivity|].
  destruct (String.prefix "http://" (py_strip entry));
    destruct (String.prefix "https://" (py_strip entry)); reflexivity.
Qed.

Lemma concat_fallback_entries (entries : list string) :
  concat (map fallback_entry entries) = configured_urls entries.
Proof.
  induction entries as [|e rest IH]; [reflexivity|].
  simpl. rewrite IH, fallback_entry_configured.
  destruct (configured_url e); reflexivity.
Qed.

(** [parse_fallback_uss_urls] returns the URLs that the comma-separated
    entries of [RID_FALLBACK_USS_URLS] configure. *)
Lemma parse_fallback_uss_urls_configured (entries : list string) :
  String.concat "," entries = py_strip (env_get (RID_FALLBACK_USS_URLS env) "") ->
  forallb comma_free entries = true ->
  parse_fallback_uss_urls = configured_urls entries.
Proof.
  intros Hjoin Hfree. unfold parse_fallback_uss_urls. cbv zeta. rewrite <- Hjoin.
  destruct (String.eqb (String.concat "," entries) "") eqn:E.
  - apply String.eqb_eq in E.
    destruct entries as [|x [|y rest]]; [reflexivity| |].
    + simpl in E. subst x. reflexivity.
    + change (String.concat "," (x :: y :: rest))
        with (x +:+ "," +:+ String.concat "," (y :: rest)) in E.
      apply HttpDownload.append_empty in E as [_ E]. discriminate E.
  - rewrite split_on_concat; [apply concat_fallback_entries| |exact Hfree].
    intros ->. discriminate E.
Qed.

(** What [create_dss_subscription] does, in terms of the list
    [parse_fallback_uss_urls] returns, when it reaches the PUT on the DSS and
    the PUT raises or answers with a status other than 200. *)
Lemma fallback_on_put_failure (vertex_list : list json) (view request_uuid : string)
    (subscription_duration_seconds : Z) (is_simulated : bool) (w : World)
    (auth_token : json) (bearer : string) (lat_lng_list : list (json * json)) :
  let audience := env_get (DSS_SELF_AUDIENCE env) "000" in
  let k := uuids_drawn w in
  let time_start := {| time_value := isoformat_after 0 +:+ "Z"; time_format := "RFC3339" |} in
  let time_end := {| time_value := isoformat_after subscription_duration_seconds +:+ "Z";
                     time_format := "RFC3339" |} in
  let uss_base_url := resolve_flightblender_base_url +:+ "/rid" in
  let put :=
    Put (dss_base_url +:+ "/rid/v2/dss/subscriptions/" +:+ uuid4 k) bearer
      (SubscriptionBody {| vertices := lat_lng_list; altitude_lower := 1 # 2;
                           altitude_upper := 800; volume_time_start := time_start;
                           volume_time_end := time_end |} uss_base_url) in
  let out := create_dss_subscription vertex_list view request_uuid
               subscription_duration_seconds is_simulated w in
  audience <> "" ->
  get_cached_credentials (credential_calls w) audience "rid" = Ok auth_token ->
  error_of auth_token = Ok None ->
  bearer_of auth_token = Ok bearer ->
  rmap lat_lng_of vertex_list = Ok lat_lng_list ->
  put_failed (http (length (http_log w)) put) ->
  http_log (snd out) = http_log w ++ [put]
  /\ match parse_fallback_uss_urls with
     | [] => fst out = Ok not_created /\ database (snd out) = database w
     | _ :: _ =>
         fst out = Ok {| created := true; dss_subscription_id := Some (uuid4 (S k));
                         notification_index := 0 |}
         /\ ((forall i j, uuid4 i = uuid4 j -> i = j) -> uuid4 (S k) <> uuid4 k)
         /\ exists record areas,
             database (snd out) = database w ++ [record]
             /\ rec_subscription_id record = uuid4 (S k)
             /\ rec_record_id record = request_uuid
             /\ rec_is_simulated record = true
             /\ sub_id (subscription (rec_flights_dict record)) = uuid4 (S k)
             /\ sub_owner (subscription (rec_flights_dict record)) = "fallback"
             /\ service_areas (rec_flights_dict record) = Synthesized areas
             /\ map isa_uss_base_url areas = map JStr parse_fallback_uss_urls
             /\ Forall (fun a => isa_owner a = JStr "fallback") areas
     end.
Proof.
  intros audience k time_start time_end uss_base_url put out Ha Hc He Hb Hv Hf.
  assert (Hout : out =
    _fallback_subscription request_uuid view time_start time_end
      (isoformat_after subscription_duration_seconds +:+ "Z") uss_base_url is_simulated
      (match http (length (http_log w)) put with
       | Fails _ => "request_failed" | Responds _ => "dss_rejected" end)
      {| uuids_drawn := S k; credential_calls := S (credential_calls w);
         http_log := http_log w ++ [put]; redis_log := redis_log w;
         database := database w |}).
  { subst out. unfold create_dss_subscription. fold audience.
    apply eqb_empty' in Ha. rewrite Ha.
    unfold bind at 1. unfold try_except at 1. unfold bind at 1. unfold credentials_for at 1.
    rewrite Hc. cbv beta iota. unfold ret at 1. cbv beta iota.
    unfold bind at 1. unfold lift at 1. rewrite He. cbv beta iota.
    unfold bind at 1. unfold new_uuid at 1. cbv beta iota.
    unfold bind at 1. unfold lift at 1. rewrite Hb. cbv beta iota.
    unfold bind at 1. unfold lift at 1. rewrite Hv. cbv beta iota.
    unfold bind at 1. unfold try_except at 1. unfold bind at 1. unfold http_send at 1.
    cbn [uuids_drawn credential_calls http_log redis_log database].
    fold k. fold time_start. fold time_end. fold uss_base_url. fold put.
    unfold put_failed in Hf.
    destruct (http (length (http_log w)) put) as [r|e]; cbv beta iota.
    - unfold ret at 1. cbv beta iota. apply Z.eqb_neq in Hf. rewrite Hf. reflexivity.
    - unfold ret at 1. reflexivity. }
  rewrite Hout, fallback_subscription_spec. simpl.
  split; [destruct parse_fallback_uss_urls; reflexivity|].
  destruct parse_fallback_uss_urls as [|u rest] eqn:E; simpl; [auto|].
  split; [reflexivity|]. split; [intros Hinj H; apply Hinj in H; lia|].
  eexists. eexists. split; [reflexivity|]. simpl. rewrite E.
  destruct (areas_from_urls time_start time_end (S (S k)) (u :: rest)) as (H1 & H2 & _).
  repeat split; try reflexivity; assumption.
Qed.

(** C6, as the code has it.  Let the value of [RID_FALLBACK_USS_URLS],
    without the white space around it, be the entries [entries] joined by
    commas.  When the call reaches the PUT on the DSS (an audience is set,
    the token was obtained and carries no error, the vertices are well
    formed) and the PUT raises or answers with a status other than 200: if
    no entry configures a URL (the variable is unset, blank, or holds
    commas and white space only) the answer is [created=False] and nothing
    is persisted; otherwise it is [created=True] with a UUID drawn for the
    occasion (not the one the PUT was sent under) and notification index 0,
    and one record is persisted, simulated, whose subscription is owned by
    "fallback" and which has one service area per entry that is not blank,
    in their order, each with the URL the entry configures. *)
Theorem fallback_on_dss_failure (vertex_list : list json) (view request_uuid : string)
    (subscription_duration_seconds : Z) (is_simulated : bool) (w : World)
    (auth_token : json) (bearer : string) (lat_lng_list : list (json * json))
    (entries : list string) :
  let audience := env_get (DSS_SELF_AUDIENCE env) "000" in
  let k := uuids_drawn w in
  let time_start := {| time_value := isoformat_after 0 +:+ "Z"; time_format := "RFC3339" |} in
  let time_end := {| time_value := isoformat_after subscription_duration_seconds +:+ "Z";
                     time_format := "RFC3339" |} in
  let uss_base_url := resolve_flightblender_base_url +:+ "/rid" in
  let put :=
    Put (dss_base_url +:+ "/rid/v2/dss/subscriptions/" +:+ uuid4 k) bearer
      (SubscriptionBody {| vertices := lat_lng_list; altitude_lower := 1 # 2;
                           altitude_upper := 800; volume_time_start := time_start;
                           volume_time_end := time_end |} uss_base_url) in
  let out := create_dss_subscription vertex_list view request_uuid
               subscription_duration_seconds is_simulated w in
  String.concat "," entries = py_strip (env_get (RID_FALLBACK_USS_URLS env) "") ->
  forallb comma_free entries = true ->
  audience <> "" ->
  get_cached_credentials (credential_calls w) audience "rid" = Ok auth_token ->
  error_of auth_token = Ok None ->
  bearer_of auth_token = Ok bearer ->
  rmap lat_lng_of vertex_list = Ok lat_lng_list ->
  put_failed (http (length (http_log w)) put) ->
  http_log (snd out) = http_log w ++ [put]
  /\ match configured_urls entries with
     | [] => fst out = Ok not_created /\ database (snd out) = database w
     | _ :: _ =>
         fst out = Ok {| created := true; dss_subscription_id := Some (uuid4 (S k));
                         notification_index := 0 |}
         /\ ((forall i j, uuid4 i = uuid4 j -> i = j) -> uuid4 (S k) <> uuid4 k)
         /\ exists record areas,
             database (snd out) = database w ++ [record]
             /\ rec_subscription_id record = uuid4 (S k)
             /\ rec_record_id record = request_uuid
             /\ rec_is_simulated record = true
             /\ sub_id (subscription (rec_flights_dict record)) = uuid4 (S k)
             /\ sub_owner (subscription (rec_flights_dict record)) = "fallback"
             /\ service_areas (rec_flights_dict record) = Synthesized areas
             /\ map isa_uss_base_url areas = map JStr (configured_urls entries)
             /\ Forall (fun a => isa_owner a = JStr "fallback") areas
     end.
Proof.
  intros audience k time_start time_end uss_base_url put out Hjoin Hfree Ha Hc He Hb Hv Hf.
  rewrite <- (parse_fallback_uss_urls_configured entries Hjoin Hfree).
  exact (fallback_on_put_failure vertex_list view request_uuid subscription_duration_seconds
           is_simulated w auth_token bearer lat_lng_list Ha Hc He Hb Hv Hf).
Qed.

(** Every token request is answered with a usable token. *)
Definition tokens_available : Prop :=
  forall n audience, exists token bearer,
    get_cached_credentials n audience "rid" = Ok token
    /\ error_of token = Ok None /\ bearer_of token = Ok bearer.

(** With tokens at hand the notification loop never raises, whatever the
    POSTs come to. *)
Lemma notify_subscribers_swallows_post_failures (new_isa_id : string)
    (area : IdentificationServiceArea) (flight_extents : json)
    (dss_r_subs : list SubscriberToNotify) (w : World) :
  tokens_available ->
  exists w', notify_subscribers new_isa_id area flight_extents dss_r_subs w = (Ok tt, w')
             /\ redis_log w' = redis_log w /\ database w' = database w.
Proof.
  intros Ht. revert w. induction dss_r_subs as [|s rest IH]; intros w; simpl.
  - exists w. auto.
  - destruct (Ht (credential_calls w) (uss_audience_of (url s))) as (t & b & Hc & _ & Hb).
    unfold bind at 1. unfold credentials_for at 1. rewrite Hc. cbv beta iota.
    unfold bind at 1. unfold lift at 1. rewrite Hb. cbv beta iota.
    unfold bind at 1. unfold try_except at 1. unfold bind at 1. unfold http_send at 1.
    cbn [uuids_drawn credential_calls http_log redis_log database].
    destruct (http _ _) as [r|e]; cbv beta iota; unfold ret at 1; cbv beta iota;
      match goal with |- context [notify_subscribers _ _ _ rest ?w0] =>
        destruct (IH w0) as (w' & Hn & Hr & Hd) end;
      exists w'; rewrite Hn; auto.
Qed.

(** After a 200 of the DSS whose body parses, and with tokens at hand,
    [create_dss_isa] returns the parsed area and subscribers, whatever the
    notifications come to. *)
Lemma create_dss_isa_notified (flight_extents : json) (uss_base_url : string)
    (expiration_time_seconds : Z) (w : World) (dss_r : Response) (dss_response : json)
    (area : IdentificationServiceArea) (subs : list SubscriberToNotify) (id : string) :
  env_get (DSS_SELF_AUDIENCE env) "000" <> "" ->
  tokens_available ->
  (forall bearer,
      http (length (http_log w))
        (Put (dss_base_url +:+ "/rid/v2/dss/identification_service_areas/"
              +:+ uuid4 (uuids_drawn w)) bearer (IsaBody flight_extents uss_base_url))
      = Responds dss_r) ->
  status_code dss_r = 200 ->
  json_body dss_r = Some dss_response ->
  parse_service_area dss_response = Ok area ->
  parse_subscribers dss_response = Ok subs ->
  isa_id area = JStr id ->
  fst (create_dss_isa flight_extents uss_base_url expiration_time_seconds w)
  = Ok {| isa_created := true; service_area := Some area; subscribers := subs |}.
Proof.
  intros Ha Ht Hput Hs Hj Hp Hq Hid.
  unfold create_dss_isa.
  unfold bind at 1. unfold new_uuid at 1. cbv beta iota.
  apply eqb_empty' in Ha. rewrite Ha.
  destruct (Ht (credential_calls w) (env_get (DSS_SELF_AUDIENCE env) "000"))
    as (t & b & Hc & He & Hb).
  unfold bind at 1. unfold try_except at 1. unfold bind at 1. unfold credentials_for at 1.
  cbn [uuids_drawn credential_calls http_log redis_log database].
  rewrite Hc. cbv beta iota. unfold ret at 1. cbv beta iota.
  unfold bind at 1. unfold lift at 1. rewrite He. cbv beta iota.
  unfold bind at 1. unfold lift at 1. rewrite Hb. cbv beta iota.
  unfold bind at 1. unfold try_except at 1. unfold bind at 1. unfold http_send at 1.
  cbn [uuids_drawn credential_calls http_log redis_log database].
  rewrite Hput. cbv beta iota. unfold ret at 1. cbv beta iota.
  rewrite Hs. cbn [Z.eqb Pos.eqb negb].
  unfold bind at 1. unfold lift at 1. rewrite Hj. cbv beta iota.
  unfold bind at 1. unfold lift at 1. rewrite Hp. cbv beta iota.
  unfold bind at 1. unfold lift at 1. rewrite Hq. cbv beta iota.
  unfold bind at 1.
  match goal with |- context [notify_subscribers ?a ?b ?c ?d ?w0] =>
    destruct (notify_subscribers_swallows_post_failures a b c d w0 Ht) as (w' & Hn & _) end.
  rewrite Hn. cbv beta iota.
  unfold bind at 1. unfold lift at 1. rewrite Hid. cbv beta iota.
  unfold bind, redis_do, ret. reflexivity.
Qed.


(** *** Further properties of the coordinator *)

Ltac run_dss :=
  unfold bind, try_except, lift, ret, new_uuid, credentials_for, http_send, redis_do,
    create_rid_subscription_record in *;
  cbn [fst snd uuids_drawn credential_calls http_log redis_log database] in *.

(** No token for the own audience: none is configured, the broker raises,
    or its answer carries an [error]. *)
Definition token_unavailable (w : World) : Prop :=
  let audience := env_get (DSS_SELF_AUDIENCE env) "000" in
  audience = ""
  \/ (exists e, get_cached_credentials (credential_calls w) audience "rid" = Raise e)
  \/ (exists token err, get_cached_credentials (credential_calls w) audience "rid" = Ok token
                        /\ error_of token = Ok (Some err)).

(** X20.  Without a token for the own audience the two calls stop after
    asking the broker: [create_dss_isa] and [create_dss_subscription] return
    their not-created answers and have themselves sent no request (no PUT to
    the DSS, no notification), made no operation on their store handle (no
    [isa-] key) and no [create_rid_subscription_record] call; the fallback
    subscription is not tried either.  What the broker call itself did is
    not counted. *)
Theorem no_token_no_dss_request (flight_extents : json) (uss_base_url : string)
    (expiration_time_seconds : Z) (vertex_list : list json) (view request_uuid : string)
    (subscription_duration_seconds : Z) (is_simulated : bool) (w : World) :
  token_unavailable w ->
  let isa := create_dss_isa flight_extents uss_base_url expiration_time_seconds w in
  let sub := create_dss_subscription vertex_list view request_uuid
               subscription_duration_seconds is_simulated w in
  fst isa = Ok isa_not_created
  /\ fst sub = Ok not_created
  /\ http_log (snd isa) = http_log w /\ http_log (snd sub) = http_log w
  /\ redis_log (snd isa) = redis_log w /\ redis_log (snd sub) = redis_log w
  /\ database (snd isa) = database w /\ database (snd sub) = database w.
Proof.
  unfold token_unavailable, create_dss_isa, create_dss_subscription.
  intros [Ha|[[e He]|(token & err & Ht & He)]]; cbv zeta.
  - rewrite Ha. run_dss. simpl. repeat split; reflexivity.
  - destruct (String.eqb (env_get (DSS_SELF_AUDIENCE env) "000") "");
      run_dss; rewrite ?He; simpl; repeat split; reflexivity.
  - destruct (String.eqb (env_get (DSS_SELF_AUDIENCE env) "000") "");
      run_dss; rewrite ?Ht; simpl; rewrite ?He; simpl; repeat split; reflexivity.
Qed.







Lemma rev_app_append (s t u : string) :
  String.rev_app (s +:+ t) u = String.rev_app t (String.rev_app s u).
Proof.
  revert u. induction s as [|a s IH]; intros u; [reflexivity|].
  rewrite HttpDownload.append_cons. simpl. apply IH.
Qed.

Lemma rev_app_rev_app (s t u : string) :
  String.rev_app (String.rev_app s t) u = String.rev_app t (s +:+ u).
Proof.
  revert t u. induction s as [|a s IH]; intros t u; [reflexivity|].
  simpl. rewrite IH. simpl. rewrite HttpDownload.append_cons. reflexivity.
Qed.

Lemma rev_rev (s : string) : String.rev (String.rev s) = s.
Proof.
  unfold String.rev. rewrite rev_app_rev_app. simpl. apply HttpDownload.append_empty_r.
Qed.

Lemma lstrip_head (drop : ascii -> bool) (s : string) (c : ascii) (rest : string) :
  lstrip drop s = String c rest -> drop c = false.
Proof.
  induction s as [|a s IH]; simpl; [discriminate|].
  destruct (drop a) eqn:E; [exact IH|].
  intros H. injection H as <- _. exact E.
Qed.

(** What [rstrip] returns does not end with a character it drops. *)
Lemma rstrip_last (drop : ascii -> bool) (s p : string) (c : ascii) :
  rstrip drop s = p +:+ String c "" -> drop c = false.
Proof.
  unfold rstrip. intros H. apply (f_equal String.rev) in H.
  rewrite rev_rev in H. unfold String.rev at 2 in H.
  rewrite rev_app_append in H. simpl in H.
  apply lstrip_head in H. exact H.
Qed.

Lemma fallback_entry_no_slash (entry u p : string) :
  In u (fallback_entry entry) -> u <> p +:+ "/".
Proof.
  unfold fallback_entry. destruct (String.eqb (py_strip entry) ""); [intros []|].
  intros [<-|[]] H. apply rstrip_last in H. discriminate.
Qed.

(** X23.  The base URLs the module builds its request URLs from never end
    with a slash: the DSS base URL, the own base URL announced to the DSS,
    and every fallback USS URL, whatever the environment holds. *)
Theorem base_urls_have_no_trailing_slash (p : string) :
  dss_base_url <> p +:+ "/"
  /\ resolve_flightblender_base_url <> p +:+ "/"
  /\ forall u, In u parse_fallback_uss_urls -> u <> p +:+ "/".
Proof.
  split; [|split].
  - unfold dss_base_url, normalize_base_url. intros H.
    apply rstrip_last in H. discriminate.
  - unfold resolve_flightblender_base_url. cbv zeta. intros H.
    apply rstrip_last in H. discriminate.
  - unfold parse_fallback_uss_urls. cbv zeta.
    destruct (String.eqb (py_strip (env_get (RID_FALLBACK_USS_URLS env) "")) "");
      [intros u []|].
    intros u Hin. apply in_concat in Hin as (l & Hl & Hu).
    apply in_map_iff in Hl as (entry & <- & _).
    apply (fallback_entry_no_slash entry). exact Hu.
Qed.

(** The URL and the body of a request. *)
Definition request_target (req : http_request) : string :=
  match req with Put target _ _ | Post target _ _ => target end.

Definition request_payload (req : http_request) : request_body :=
  match req with Put _ _ payload | Post _ _ payload => payload end.

Definition is_post (req : http_request) : bool :=
  match req with Post _ _ _ => true | Put _ _ _ => false end.

(** The notification [create_dss_isa] owes a subscriber. *)
Definition notification_of (new_isa_id : string) (area : IdentificationServiceArea)
    (flight_extents : json) (subscriber : SubscriberToNotify) : string * request_body :=
  (format_json (url subscriber) +:+ "/uss/identification_service_areas/" +:+ new_isa_id,
   NotifyBody area (subscriptions subscriber) flight_extents).

(** X24.  With tokens at hand the notification loop goes through all
    subscribers, whatever the POSTs come to: it sends one POST per
    subscriber, in their order, to the subscriber's URL followed by
    [/uss/identification_service_areas/] and the ISA identifier, with the
    area, the subscriber's subscriptions and the extents as body; a POST
    that raises does not keep the later subscribers from being notified.
    One token is asked for per subscriber. *)
Theorem every_subscriber_is_notified (new_isa_id : string)
    (area : IdentificationServiceArea) (flight_extents : json)
    (dss_r_subs : list SubscriberToNotify) (w : World) :
  tokens_available ->
  exists w' reqs,
    notify_subscribers new_isa_id area flight_extents dss_r_subs w = (Ok tt, w')
    /\ http_log w' = http_log w ++ reqs
    /\ map (fun req => (request_target req, request_payload req)) reqs
       = map (notification_of new_isa_id area flight_extents) dss_r_subs
    /\ forallb is_post reqs = true
    /\ credential_calls w' = (credential_calls w + length dss_r_subs)%nat.
Proof.
  intros Ht. revert w. induction dss_r_subs as [|s rest IH]; intros w; simpl.
  - exists w, []. rewrite app_nil_r, Nat.add_0_r. auto.
  - destruct (Ht (credential_calls w) (uss_audience_of (url s))) as (t & b & Hc & _ & Hb).
    unfold bind at 1. unfold credentials_for at 1. rewrite Hc. cbv beta iota.
    unfold bind at 1. unfold lift at 1. rewrite Hb. cbv beta iota.
    unfold bind at 1. unfold try_except at 1. unfold bind at 1. unfold http_send at 1.
    cbn [uuids_drawn credential_calls http_log redis_log database].
    destruct (http _ _) as [r|e]; cbv beta iota; unfold ret at 1; cbv beta iota;
      match goal with |- context [notify_subscribers _ _ _ rest ?w0] =>
        destruct (IH w0) as (w' & reqs & Hn & Hl & Hm & Hp & Hk) end;
      exists w'; eexists (_ :: reqs); rewrite Hn;
      (split; [reflexivity|]);
      (split; [rewrite Hl; simpl; rewrite <- app_assoc; reflexivity|]);
      (split; [simpl; rewrite Hm; reflexivity|]);
      (split; [simpl; exact Hp|]);
      rewrite Hk; simpl; lia.
Qed.

End Coordinator.

(** *** Concrete runs *)

Definition demo_env : Env :=
  {| DSS_BASE_URL := None;
     DSS_SELF_AUDIENCE := Some "blender.example";
     FLIGHTBLENDER_FQDN := Some "https://blender.example/";
     RID_FALLBACK_USS_URLS := Some "https://uss1.example,https://uss2.example";
     dockerenv_exists := false |}.

Definition demo_uuid (n : nat) : string := "uuid-" +:+ String (ascii_of_nat (97 + n)) "".

Definition demo_token : json := JObj [("access_token", JStr "t1")].

Definition demo_format (v : json) : string :=
  match v with JStr s => s | _ => "" end.

Definition demo_tldextract (v : json) : result (string * string * string) :=
  Ok ("", "uss2", "example").

Definition empty_world : World :=
  {| uuids_drawn := 0; credential_calls := 0; http_log := []; redis_log := [];
     database := [] |}.

Definition demo_vertices : list json :=
  [JObj [("lat", JNum 33); ("lng", JNum (-117))]; JObj [("lat", JNum 34); ("lng", JNum (-116))]].

(** Scenario 7 of the specification: the PUT on the DSS raises. *)
Definition scenario_7 : result SubscriptionResponse * World :=
  create_dss_subscription demo_env demo_uuid (fun _ _ _ => Ok demo_token)
    (fun _ _ => Fails (RequestException "connection refused"))
    (fun s => "2024-01-01T00:00:00.000001") (fun _ => 42)
    (fun _ => Raise (ValueError "unused"))
    demo_vertices "33,-117,34,-116" "request-1" 30 false empty_world.

Lemma scenario_7_fallback :
  fst scenario_7
    = Ok {| created := true; dss_subscription_id := Some "uuid-b"; notification_index := 0 |}
  /\ map (fun r => (rec_is_simulated r,
                    match service_areas (rec_flights_dict r) with
                    | Synthesized areas => map isa_uss_base_url areas
                    | FromDss _ => []
                    end)) (database (snd scenario_7))
     = [(true, [JStr "https://uss1.example"; JStr "https://uss2.example"])].
Proof. vm_compute. split; reflexivity. Qed.

Lemma fallback_on_dss_failure_witness :
  fst scenario_7
    = Ok {| created := true; dss_subscription_id := Some (demo_uuid 1); notification_index := 0 |}
  /\ exists record areas,
       database (snd scenario_7) = [record]
       /\ service_areas (rec_flights_dict record) = Synthesized areas
       /\ map isa_uss_base_url areas
          = [JStr "https://uss1.example"; JStr "https://uss2.example"].
Proof.
  assert (Hne : env_get (DSS_SELF_AUDIENCE demo_env) "000" <> "")
    by (vm_compute; discriminate).
  pose proof
    (fallback_on_dss_failure demo_env demo_uuid (fun _ _ _ => Ok demo_token)
       (fun _ _ => Fails (RequestException "connection refused"))
       (fun s => "2024-01-01T00:00:00.000001") (fun _ => 42)
       (fun _ => Raise (ValueError "unused"))
       demo_vertices "33,-117,34,-116" "request-1" 30 false empty_world
       demo_token "Bearer t1" [(JNum 33, JNum (-117)); (JNum 34, JNum (-116))]
       ["https://uss1.example"; "https://uss2.example"]
       eq_refl eq_refl Hne eq_refl eq_refl eq_refl eq_refl I) as H.
  cbv zeta in H. destruct H as [_ H].
  change (configured_urls ["https://uss1.example"; "https://uss2.example"])
    with ["https://uss1.example"; "https://uss2.example"] in H.
  destruct H as (Hres & _ & record & areas & Hdb & _ & _ & _ & _ & _ & Hsa & Hurls & _).
  split; [exact Hres|]. exists record, areas.
  split; [exact Hdb|]. split; [exact Hsa | exact Hurls].
Defined.

(** C6 as stated fails.  With [RID_FALLBACK_USS_URLS=" , ,"] the variable
    is not empty, but none of its entries configures a URL: after a PUT that
    raises, the answer is [created=False] and nothing is persisted. *)
Lemma blank_fallback_entries_give_no_subscription :
  let blank_env :=
    {| DSS_BASE_URL := None;
       DSS_SELF_AUDIENCE := Some "blender.example";
       FLIGHTBLENDER_FQDN := Some "https://blender.example/";
       RID_FALLBACK_USS_URLS := Some " , ,";
       dockerenv_exists := false |} in
  let out :=
    create_dss_subscription blank_env demo_uuid (fun _ _ _ => Ok demo_token)
      (fun _ _ => Fails (RequestException "connection refused"))
      (fun s => "2024-01-01T00:00:00.000001") (fun _ => 42)
      (fun _ => Raise (ValueError "unused"))
      demo_vertices "33,-117,34,-116" "request-1" 30 false empty_world in
  RID_FALLBACK_USS_URLS blank_env <> None
  /\ RID_FALLBACK_USS_URLS blank_env <> Some ""
  /\ length (http_log (snd out)) = 1%nat
  /\ fst out = Ok not_created
  /\ database (snd out) = [].
Proof.
  vm_compute. repeat split; discriminate.
Qed.

(** The answer of the DSS to the ISA: one subscriber to notify. *)
Definition isa_answer : json :=
  JObj [("service_area",
         JObj [("uss_base_url", JStr "https://blender.example/rid"); ("owner", JStr "blender");
               ("time_start", JObj [("value", JStr "2024-01-01T00:00:00Z");
                                    ("format", JStr "RFC3339")]);
               ("time_end", JObj [("value", JStr "2024-01-01T00:00:30Z");
                                  ("format", JStr "RFC3339")]);
               ("version", JStr "v1"); ("id", JStr "isa-1")]);
        ("subscribers",
         JArr [JObj [("url", JStr "https://uss2.example");
                     ("subscriptions",
                      JArr [JObj [("subscription_id", JStr "s1");
                                  ("notification_index", JNum 3)]])]])].

(** The DSS answers 200; every POST to a subscriber times out. *)
Definition dss_then_timeouts (n : nat) (req : http_request) : http_result :=
  match req with
  | Put _ _ _ => Responds {| status_code := 200; json_body := Some isa_answer |}
  | Post _ _ _ => Fails (RequestException "timeout")
  end.

(** A token endpoint that answers for the own audience and cannot be
    reached for any other. *)
Definition own_audience_endpoint (n : nat) (req : TokenBroker.http_request)
  : TokenBroker.http_result :=
  match req with
  | TokenBroker.HttpPostForm _ data _ =>
      if existsb (fun kv => String.eqb (fst kv) "audience"
                            && match snd kv with
                               | Some a => String.eqb a "blender.example"
                               | None => false
                               end) data
      then TokenBroker.Responds {| TokenBroker.status_code := 200;
                                   TokenBroker.json_body := Some demo_token |}
      else TokenBroker.Fails (RequestException "token endpoint unreachable")
  | TokenBroker.HttpGet _ _ => TokenBroker.Fails (RequestException "token endpoint unreachable")
  end.

(** [AuthorityCredentialsGetter().get_cached_credentials] of the broker
    above, on an empty token cache. *)
Definition own_audience_only (n : nat) (audience token_type : string) : result json :=
  let w := TokenBroker.empty_world 1 in
  fst (TokenBroker.get_cached_credentials own_audience_endpoint TokenBroker.demo_replace_path
         TokenBroker.demo_env (TokenBroker.__init__ w) audience token_type w).

(** It answers for the subscriber's audience with an error document. *)
Definition error_for_others (n : nat) (audience token_type : string) : result json :=
  if String.eqb audience "blender.example" then Ok demo_token
  else Ok (JObj [("error", JStr "invalid_audience")]).

Definition demo_create_isa (creds : nat -> string -> string -> result json)
  : result ISACreationResponse * World :=
  create_dss_isa demo_env demo_uuid creds dss_then_timeouts demo_tldextract demo_format
    (JObj []) "https://blender.example/rid" 30 empty_world.

(** C7.  After a 200 of the DSS, a POST to a subscriber that raises is
    swallowed and the call returns the area and the subscribers; but the
    token for the subscriber is fetched, and its [access_token] read, outside
    the [try]: when that fails the exception leaves [create_dss_isa], no
    response is returned and the [isa-] key is not written. *)
Theorem subscriber_token_failure_escapes :
  (exists area subs,
      fst (demo_create_isa (fun _ _ _ => Ok demo_token))
      = Ok {| isa_created := true; service_area := Some area; subscribers := subs |}
      /\ length subs = 1%nat)
  /\ demo_create_isa own_audience_only
     = (Raise (RequestException "token endpoint unreachable"),
        {| uuids_drawn := 1; credential_calls := 2;
           http_log := [Put "http://local-dss-core:8082/rid/v2/dss/identification_service_areas/uuid-a"
                          "Bearer t1" (IsaBody (JObj []) "https://blender.example/rid")];
           redis_log := []; database := [] |})
  /\ fst (demo_create_isa error_for_others) = Raise (KeyError "access_token").
Proof.
  split; [|split].
  - eexists. eexists. split; vm_compute; reflexivity.
  - vm_compute. reflexivity.
  - vm_compute. reflexivity.
Qed.

(** The broker cannot be reached at all. *)
Definition broker_down (n : nat) (audience token_type : string) : result json :=
  Raise (RequestException "token endpoint unreachable").

Lemma no_token_no_dss_request_witness :
  demo_create_isa broker_down = (Ok isa_not_created,
    {| uuids_drawn := 1; credential_calls := 1; http_log := []; redis_log := [];
       database := [] |}).
Proof.
  pose proof (no_token_no_dss_request demo_env demo_uuid broker_down dss_then_timeouts
                (fun s => "2024-01-01T00:00:00.000001") (fun _ => 42) demo_tldextract
                demo_format (fun _ => Raise (ValueError "unused"))
                (JObj []) "https://blender.example/rid" 30 demo_vertices
                "33,-117,34,-116" "request-1" 30 false empty_world
                (or_intror (or_introl (ex_intro _ _ eq_refl)))) as (H & _).
  unfold demo_create_isa.
  destruct (create_dss_isa demo_env demo_uuid broker_down dss_then_timeouts demo_tldextract
              demo_format (JObj []) "https://blender.example/rid" 30 empty_world)
    as [res w'] eqn:E.
  simpl in H. subst res. f_equal.
  apply (f_equal snd) in E. simpl in E. subst w'. vm_compute. reflexivity.
Defined.

Definition two_subscribers : list SubscriberToNotify :=
  [ {| url := JStr "https://uss1.example"; subscriptions := [] |};
    {| url := JStr "https://uss2.example"; subscriptions := [] |} ].

Lemma every_subscriber_is_notified_witness :
  exists w' reqs,
    notify_subscribers (fun _ _ _ => Ok demo_token) dss_then_timeouts demo_tldextract
      demo_format "isa-1" (fallback_area {| time_value := "t0"; time_format := "RFC3339" |}
                             {| time_value := "t1"; time_format := "RFC3339" |} "isa-1"
                             "https://blender.example/rid")
      (JObj []) two_subscribers empty_world = (Ok tt, w')
    /\ http_log w' = reqs
    /\ map request_target reqs
       = ["https://uss1.example/uss/identification_service_areas/isa-1";
          "https://uss2.example/uss/identification_service_areas/isa-1"].
Proof.
  destruct (every_subscriber_is_notified (fun _ _ _ => Ok demo_token) dss_then_timeouts
              demo_tldextract demo_format "isa-1"
              (fallback_area {| time_value := "t0"; time_format := "RFC3339" |}
                 {| time_value := "t1"; time_format := "RFC3339" |} "isa-1"
                 "https://blender.example/rid")
              (JObj []) two_subscribers empty_world
              (fun n audience => ex_intro _ demo_token (ex_intro _ "Bearer t1"
                 (conj eq_refl (conj eq_refl eq_refl)))))
    as (w' & reqs & Hn & Hl & Hm & _).
  exists w', reqs. split; [exact Hn|]. split; [exact Hl|].
  apply (f_equal (map fst)) in Hm. rewrite !map_map in Hm. exact Hm.
Defined.

End DssRid.

(** ** geo_fence_operations/url_safety.py: the URL safety validator *)

Module UrlSafety.

Import HttpDownload.

(** What [urlparse(url)] gives, as far as the validator reads it; [port] is
    computed on access and raises [ValueError] for a port that is no number
    or out of range. *)
Record ParseResult : Type := {
  scheme : string;
  netloc : string;
  username : option string;
  password : option string;
  hostname : option string;
  port : result (option Z)
}.

(** The properties of an [ipaddress] address the validator reads. *)
Record IPAddress : Type := {
  is_private : bool;
  is_loopback : bool;
  is_link_local : bool;
  is_multicast : bool;
  is_reserved : bool;
  is_unspecified : bool
}.

(** What [socket.getaddrinfo] comes to: [socket.gaierror], another
    exception, or the [sockaddr[0]] of each entry ([None] for an empty
    [sockaddr]). *)
Inductive addrinfo : Type :=
| GaiError
| ResolverRaises (e : exn)
| Resolved (addresses : list (option string)).

(** Truthiness of an optional string. *)
Definition present (s : option string) : bool :=
  match s with Some v => negb (String.eqb v "") | None => false end.

Section Validator.

(** [urlparse(url)] (raises [ValueError] on a malformed URL). *)
Variable urlparse : string -> result ParseResult.
(** [ipaddress.ip_address(host)] ([None]: it raises [ValueError]). *)
Variable ip_address : string -> option IPAddress.
(** [socket.getaddrinfo(host, port, proto=socket.IPPROTO_TCP)] *)
Variable getaddrinfo : string -> Z -> addrinfo.

Definition _looks_like_ip (host : string) : bool :=
  match ip_address host with Some _ => true | None => false end.

Definition _is_disallowed_ip (host : string) : bool :=
  match ip_address host with
  | None => false
  | Some ip =>
      is_private ip || is_loopback ip || is_link_local ip || is_multicast ip
      || is_reserved ip || is_unspecified ip
  end.

(** The addresses [_resolved_ips] collects from the entries. *)
Fixpoint collect_ips (infos : list (option string)) : list string :=
  match infos with
  | [] => []
  | Some ip :: rest => if String.eqb ip "" then collect_ips rest else ip :: collect_ips rest
  | None :: rest => collect_ips rest
  end.

Definition validate_public_url (url : string) (allow_http require_https : bool) : validation :=
  match urlparse url with
  | Raise (ValueError _) => Rejects "invalid_url"
  | Raise e => ValidationRaises e
  | Ok parsed =>
      let scheme := lower (scheme parsed) in
      if negb (String.eqb scheme "http" || String.eqb scheme "https")
      then Rejects "unsupported_scheme"
      else if require_https && negb (String.eqb scheme "https") && negb allow_http
      then Rejects "https_required"
      else if String.eqb scheme "http" && negb allow_http then Rejects "http_not_allowed"
      else if String.eqb (netloc parsed) "" then Rejects "missing_host"
      else if present (username parsed) || present (password parsed)
      then Rejects "userinfo_not_allowed"
      else if negb (present (hostname parsed)) then Rejects "missing_host"
      else
        let host := lower (py_strip (env_get (hostname parsed) "")) in
        if String.eqb host "localhost" then Rejects "localhost_not_allowed"
        else
          match port parsed with
          | Raise e => ValidationRaises e
          | Ok port =>
              let port :=
                match port with
                | Some p => p
                | None => if String.eqb scheme "https" then 443 else 80
                end in
              if _looks_like_ip host && _is_disallowed_ip host then Rejects "ip_not_allowed"
              else
                match getaddrinfo host port with
                | GaiError => Rejects "dns_failed"
                | ResolverRaises e => ValidationRaises e
                | Resolved infos =>
                    let ips := collect_ips infos in
                    match ips with
                    | [] => Rejects "dns_failed"
                    | _ :: _ =>
                        if existsb _is_disallowed_ip ips
                        then Rejects "resolved_ip_not_allowed"
                        else Accepts
                    end
                end
          end
  end.

(** *** Properties of the validator *)

(** Everything an accepted URL has passed. *)
Definition passed (url : string) (allow_http : bool) : Prop :=
  exists (parsed : ParseResult) (host : string) (given_port : option Z)
         (infos : list (option string)),
    urlparse url = Ok parsed
    /\ (lower (scheme parsed) = "https"
        \/ (lower (scheme parsed) = "http" /\ allow_http = true))
    /\ netloc parsed <> ""
    /\ present (username parsed) = false /\ present (password parsed) = false
    /\ present (hostname parsed) = true
    /\ host = lower (py_strip (env_get (hostname parsed) ""))
    /\ host <> "localhost"
    /\ port parsed = Ok given_port
    /\ _is_disallowed_ip host = false
    /\ getaddrinfo host
         match given_port with
         | Some p => p
         | None => if String.eqb (lower (scheme parsed)) "https" then 443 else 80
         end = Resolved infos
    /\ collect_ips infos <> []
    /\ forall ip, In ip (collect_ips infos) -> _is_disallowed_ip ip = false.

Lemma looks_like_disallowed (host : string) :
  _looks_like_ip host && _is_disallowed_ip host = _is_disallowed_ip host.
Proof.
  unfold _looks_like_ip, _is_disallowed_ip. destruct (ip_address host); reflexivity.
Qed.

Ltac case_if :=
  match goal with
  | |- context [if ?b then _ else _] => destruct b eqn:?
  end.

(** What acceptance implies, check by check. *)
Lemma accepted_passed (url : string) (allow_http require_https : bool) :
  validate_public_url url allow_http require_https = Accepts -> passed url allow_http.
Proof.
  unfold validate_public_url.
  destruct (urlparse url) as [parsed|e] eqn:Hp; [|destruct e; discriminate].
  case_if; [discriminate|]. case_if; [discriminate|]. case_if; [discriminate|].
  case_if; [discriminate|]. case_if; [discriminate|]. case_if; [discriminate|].
  case_if; [discriminate|].
  destruct (port parsed) as [p|e] eqn:Hport; [|discriminate].
  rewrite looks_like_disallowed. case_if; [discriminate|].
  match goal with
  | |- context [getaddrinfo ?h ?q] => destruct (getaddrinfo h q) as [| |infos] eqn:Hg
  end; try discriminate.
  destruct (collect_ips infos) as [|ip ips] eqn:Hc; [discriminate|].
  case_if; [discriminate|]. intros _.
  repeat match goal with
         | H : negb _ = false |- _ => apply negb_false_iff in H
         | H : _ || _ = false |- _ => apply orb_false_iff in H as [? ?]
         end.
  eexists parsed, _, p, infos.
  split; [exact Hp|]. split.
  { match goal with H : _ || _ = true |- _ => apply orb_true_iff in H as [H|H] end.
    - right. split; [apply String.eqb_eq; assumption|].
      match goal with H' : _ && negb allow_http = false |- _ =>
        apply andb_false_iff in H' as [H'|H'] end; [congruence|].
      apply negb_false_iff. assumption.
    - left. apply String.eqb_eq. assumption. }
  split; [apply String.eqb_neq; assumption|].
  split; [assumption|]. split; [assumption|]. split; [assumption|].
  split; [reflexivity|]. split; [apply String.eqb_neq; assumption|].
  split; [exact Hport|].
  split; [assumption|]. split; [exact Hg|]. rewrite Hc. split; [discriminate|].
  intros a Hin. destruct (_is_disallowed_ip a) eqn:Hx; [|reflexivity].
  assert (existsb _is_disallowed_ip (ip :: ips) = true)
    by (apply existsb_exists; exists a; auto).
  congruence.
Qed.

(** X1.  A URL is accepted exactly when it passed every check: it parsed,
    its scheme is https (or http with [allow_http]), it has a network
    location without user name or password, its host is present and not
    [localhost], its port is well formed, the host is no disallowed literal
    address, and name resolution gave at least one address and none that is
    private, loopback, link-local, multicast, reserved or unspecified. *)
Theorem accepted_iff_passed_every_check (url : string) (allow_http require_https : bool) :
  validate_public_url url allow_http require_https = Accepts <-> passed url allow_http.
Proof.
  split; [apply accepted_passed|].
  intros (parsed & host & gp & infos & Hp & Hs & Hn & Hu & Hw & Hh & -> & Hl & Hport & Hd
          & Hg & Hc & Hall).
  unfold validate_public_url. rewrite Hp.
  assert (Hsch : (String.eqb (lower (scheme parsed)) "http"
                  || String.eqb (lower (scheme parsed)) "https") = true
                 /\ (require_https && negb (String.eqb (lower (scheme parsed)) "https")
                     && negb allow_http) = false
                 /\ (String.eqb (lower (scheme parsed)) "http" && negb allow_http) = false).
  { destruct Hs as [Hs|[Hs ->]]; rewrite Hs; simpl;
      rewrite ?andb_false_r; auto using orb_true_r. }
  destruct Hsch as (H1 & H2 & H3). rewrite H1, H2, H3. simpl.
  apply String.eqb_neq in Hn, Hl. rewrite Hn, Hu, Hw, Hh, Hl, Hport. simpl.
  rewrite looks_like_disallowed, Hd, Hg.
  destruct (collect_ips infos) as [|ip ips] eqn:E; [contradiction|].
  destruct (existsb _is_disallowed_ip (ip :: ips)) eqn:He; [|reflexivity].
  apply existsb_exists in He as (a & Hin & Ha). rewrite (Hall a Hin) in Ha. discriminate.
Qed.

(** X2.  [require_https] never decides whether a URL is accepted: it only
    turns the reason given for an http URL, when http is not allowed, from
    [http_not_allowed] into [https_required]. *)
Theorem require_https_only_changes_the_reason (url : string) (allow_http : bool) :
  validate_public_url url allow_http true = validate_public_url url allow_http false
  \/ (allow_http = false
      /\ validate_public_url url allow_http true = Rejects "https_required"
      /\ validate_public_url url allow_http false = Rejects "http_not_allowed").
Proof.
  unfold validate_public_url.
  destruct (urlparse url) as [parsed|e]; [|left; reflexivity].
  destruct (String.eqb (lower (scheme parsed)) "http") eqn:Hh;
    destruct (String.eqb (lower (scheme parsed)) "https") eqn:Hs;
    destruct allow_http; simpl; auto.
Qed.

End Validator.

(** *** The validator under the fetcher *)

(** The URLs [fetch_json_url] requests were accepted when they were
    validated. *)
Lemma fetch_json_url_requested_accepted
    (validate : nat -> string -> bool -> bool -> validation)
    (session_get : nat -> string -> get_result) (urljoin : string -> string -> string)
    (json_loads : string -> option json) (settings : DownloadSettings) (url : string)
    (i : nat) (x : string) :
  snd (fetch_json_url_trace validate session_get urljoin json_loads settings url) !! i = Some x ->
  validate i x (allow_http settings) (require_https settings) = Accepts.
Proof.
  unfold fetch_json_url_trace.
  destruct (HttpDownload.validate validate settings 0 url) eqn:Hv; simpl;
    try (intros H; rewrite lookup_nil in H; discriminate).
  intros H.
  refine (proj1 (fetch_loop_requested validate session_get urljoin json_loads settings
                   _ 0 url [] eq_refl Hv _) i x H).
  intros j y Hj. rewrite lookup_nil in Hj. discriminate.
Qed.

(** X3.  With this validator under it, [fetch_json_url] sends requests
    only to URLs that passed every check of the validator at the time they
    were validated (the name resolution of hop [n] being [getaddrinfo n]);
    with [allow_http=False] all of them are https URLs. *)
Theorem fetch_json_url_requests_only_safe_urls
    (urlparse : string -> result ParseResult) (ip_address : string -> option IPAddress)
    (getaddrinfo : nat -> string -> Z -> addrinfo)
    (session_get : nat -> string -> get_result) (urljoin : string -> string -> string)
    (json_loads : string -> option json) (settings : DownloadSettings) (url : string) :
  let validate n := validate_public_url urlparse ip_address (getaddrinfo n) in
  forall i x,
    snd (fetch_json_url_trace validate session_get urljoin json_loads settings url) !! i
      = Some x ->
    passed urlparse ip_address (getaddrinfo i) x (allow_http settings)
    /\ (allow_http settings = false ->
        exists parsed, urlparse x = Ok parsed /\ lower (scheme parsed) = "https").
Proof.
  intros validate i x H.
  apply fetch_json_url_requested_accepted in H.
  apply accepted_passed in H.
  split; [exact H|]. intros Ha.
  destruct H as (parsed & host & gp & infos & Hp & [Hs|[_ Hs]] & _); [eauto | congruence].
Qed.

(** A public host and its resolution. *)
Definition demo_urlparse (url : string) : result ParseResult :=
  Ok {| scheme := "HTTPS"; netloc := "example.org"; username := None; password := None;
        hostname := Some "example.org"; port := Ok None |}.

Definition demo_getaddrinfo (n : nat) (host : string) (port : Z) : addrinfo :=
  Resolved [Some "93.184.216.34"; None].

Lemma fetch_json_url_requests_only_safe_urls_witness :
  passed demo_urlparse (fun _ => None) (demo_getaddrinfo 0) "https://example.org/zones.json"
    (allow_http default_settings)
  /\ (allow_http default_settings = false ->
      exists parsed, demo_urlparse "https://example.org/zones.json" = Ok parsed
                     /\ lower (scheme parsed) = "https").
Proof.
  exact (fetch_json_url_requests_only_safe_urls demo_urlparse (fun _ => None) demo_getaddrinfo
           (fun _ _ => Returns ok_response) demo_urljoin demo_json_loads default_settings
           "https://example.org/zones.json" 0 "https://example.org/zones.json" eq_refl).
Defined.

End UrlSafety.

(** ** geo_fence_operations/tasks.py: the geozone downloader *)

Module GeoZone.

Import HttpDownload.

(** What [_fetch_geozone_json] ends with when it does not return: a
    [GeoZoneDownloadError] with its message, or another exception. *)
Inductive fetch_error : Type :=
| GeoZoneDownloadError (message : string)
| Escapes (e : exn).

Inductive fetch_result : Type :=
| Fetched (data : json)
| Failed (err : fetch_error).

(** What [response.iter_content] yields: a chunk, or a
    [requests.exceptions.RequestException] with its text. *)
Inductive body_item : Type :=
| Bytes (data : string)
| StreamFails (text : string).

Record GeoResponse : Type := {
  geo_status : Z;
  geo_location : option string;         (* [headers.get("Location")] *)
  geo_content_length : option string;   (* [headers.get("Content-Length")] *)
  geo_content_type : option string;     (* [headers.get("Content-Type")] *)
  geo_body : list body_item
}.

(** What [requests.get] comes to: a [RequestException] with its text,
    another exception, or a response. *)
Inductive geo_get : Type :=
| GetFails (text : string)
| GetEscapes (e : exn)
| GetReturns (response : GeoResponse).

Inductive body_result : Type :=
| Whole (raw : string)
| Oversized
| Interrupted (text : string).

(** [GeoAwarenessTestStatus(result=, message=)] *)
Record GeoAwarenessTestStatus : Type := {
  status_result : string;
  status_message : string
}.

(** What the task acts on: the store, and the documents handed to
    [write_geo_zone.delay]. *)
Record TaskWorld : Type := {
  store : gmap string GeoAwarenessTestStatus;
  queued : list json
}.

Section Downloader.

(** [validate_public_url], the validation at hop [n]. *)
Variable validate_public_url : nat -> string -> bool -> bool -> validation.
(** [requests.get(current_url, allow_redirects=False, stream=True, ...)] at hop [n]. *)
Variable requests_get : nat -> string -> geo_get.
Variable urljoin : string -> string -> string.
(** [json.loads(raw.decode("utf-8"))] ([None]: UnicodeDecodeError or JSONDecodeError). *)
Variable json_loads : string -> option json.
(** [int(text)] ([None]: ValueError). *)
Variable parse_int : string -> option Z.
(** [int(env.get("IS_DEBUG", "0"))] and the two module constants. *)
Variable IS_DEBUG : Z.
Variable GEOZONE_MAX_DOWNLOAD_BYTES : Z.
Variable GEOZONE_MAX_REDIRECTS : Z.
(** [write_geo_zone.delay(geo_zone=json.dumps(data), ...)]: whether it raises. *)
Variable queue_raises : json -> bool.
(** [isinstance(e, requests.exceptions.ConnectionError)] *)
Variable is_connection_error : exn -> bool.

Definition allow_http : bool := negb (IS_DEBUG =? 0).

Definition failed (message : string) : fetch_result := Failed (GeoZoneDownloadError message).

(** The loop over [response.iter_content(chunk_size=64 * 1024)]. *)
Fixpoint read_chunks (items : list body_item) (raw : string) (total : Z) : body_result :=
  match items with
  | [] => Whole raw
  | StreamFails text :: _ => Interrupted text
  | Bytes chunk :: rest =>
      if String.eqb chunk "" then read_chunks rest raw total
      else
        let total := total + Z.of_nat (String.length chunk) in
        if total >? GEOZONE_MAX_DOWNLOAD_BYTES then Oversized
        else read_chunks rest (raw +:+ chunk) total
  end.

(** The [Content-Length] check: a header that is set, parses and exceeds the cap. *)
Definition declared_too_large (response : GeoResponse) : bool :=
  match geo_content_length response with
  | Some text =>
      if String.eqb text "" then false
      else match parse_int text with
           | Some n => n >? GEOZONE_MAX_DOWNLOAD_BYTES
           | None => false
           end
  | None => false
  end.

(** The loop body for a response that is no redirect. *)
Definition read_geozone (response : GeoResponse) : fetch_result :=
  if negb (geo_status response =? 200)
  then failed ("http_status:" +:+ pretty (geo_status response))
  else if declared_too_large response then failed "response_too_large"
  else
    let content_type := lower (env_get (geo_content_type response) "") in
    if negb (String.eqb content_type "") && negb (contains "json" content_type)
    then failed "unsupported_content_type"
    else
      match read_chunks (geo_body response) "" 0 with
      | Oversized => failed "response_too_large"
      | Interrupted text => failed ("request_failed:" +:+ text)
      | Whole raw =>
          match json_loads raw with
          | None => failed "invalid_json"
          | Some data => if is_dict data then Fetched data else failed "json_not_object"
          end
      end.

(** [for hop in range(GEOZONE_MAX_REDIRECTS + 1)], with the URLs requested. *)
Fixpoint geozone_loop (hops_left hop : nat) (current_url : string) (requested : list string)
  : fetch_result * list string :=
  match hops_left with
  | O => (failed "too_many_redirects", requested)
  | S hops_left =>
      match validate_public_url hop current_url allow_http true with
      | Rejects reason => (failed ("url_not_allowed:" +:+ reason), requested)
      | ValidationRaises e => (Failed (Escapes e), requested)
      | Accepts =>
          let requested := requested ++ [current_url] in
          match requests_get hop current_url with
          | GetFails text => (failed ("request_failed:" +:+ text), requested)
          | GetEscapes e => (Failed (Escapes e), requested)
          | GetReturns response =>
              if is_redirect (geo_status response) then
                match geo_location response with
                | None => (failed "redirect_without_location", requested)
                | Some location =>
                    if String.eqb location "" then (failed "redirect_without_location", requested)
                    else geozone_loop hops_left (S hop) (urljoin current_url location) requested
                end
              else (read_geozone response, requested)
          end
      end
  end.

Definition _fetch_geozone_json_trace (url : string) : fetch_result * list string :=
  geozone_loop (Z.to_nat (GEOZONE_MAX_REDIRECTS + 1)) 0 url [].

Definition _fetch_geozone_json (url : string) : fetch_result :=
  fst (_fetch_geozone_json_trace url).

(** The status the task arrives at, or the exception that leaves it. *)
Definition test_status (fetched : fetch_result) : result GeoAwarenessTestStatus :=
  match fetched with
  | Failed (Escapes e) =>
      if is_connection_error e
      then Ok {| status_result := "Error"; status_message := "Error in downloading data" |}
      else Raise e
  | Failed (GeoZoneDownloadError message) =>
      Ok {| status_result := if String.prefix "url_not_allowed:" message
                             then "Rejected" else "Error";
            status_message := message |}
  | Fetched data =>
      if queue_raises data
      then Ok {| status_result := "Error";
                 status_message := "Failed to queue GeoZone processing" |}
      else Ok {| status_result := "Ready"; status_message := "" |}
  end.

(** [download_geozone_source(geo_zone_url, geozone_source_id)];
    [geozone_source_id] after [str]. *)
Definition download_geozone_source (geo_zone_url geozone_source_id : string) (w : TaskWorld)
  : result unit * TaskWorld :=
  let geoawareness_test_data_store := "geoawarenes_test." +:+ geozone_source_id in
  let fetched := _fetch_geozone_json geo_zone_url in
  let queued' :=
    match fetched with
    | Fetched data => if queue_raises data then queued w else queued w ++ [data]
    | Failed _ => queued w
    end in
  match test_status fetched with
  | Raise e => (Raise e, {| store := store w; queued := queued' |})
  | Ok test_status_storage =>
      (Ok tt,
       {| store := match store w !! geoawareness_test_data_store with
                   | Some _ => <[geoawareness_test_data_store := test_status_storage]> (store w)
                   | None => store w
                   end;
          queued := queued' |})
  end.

(** *** Properties of the downloader *)

(** The bytes of a body that arrives whole. *)
Fixpoint geo_payload (items : list body_item) : string :=
  match items with
  | [] => ""
  | Bytes c :: rest => c +:+ geo_payload rest
  | StreamFails _ :: rest => geo_payload rest
  end.

Lemma read_chunks_whole (items : list body_item) (raw : string) (total : Z) (raw' : string) :
  read_chunks items raw total = Whole raw' ->
  raw' = raw +:+ geo_payload items
  /\ (geo_payload items = ""
      \/ total + Z.of_nat (String.length (geo_payload items)) <= GEOZONE_MAX_DOWNLOAD_BYTES).
Proof.
  revert raw total. induction items as [|[chunk|text] rest IH]; intros raw total; simpl.
  - intros H. injection H as <-. split; [symmetry; apply append_empty_r | left; reflexivity].
  - destruct (String.eqb chunk "") eqn:E.
    + apply String.eqb_eq in E. subst chunk. change ("" +:+ geo_payload rest)
        with (geo_payload rest). apply IH.
    + destruct (total + Z.of_nat (String.length chunk) >? GEOZONE_MAX_DOWNLOAD_BYTES) eqn:G;
        [discriminate|].
      intros H. apply IH in H as [-> Hl]. rewrite append_assoc. split; [reflexivity|].
      right. rewrite append_length. destruct Hl as [Hl|Hl]; [rewrite Hl; simpl|]; lia.
  - discriminate.
Qed.

(** X4.  Every URL [_fetch_geozone_json] requests was accepted by the
    validator in the same turn of the loop, with https required and http
    allowed only under [IS_DEBUG]; and it makes at most
    [GEOZONE_MAX_REDIRECTS + 1] requests. *)
Theorem geozone_validates_before_every_request (url : string) :
  (forall i x, snd (_fetch_geozone_json_trace url) !! i = Some x ->
               validate_public_url i x allow_http true = Accepts)
  /\ (length (snd (_fetch_geozone_json_trace url))
      <= Z.to_nat (GEOZONE_MAX_REDIRECTS + 1))%nat.
Proof.
  unfold _fetch_geozone_json_trace.
  generalize (Z.to_nat (GEOZONE_MAX_REDIRECTS + 1)). intros n.
  assert (G : forall left hop u req,
             length req = hop ->
             (forall i x, req !! i = Some x -> validate_public_url i x allow_http true = Accepts) ->
             (forall i x, snd (geozone_loop left hop u req) !! i = Some x ->
                          validate_public_url i x allow_http true = Accepts)
             /\ (length (snd (geozone_loop left hop u req)) <= hop + left)%nat).
  { induction left as [|left IH]; intros hop u req Hlen Hreq; simpl.
    { split; [exact Hreq | lia]. }
    destruct (validate_public_url hop u allow_http true) eqn:Hv; simpl;
      try (split; [exact Hreq | lia]).
    assert (Hreq' : forall i x, (req ++ [u]) !! i = Some x ->
                                validate_public_url i x allow_http true = Accepts).
    { intros i x Hl. apply lookup_app_Some in Hl as [Hl|[Hge Hl]]; [eauto|].
      apply list_lookup_singleton_Some in Hl as [Hi <-].
      replace i with hop by lia. exact Hv. }
    assert (Hlen' : length (req ++ [u]) = S hop) by (rewrite length_app; simpl; lia).
    assert (Hstop : (forall i x, (req ++ [u]) !! i = Some x ->
                                 validate_public_url i x allow_http true = Accepts)
                    /\ (length (req ++ [u]) <= hop + S left)%nat)
      by (split; [exact Hreq' | lia]).
    destruct (requests_get hop u) as [text|e|r]; simpl; try exact Hstop.
    destruct (is_redirect (geo_status r)); [|exact Hstop].
    destruct (geo_location r) as [loc|]; simpl; [|exact Hstop].
    destruct (String.eqb loc ""); simpl; [exact Hstop|].
    destruct (IH (S hop) (urljoin u loc) (req ++ [u]) Hlen' Hreq') as [H1 H2].
    split; [exact H1 | lia]. }
  destruct (G n 0%nat url [] eq_refl) as [H1 H2].
  - intros i x H. rewrite lookup_nil in H. discriminate.
  - split; [exact H1 | lia].
Qed.

(** What [read_geozone] hands back when it succeeds. *)
Lemma read_geozone_fetched (r : GeoResponse) (data : json) :
  read_geozone r = Fetched data ->
  geo_status r = 200
  /\ is_dict data = true
  /\ json_loads (geo_payload (geo_body r)) = Some data
  /\ (geo_payload (geo_body r) = ""
      \/ Z.of_nat (String.length (geo_payload (geo_body r))) <= GEOZONE_MAX_DOWNLOAD_BYTES).
Proof.
  unfold read_geozone, failed.
  destruct (geo_status r =? 200) eqn:Hs; simpl; [|discriminate].
  destruct (declared_too_large r); [discriminate|].
  destruct (negb _ && negb _); [discriminate|].
  destruct (read_chunks (geo_body r) "" 0) as [raw| |text] eqn:Hr; try discriminate.
  apply read_chunks_whole in Hr as [-> Hl]. simpl in Hl.
  change ("" +:+ geo_payload (geo_body r)) with (geo_payload (geo_body r)).
  destruct (json_loads (geo_payload (geo_body r))) as [v|] eqn:Hj; [|discriminate].
  destruct (is_dict v) eqn:Hd; [|discriminate].
  intros H. injection H as <-. apply Z.eqb_eq in Hs. auto.
Qed.

(** X5.  What [_fetch_geozone_json] returns is a JSON object, parsed from
    the body of a 200 response to one of the URLs it requested, and that
    body was empty or no longer than [GEOZONE_MAX_DOWNLOAD_BYTES]. *)
Theorem geozone_returns_capped_object (url : string) (data : json) :
  _fetch_geozone_json url = Fetched data ->
  is_dict data = true
  /\ exists hop u r,
      In u (snd (_fetch_geozone_json_trace url))
      /\ requests_get hop u = GetReturns r
      /\ geo_status r = 200
      /\ json_loads (geo_payload (geo_body r)) = Some data
      /\ (geo_payload (geo_body r) = ""
          \/ Z.of_nat (String.length (geo_payload (geo_body r)))
             <= GEOZONE_MAX_DOWNLOAD_BYTES).
Proof.
  unfold _fetch_geozone_json, _fetch_geozone_json_trace.
  generalize (Z.to_nat (GEOZONE_MAX_REDIRECTS + 1)) (@nil string) 0%nat url.
  induction n as [|left IH]; intros req hop u; simpl; [discriminate|].
  destruct (validate_public_url hop u allow_http true); simpl; try discriminate.
  destruct (requests_get hop u) as [text|e|r] eqn:Hg; simpl; try discriminate.
  destruct (is_redirect (geo_status r)).
  - destruct (geo_location r) as [loc|]; simpl; [|discriminate].
    destruct (String.eqb loc ""); simpl; [discriminate|]. apply IH.
  - simpl. intros H. apply read_geozone_fetched in H as (Hs & Hd & Hj & Hl).
    split; [exact Hd|]. exists hop, u, r.
    split; [apply in_or_app; right; left; reflexivity | auto].
Qed.

Lemma prefix_append (p s : string) : String.prefix p (p +:+ s) = true.
Proof.
  induction p as [|c p IH]; [destruct s; reflexivity|].
  rewrite append_cons. simpl. destruct (ascii_dec c c); [exact IH | contradiction].
Qed.

(** A failure that is not about a rejected URL never carries the
    [url_not_allowed:] tag. *)
Lemma geozone_failure_messages (hops_left hop : nat) (u : string) (req : list string)
    (message : string) :
  fst (geozone_loop hops_left hop u req) = failed message ->
  (exists h x reason,
      validate_public_url h x allow_http true = Rejects reason
      /\ message = "url_not_allowed:" +:+ reason)
  \/ String.prefix "url_not_allowed:" message = false.
Proof.
  revert hop u req. induction hops_left as [|left IH]; intros hop u req; simpl.
  { intros H. injection H as <-. right. reflexivity. }
  destruct (validate_public_url hop u allow_http true) as [|reason|e] eqn:Hv; simpl.
  - destruct (requests_get hop u) as [text|e|r]; simpl.
    + intros H. injection H as <-. right. reflexivity.
    + discriminate.
    + destruct (is_redirect (geo_status r)).
      * destruct (geo_location r) as [loc|]; simpl;
          [|intros H; injection H as <-; right; reflexivity].
        destruct (String.eqb loc ""); simpl;
          [intros H; injection H as <-; right; reflexivity | apply IH].
      * simpl. unfold read_geozone, failed.
        repeat match goal with
               | |- context [if ?b then _ else _] => destruct b
               | |- context [match read_chunks ?a ?b ?c with _ => _ end] =>
                   destruct (read_chunks a b c)
               | |- context [match json_loads ?a with _ => _ end] => destruct (json_loads a)
               end; try discriminate; intros H; injection H as <-; right; reflexivity.
  - intros H. injection H as <-. left. eauto.
  - discriminate.
Qed.

(** X6.  The status [download_geozone_source] arrives at is [Rejected]
    exactly when the download stopped at a URL (the first one or the target
    of a redirect) that the validator turned away, and [Ready] exactly when
    a JSON object was fetched and handed to [write_geo_zone]; every other
    end that gives a status gives [Error]. *)
Theorem geozone_status_taxonomy (url : string) (st : GeoAwarenessTestStatus) :
  test_status (_fetch_geozone_json url) = Ok st ->
  (status_result st = "Rejected" <->
   exists hop x reason,
     validate_public_url hop x allow_http true = Rejects reason
     /\ _fetch_geozone_json url = failed ("url_not_allowed:" +:+ reason))
  /\ (status_result st = "Ready" <->
      exists data, _fetch_geozone_json url = Fetched data /\ queue_raises data = false)
  /\ (status_result st = "Rejected" \/ status_result st = "Ready"
      \/ status_result st = "Error").
Proof.
  unfold test_status.
  destruct (_fetch_geozone_json url) as [data|[message|e]] eqn:Hf.
  - destruct (queue_raises data) eqn:Hq; intros H; injection H as <-; simpl.
    + split; [|split; [|auto]].
      * split; [discriminate | intros (h & x & r & _ & E); discriminate].
      * split; [discriminate | intros (d & E & Hd); congruence].
    + split; [|split; [|auto]].
      * split; [discriminate | intros (h & x & r & _ & E); discriminate].
      * split; [eauto | reflexivity].
  - intros H. injection H as <-. simpl.
    pose proof (geozone_failure_messages _ _ _ _ _ Hf) as Hm.
    destruct (String.prefix "url_not_allowed:" message) eqn:Hp.
    + split; [|split; [|auto]].
      * split; [|reflexivity]. intros _.
        destruct Hm as [(h & x & r & Hv & ->)|Hm]; [eauto | discriminate].
      * split; [discriminate | intros (d & E & _); discriminate].
    + split; [|split; [|auto]].
      * split; [discriminate|]. intros (h & x & r & _ & E). unfold failed in E.
        injection E as ->. rewrite prefix_append in Hp. discriminate.
      * split; [discriminate | intros (d & E & _); discriminate].
  - destruct (is_connection_error e); [|discriminate].
    intros H. injection H as <-. simpl. split; [|split; [|auto]].
    + split; [discriminate | intros (h & x & r & _ & E); discriminate].
    + split; [discriminate | intros (d & E & _); discriminate].
Qed.

(** X7.  [download_geozone_source] creates no key in the store and changes
    none but [geoawarenes_test.<id>]; it queues a document for
    [write_geo_zone] only when that document was fetched, and then exactly
    that one. *)
Theorem geozone_task_touches_one_key (url id : string) (w : TaskWorld) :
  let w' := snd (download_geozone_source url id w) in
  (forall k, store w !! k = None -> store w' !! k = None)
  /\ (forall k, k <> "geoawarenes_test." +:+ id -> store w' !! k = store w !! k)
  /\ (queued w' = queued w
      \/ exists data, _fetch_geozone_json url = Fetched data /\ queued w' = queued w ++ [data]).
Proof.
  unfold download_geozone_source.
  destruct (test_status (_fetch_geozone_json url)) as [st|e]; simpl.
  - split; [|split].
    + intros k Hk. destruct (store w !! ("geoawarenes_test." +:+ id)) eqn:E; [|exact Hk].
      destruct (decide ("geoawarenes_test." +:+ id = k)) as [<-|Hne]; [congruence|].
      rewrite lookup_insert_ne by exact Hne. exact Hk.
    + intros k Hk. destruct (store w !! ("geoawarenes_test." +:+ id)); [|reflexivity].
      rewrite lookup_insert_ne by congruence. reflexivity.
    + destruct (_fetch_geozone_json url) as [data|err]; [|left; reflexivity].
      destruct (queue_raises data); [left; reflexivity | right; eauto].
  - split; [auto|]. split; [auto|].
    destruct (_fetch_geozone_json url) as [data|err]; [|left; reflexivity].
    destruct (queue_raises data); [left; reflexivity | right; eauto].
Qed.

End Downloader.

(** *** Concrete downloads *)

Definition zones_response : GeoResponse :=
  {| geo_status := 200; geo_location := None; geo_content_length := Some "10";
     geo_content_type := Some "Application/JSON"; geo_body := [Bytes keys_body] |}.

Definition demo_fetch (requests_get : nat -> string -> geo_get) (url : string) : fetch_result :=
  _fetch_geozone_json demo_validate requests_get demo_urljoin demo_json_loads
    (fun _ => Some 10) 0 5000000 3 url.

Definition demo_status (requests_get : nat -> string -> geo_get) (url : string)
  : result GeoAwarenessTestStatus :=
  test_status (fun _ => false) (fun _ => false) (demo_fetch requests_get url).

Lemma geozone_returns_capped_object_witness :
  is_dict (JObj [("keys", JArr [])]) = true.
Proof.
  exact (proj1 (geozone_returns_capped_object demo_validate
                  (fun _ _ => GetReturns zones_response) demo_urljoin demo_json_loads
                  (fun _ => Some 10) 0 5000000 3 "https://93.184.216.34/zones.json"
                  (JObj [("keys", JArr [])]) eq_refl)).
Defined.

(** A redirect to the loopback address is reported as [Rejected]. *)
Lemma geozone_status_taxonomy_witness :
  "Rejected" = "Rejected" <->
  exists hop x reason,
    demo_validate hop x (allow_http 0) true = Rejects reason
    /\ demo_fetch (fun _ _ => GetReturns
                     {| geo_status := 302; geo_location := Some "https://127.0.0.1/evil";
                        geo_content_length := None; geo_content_type := None;
                        geo_body := [] |})
         "https://93.184.216.34/zones.json"
       = failed ("url_not_allowed:" +:+ reason).
Proof.
  exact (proj1 (geozone_status_taxonomy demo_validate
                  (fun _ _ => GetReturns
                     {| geo_status := 302; geo_location := Some "https://127.0.0.1/evil";
                        geo_content_length := None; geo_content_type := None;
                        geo_body := [] |})
                  demo_urljoin demo_json_loads (fun _ => Some 10) 0 5000000 3
                  (fun _ => false) (fun _ => false) "https://93.184.216.34/zones.json"
                  {| status_result := "Rejected";
                     status_message := "url_not_allowed:ip_not_allowed" |} eq_refl)).
Defined.

End GeoZone.
